(** * Economic-indicator volatility analysis: a shallow embedding

    The development follows the Python sources
    [asymmetric_analysis.py], [data_processor.py],
    [calculate_intraday_volatility.py], [merge_indicators_with_volatility.py],
    [statistical_processor.py], [calculate_indicator_statistics.py] and
    [multiscale_analysis.py].

    Conventions.
    - A float is a rational, an infinity or NaN; arithmetic on finite
      values is exact (rounding error is not modelled).
    - A table (pandas DataFrame) is an ordered association list from column
      names to typed columns; the order matters because the code picks the
      first column whose name contains a given word.
    - A Python dict is a [gmap string pyval].
    - A call that mutates its argument returns the argument's new state
      next to its result.
    - A call that can raise returns an [option]; [None] is the exception.
    - A timestamp is an integer of nanoseconds since the epoch and is not
      bounded, where pandas keeps it in 64 bits.  The statements that add
      minutes to a timestamp, subtract two timestamps or compare timestamps
      with the hours of a date take timestamps of the years 1970 to 2261
      ([in_range]), for which every such value is one pandas has.
    - A sort keeps rows of equal keys in the order of the table; no
      statement depends on the order among equal keys.
    - An integer is not bounded, where numpy keeps it in 64 bits; the
      statements on the arithmetic of prices are made for columns of
      floats. *)

From Stdlib Require Import Ascii String QArith Qround Qabs Lqa Sorted.
From stdpp Require Import gmap strings list fin_maps pretty.

Open Scope Z_scope.

(** ** Floats *)

Inductive float : Type :=
  | Fin (q : Q)
  | PInf
  | NInf
  | NaN.

Definition isnan (x : float) : bool :=
  match x with NaN => true | _ => false end.

(** [flt x y] is [x < y]; any comparison with NaN is false. *)
Definition flt (x y : float) : bool :=
  match x, y with
  | NaN, _ | _, NaN => false
  | _, NInf => false
  | NInf, _ => true
  | PInf, _ => false
  | Fin _, PInf => true
  | Fin a, Fin b => negb (Qle_bool b a)
  end.

Definition fle (x y : float) : bool :=
  match x, y with
  | NaN, _ | _, NaN => false
  | NInf, _ => true
  | _, NInf => false
  | _, PInf => true
  | PInf, _ => false
  | Fin a, Fin b => Qle_bool a b
  end.

(** [feqb x y] is [x == y]; NaN differs from everything. *)
Definition feqb (x y : float) : bool :=
  match x, y with
  | Fin a, Fin b => Qeq_bool a b
  | PInf, PInf | NInf, NInf => true
  | _, _ => false
  end.

Definition fneg (x : float) : float :=
  match x with
  | Fin q => Fin (- q)
  | PInf => NInf
  | NInf => PInf
  | NaN => NaN
  end.

Definition fadd (x y : float) : float :=
  match x, y with
  | NaN, _ | _, NaN => NaN
  | PInf, NInf | NInf, PInf => NaN
  | PInf, _ | _, PInf => PInf
  | NInf, _ | _, NInf => NInf
  | Fin a, Fin b => Fin (a + b)
  end.

Definition fsub (x y : float) : float :=
  match x, y with
  | NaN, _ | _, NaN => NaN
  | PInf, PInf | NInf, NInf => NaN
  | PInf, _ | _, NInf => PInf
  | NInf, _ | _, PInf => NInf
  | Fin a, Fin b => Fin (a - b)
  end.

Definition fabs (x : float) : float :=
  match x with
  | Fin q => Fin (Qabs q)
  | PInf | NInf => PInf
  | NaN => NaN
  end.

(** Division as numpy floats divide: a zero divisor gives an infinity or
    NaN, never an exception. *)
Definition fdiv (x y : float) : float :=
  match x, y with
  | NaN, _ | _, NaN => NaN
  | Fin a, Fin b =>
      if Qeq_bool b 0 then
        if Qeq_bool a 0 then NaN
        else if Qle_bool 0 a then PInf else NInf
      else Fin (a / b)
  | Fin _, _ => Fin 0
  | PInf, Fin b => if Qle_bool 0 b then PInf else NInf
  | NInf, Fin b => if Qle_bool 0 b then NInf else PInf
  | _, _ => NaN
  end.

(** Equality of floats up to the representation of the rational. *)
Definition feq (x y : float) : Prop :=
  match x, y with
  | Fin a, Fin b => (a == b)%Q
  | PInf, PInf | NInf, NInf | NaN, NaN => True
  | _, _ => False
  end.

(** [Series.max()] and [Series.min()]: missing values are skipped, a column
    without any value gives NaN. *)
Definition fmax (x y : float) : float := if flt x y then y else x.
Definition fmin (x y : float) : float := if flt y x then y else x.

Definition dropna_floats (xs : list float) : list float :=
  List.filter (fun x => negb (isnan x)) xs.

Definition series_max (xs : list float) : float :=
  match dropna_floats xs with
  | [] => NaN
  | x :: r => fold_left fmax r x
  end.

Definition series_min (xs : list float) : float :=
  match dropna_floats xs with
  | [] => NaN
  | x :: r => fold_left fmin r x
  end.

(** ** Column names *)

Definition lower_ascii (c : ascii) : ascii :=
  let n := nat_of_ascii c in
  if ((65 <=? n)%nat && (n <=? 90)%nat)%bool then ascii_of_nat (n + 32) else c.

Fixpoint lower (s : string) : string :=
  match s with
  | EmptyString => EmptyString
  | String c s' => String (lower_ascii c) (lower s')
  end.

(** [contains sub s] is Python's [sub in s]. *)
Fixpoint contains (sub s : string) : bool :=
  (String.prefix sub s ||
   match s with
   | EmptyString => false
   | String _ s' => contains sub s'
   end)%bool.

(** ** Python values *)

(** Scalars: what a dict or a table cell holds.  [PyTime None] is NaT. *)
Inductive pyval : Type :=
  | PyNone
  | PyBool (b : bool)
  | PyInt (n : Z)
  | PyNum (x : float)
  | PyStr (s : string)
  | PyTime (t : option Z)
  | PyDate (day : Z).

Abbreviation dict := (gmap string pyval).

(** [d.get(key, default)] *)
Definition get (d : dict) (key : string) (default : pyval) : pyval :=
  match d !! key with
  | Some v => v
  | None => default
  end.

(** A dict literal [{k1: v1, ...}]. *)
Definition dict_of (items : list (string * pyval)) : dict := list_to_map items.

(** Booleans and integers count as numbers. *)
Definition as_num (v : pyval) : option float :=
  match v with
  | PyBool b => Some (Fin (if b then 1 else 0)%Q)
  | PyInt n => Some (Fin (inject_Z n))
  | PyNum x => Some x
  | _ => None
  end.

(** Truth value of an object, as [not] and [if] take it. *)
Definition truthy (v : pyval) : bool :=
  match v with
  | PyNone => false
  | PyBool b => b
  | PyInt n => negb (n =? 0)
  | PyNum x => negb (feqb x (Fin 0))
  | PyStr s => negb (String.eqb s "")
  | PyTime _ | PyDate _ => true
  end.

(** [a == b]: never raises. *)
Definition py_eq (a b : pyval) : bool :=
  match a, b with
  | PyNone, PyNone => true
  | PyStr s, PyStr t => String.eqb s t
  | PyTime (Some s), PyTime (Some t) => (s =? t)
  | PyDate s, PyDate t => (s =? t)
  | _, _ =>
      match as_num a, as_num b with
      | Some x, Some y => feqb x y
      | _, _ => false
      end
  end.

(** [a > b] between two numbers; a TypeError otherwise. *)
Definition py_gt (a b : pyval) : option bool :=
  x ← as_num a; y ← as_num b; Some (flt y x).

(** [a / b] between two numbers, for a divisor that is not zero; a
    TypeError otherwise. *)
Definition py_div (a b : pyval) : option float :=
  x ← as_num a; y ← as_num b; Some (fdiv x y).

(** [pd.isna(v)] *)
Definition is_missing (v : pyval) : bool :=
  match v with
  | PyNone | PyNum NaN | PyTime None => true
  | _ => false
  end.

(** ** Tables *)

(** A column with its dtype.  Timestamps are nanoseconds since the epoch. *)
Inductive Series : Type :=
  | float64 (xs : list float)
  | int64 (ns : list Z)
  | datetime64 (ts : list (option Z))
  | object (os : list pyval).

Definition DataFrame : Type := list (string * Series).

Definition series_cells (s : Series) : list pyval :=
  match s with
  | float64 xs => map PyNum xs
  | int64 ns => map PyInt ns
  | datetime64 ts => map PyTime ts
  | object os => os
  end.

Definition series_len (s : Series) : nat := length (series_cells s).

Definition columns (df : DataFrame) : list string := map fst df.

(** [len(df)] *)
Definition df_len (df : DataFrame) : nat :=
  match df with
  | [] => 0%nat
  | (_, s) :: _ => series_len s
  end.

(** [df[name]] *)
Fixpoint df_get (name : string) (df : DataFrame) : option Series :=
  match df with
  | [] => None
  | (n, s) :: df' => if String.eqb n name then Some s else df_get name df'
  end.

(** [df[name] = s]: an existing column is replaced where it stands, a new
    one is appended. *)
Fixpoint df_set (name : string) (s : Series) (df : DataFrame) : DataFrame :=
  match df with
  | [] => [(name, s)]
  | (n, s0) :: df' =>
      if String.eqb n name then (n, s) :: df' else (n, s0) :: df_set name s df'
  end.

(** Boolean-mask selection [l[mask]]. *)
Fixpoint filter_mask {A : Type} (mask : list bool) (l : list A) : list A :=
  match mask, l with
  | b :: mask', x :: l' =>
      if b then x :: filter_mask mask' l' else filter_mask mask' l'
  | _, _ => []
  end.

(** Selection of rows by position. *)
Definition take_rows {A : Type} (perm : list nat) (l : list A) : list A :=
  omap (fun i => l !! i) perm.

Definition series_map (f : forall A : Type, list A -> list A) (s : Series) : Series :=
  match s with
  | float64 xs => float64 (f _ xs)
  | int64 ns => int64 (f _ ns)
  | datetime64 ts => datetime64 (f _ ts)
  | object os => object (f _ os)
  end.

Definition df_filter (mask : list bool) (df : DataFrame) : DataFrame :=
  map (fun c => (c.1, series_map (fun A => @filter_mask A mask) c.2)) df.

Definition df_take (perm : list nat) (df : DataFrame) : DataFrame :=
  map (fun c => (c.1, series_map (fun A => @take_rows A perm) c.2)) df.

(** The rows of a table, each row listing its cells in column order. *)
Fixpoint rows_of (n : nat) (cols : list (list pyval)) : list (list (option pyval)) :=
  match n with
  | O => []
  | S n' => map head cols :: rows_of n' (map tail cols)
  end.

Definition df_rows (df : DataFrame) : list (list (option pyval)) :=
  rows_of (df_len df) (map (fun c => series_cells c.2) df).

(** [df.iterrows()]: each row as a Series indexed by the column names.  The
    values of a row keep the types of their columns. *)
Definition iterrows (df : DataFrame) : list (list (string * pyval)) :=
  map (fun r => omap (fun c => v ← c.2; Some (c.1, v)) (zip (columns df) r)) (df_rows df).

(** Every column has as many entries as the table has rows. *)
Definition df_wf (df : DataFrame) : Prop :=
  Forall (fun c => series_len c.2 = df_len df) df.

(** Position of a column name in the table. *)
Fixpoint col_index (name : string) (df : DataFrame) : nat :=
  match df with
  | [] => 0%nat
  | (n, _) :: df' => if String.eqb n name then 0%nat else S (col_index name df')
  end.

(** The timestamp a row carries in its [k]-th cell. *)
Definition row_time (k : nat) (r : list (option pyval)) : option Z :=
  match r !! k with
  | Some (Some (PyTime t)) => t
  | _ => None
  end.

Definition is_datetime64_any_dtype (s : Series) : bool :=
  match s with datetime64 _ => true | _ => false end.

Definition datetime_values (s : Series) : list (option Z) :=
  match s with datetime64 ts => ts | _ => [] end.

(** [for x in xs] collecting the results of a body that can raise. *)
Fixpoint collect {A B : Type} (body : A -> option B) (xs : list A) : option (list B) :=
  match xs with
  | [] => Some []
  | x :: xs' => y ← body x; ys ← collect body xs'; Some (y :: ys)
  end.

(** The values of a column as floats, for arithmetic and comparison with
    numbers: a missing value is NaN, any other value that is not a number
    makes the operation raise. *)
Definition numeric_values (s : Series) : option (list float) :=
  match s with
  | float64 xs => Some xs
  | int64 ns => Some (map (fun n => Fin (inject_Z n)) ns)
  | datetime64 _ => None
  | object os => collect (fun v => if is_missing v then Some NaN else as_num v) os
  end.

(** *** Sorting *)

(** Values of one kind can be compared with one another. *)
Definition kind (v : pyval) : nat :=
  match v with
  | PyBool _ | PyInt _ | PyNum _ => 1%nat
  | PyStr _ => 2%nat
  | PyTime _ => 3%nat
  | PyDate _ => 4%nat
  | PyNone => 0%nat
  end.

(** Sorting a column raises when it mixes kinds. *)
Definition sortable (s : Series) : bool :=
  match List.filter (fun v => negb (is_missing v)) (series_cells s) with
  | [] => true
  | v :: vs => forallb (fun w => (kind w =? kind v)%nat) vs
  end.

(** Ascending order with missing values last. *)
Definition key_le (a b : pyval) : bool :=
  if is_missing b then true
  else if is_missing a then false
  else
    match a, b with
    | PyStr s, PyStr t => String.leb s t
    | PyTime (Some s), PyTime (Some t) => (s <=? t)
    | PyDate s, PyDate t => (s <=? t)
    | _, _ =>
        match as_num a, as_num b with
        | Some x, Some y => fle x y
        | _, _ => true
        end
    end.

Fixpoint insert_by {A : Type} (le : A -> A -> bool) (x : A) (l : list A) : list A :=
  match l with
  | [] => [x]
  | y :: l' => if le x y then x :: l else y :: insert_by le x l'
  end.

(** The positions of the keys in sorted order; equal keys keep their
    order. *)
Definition argsort (keys : list pyval) : list nat :=
  map snd (foldr (insert_by (fun a b => key_le a.1 b.1)) []
             (zip keys (seq 0 (length keys)))).

(** [df.sort_values(by=name)]; [None] when it raises. *)
Definition sort_values (by_ : string) (df : DataFrame) : option DataFrame :=
  keys ← df_get by_ df;
  if sortable keys then Some (df_take (argsort (series_cells keys)) df) else None.

(** *** Column sniffing *)

(** ['time' in col.lower() or 'date' in col.lower()] *)
Definition is_time_name (col : string) : bool :=
  (contains "time" (lower col) || contains "date" (lower col))%bool.

Definition time_cols (df : DataFrame) : list string :=
  List.filter is_time_name (columns df).

(** [col for col in df.columns if 'price' in col.lower()] *)
Definition price_cols (df : DataFrame) : list string :=
  List.filter (fun col => contains "price" (lower col)) (columns df).

(** [(col >= start_time) & (col <= end_time)] on one timestamp; a
    comparison with NaT is false. *)
Definition in_window (start_time end_time t : option Z) : bool :=
  match start_time, end_time, t with
  | Some a, Some b, Some t => ((a <=? t) && (t <=? b))%bool
  | _, _, _ => false
  end.

(** ** Library functions taken as parameters *)

Record Library : Type := {
  (** [pd.to_datetime] on a float or object column; [None] when it raises *)
  lib_to_datetime : Series -> option (list (option Z));
  (** [pd.to_datetime] on a scalar that is neither a timestamp nor an
      integer; [None] when it raises *)
  lib_scalar_to_datetime : pyval -> option (option Z);
  (** [str(e)] of an exception the code catches *)
  lib_str_exception : string;
  (** [np.log] *)
  np_log : float -> float;
  (** [Series.quantile(p)] on the values of a numeric column *)
  lib_quantile : list float -> Q -> float;
  (** [scipy.stats.pearsonr(x, y)]: correlation and p-value; [None] when it
      raises *)
  pearsonr : list float -> list float -> option (float * float);
  (** [scipy.stats.linregress(x, y)]: slope, intercept, r-value, p-value
      and standard error; [None] when it raises *)
  linregress : list float -> list float -> option (float * float * float * float * float)
}.

(** A library in which every call fails or gives NaN.  Closed examples
    whose outcome does not depend on the library are stated with it. *)
Definition null_library : Library :=
  {| lib_to_datetime := fun _ => None;
     lib_scalar_to_datetime := fun _ => None;
     lib_str_exception := "";
     np_log := fun _ => NaN;
     lib_quantile := fun _ _ => NaN;
     pearsonr := fun _ _ => None;
     linregress := fun _ _ => None |}.

(** [pd.to_datetime(s)] on a column: integers are nanoseconds since the
    epoch. *)
Definition to_datetime (L : Library) (s : Series) : option (list (option Z)) :=
  match s with
  | datetime64 ts => Some ts
  | int64 ns => Some (map Some ns)
  | _ => lib_to_datetime L s
  end.

(** [pd.to_datetime(v)] on a scalar. *)
Definition scalar_to_datetime (L : Library) (v : pyval) : option (option Z) :=
  match v with
  | PyTime t => Some t
  | PyInt n => Some (Some n)
  | _ => lib_scalar_to_datetime L v
  end.

Definition NS_PER_MINUTE : Z := 60000000000.

(** [t + pd.Timedelta(minutes=m)] *)
Definition add_minutes (t : option Z) (m : Z) : option Z :=
  (fun t => t + m * NS_PER_MINUTE) <$> t.

(** The timestamps of the years 1970 to 2261. *)
Definition in_range (t : Z) : Prop := 0 <= t < 9214646400000000000.

(** [(end_time - start_time).total_seconds() / 60]: [total_seconds] counts
    the days, seconds and microseconds of the difference and leaves its
    nanoseconds out. *)
Definition minutes_between (start_time end_time : option Z) : float :=
  match start_time, end_time with
  | Some a, Some b => Fin (inject_Z ((b - a) / 1000) / 60000000)
  | _, _ => NaN
  end.

(** ** asymmetric_analysis.py *)

Module asymmetric_analysis.

Section Analyzer.

Context (L : Library).

(** [extract_zigzag_window(zigzag_df, start_time, end_time)].  The first
    component is [zigzag_df] as the call leaves it, the second the
    returned table.  Every exception is caught and gives [pd.DataFrame()];
    assigning a column of another length than the table is one. *)
Definition extract_zigzag_window (zigzag_df : DataFrame) (start_time end_time : option Z)
    : DataFrame * DataFrame :=
  match time_cols zigzag_df with
  | [] => (zigzag_df, [])
  | time_col :: _ =>
      match df_get time_col zigzag_df with
      | None => (zigzag_df, [])
      | Some s =>
          if is_datetime64_any_dtype s then
            (zigzag_df,
             df_filter (map (in_window start_time end_time) (datetime_values s)) zigzag_df)
          else
            match to_datetime L s with
            | None => (zigzag_df, [])
            | Some ts =>
                if (length ts =? df_len zigzag_df)%nat then
                  let zigzag_df' := df_set time_col (datetime64 ts) zigzag_df in
                  (zigzag_df',
                   df_filter (map (in_window start_time end_time) ts) zigzag_df')
                else (zigzag_df, [])
            end
      end
  end.

Definition direction_of (start_price end_price : float) : string :=
  if flt start_price end_price then "up"
  else if flt end_price start_price then "down"
  else "neutral".

(** [calculate_price_movement(zigzag_window)] *)
Definition calculate_price_movement (zigzag_window : DataFrame) : dict :=
  if (df_len zigzag_window <? 2)%nat then
    dict_of
      [("price_movement", PyInt 0); ("max_price", PyNone); ("min_price", PyNone);
       ("start_price", PyNone); ("end_price", PyNone);
       ("movement_direction", PyStr "neutral")]
  else
    let failed : dict :=
      dict_of [("price_movement", PyInt 0); ("error", PyStr (lib_str_exception L))] in
    match price_cols zigzag_window with
    | [] =>
        dict_of [("price_movement", PyInt 0); ("error", PyStr "No price column found")]
    | price_col :: _ =>
        match df_get price_col zigzag_window ≫= numeric_values with
        | None => failed
        | Some prices =>
            let max_price := series_max prices in
            let min_price := series_min prices in
            let price_movement := fsub max_price min_price in
            let sorted_data :=
              match time_cols zigzag_window with
              | time_col :: _ => sort_values time_col zigzag_window
              | [] => Some zigzag_window
              end in
            match (sorted_data ≫= df_get price_col) ≫= numeric_values with
            | None => failed
            | Some sorted_prices =>
                match head sorted_prices, last sorted_prices with
                | Some start_price, Some end_price =>
                    dict_of
                      [("price_movement", PyNum price_movement);
                       ("max_price", PyNum max_price);
                       ("min_price", PyNum min_price);
                       ("start_price", PyNum start_price);
                       ("end_price", PyNum end_price);
                       ("movement_direction", PyStr (direction_of start_price end_price));
                       ("net_movement", PyNum (fsub end_price start_price));
                       ("movement_efficiency",
                        if flt (Fin 0) price_movement
                        then PyNum (fdiv (fabs (fsub end_price start_price)) price_movement)
                        else PyInt 0)]
                | _, _ => failed
                end
            end
        end
    end.

(** [calculate_movement_speed(zigzag_window)] *)
Definition calculate_movement_speed (zigzag_window : DataFrame) : dict :=
  if (df_len zigzag_window <? 2)%nat then {["movement_speed" := PyInt 0]}
  else
    let failed : dict :=
      dict_of [("movement_speed", PyInt 0); ("error", PyStr (lib_str_exception L))] in
    match price_cols zigzag_window, time_cols zigzag_window with
    | _ :: _, time_col :: _ =>
        match sort_values time_col zigzag_window with
        | None => failed
        | Some sorted_data =>
            let times := default [] (series_cells <$> df_get time_col sorted_data) in
            match head times ≫= scalar_to_datetime L, last times ≫= scalar_to_datetime L with
            | Some start_time, Some end_time =>
                let time_diff_minutes := minutes_between start_time end_time in
                if feqb time_diff_minutes (Fin 0) then
                  dict_of [("movement_speed", PyInt 0);
                           ("error", PyStr "Zero time difference")]
                else
                  let movement_results := calculate_price_movement sorted_data in
                  let price_movement := get movement_results "price_movement" (PyInt 0) in
                  match py_div price_movement (PyNum time_diff_minutes) with
                  | None => failed
                  | Some movement_speed =>
                      let leg_frequency :=
                        if flt (Fin 0) time_diff_minutes
                        then PyNum (fdiv (Fin (inject_Z (Z.of_nat (df_len sorted_data) - 1)))
                                      time_diff_minutes)
                        else PyInt 0 in
                      dict_of [("movement_speed", PyNum movement_speed);
                               ("time_diff_minutes", PyNum time_diff_minutes);
                               ("leg_frequency", leg_frequency)]
                  end
            | _, _ => failed
            end
        end
    | _, _ =>
        dict_of [("movement_speed", PyInt 0); ("error", PyStr "Missing required columns")]
    end.

(** *** AsymmetricAnalyzer *)

(** [AsymmetricAnalyzer.__init__]: [post_windows if post_windows else [5, 15, 30]] *)
Definition init_post_windows (post_windows : list Z) : list Z :=
  match post_windows with
  | [] => [5; 15; 30]
  | _ => post_windows
  end.

(** [indicator_row[key]] *)
Definition row_get (indicator_row : list (string * pyval)) (key : string) : option pyval :=
  snd <$> List.find (fun c => String.eqb c.1 key) indicator_row.

Inductive event_time_result : Type :=
  | NoDatetimeColumn
  | ConversionRaised
  | EventTime (event_time : option Z).

(** The announcement time of a row: [DateTime_UTC], or else the first
    entry whose name contains [datetime] or [time]. *)
Definition event_time_of (indicator_row : list (string * pyval)) : event_time_result :=
  let found :=
    match row_get indicator_row "DateTime_UTC" with
    | Some v => Some v
    | None =>
        match List.filter (fun col => (contains "datetime" (lower col) ||
                                       contains "time" (lower col))%bool)
                (map fst indicator_row) with
        | col :: _ => row_get indicator_row col
        | [] => None
        end
    end in
  match found with
  | None => NoDatetimeColumn
  | Some v =>
      match scalar_to_datetime L v with
      | None => ConversionRaised
      | Some t => EventTime t
      end
  end.

Definition len_value (df : DataFrame) : pyval := PyInt (Z.of_nat (df_len df)).

(** [AsymmetricAnalyzer.analyze_pre_event(indicator_row, zigzag_df)] for
    an analyzer with the given [pre_window]; the first component is
    [zigzag_df] as the call leaves it. *)
Definition analyze_pre_event (pre_window : Z) (indicator_row : list (string * pyval))
    (zigzag_df : DataFrame) : DataFrame * dict :=
  match event_time_of indicator_row with
  | NoDatetimeColumn =>
      (zigzag_df, dict_of [("pre_event_valid", PyBool false);
                           ("error", PyStr "No datetime column found")])
  | ConversionRaised =>
      (zigzag_df, dict_of [("pre_event_valid", PyBool false);
                           ("error", PyStr (lib_str_exception L))])
  | EventTime event_time =>
      let pre_start := add_minutes event_time (- pre_window) in
      let '(zigzag_df, pre_data) := extract_zigzag_window zigzag_df pre_start event_time in
      if (df_len pre_data <? 2)%nat then
        (zigzag_df, dict_of [("pre_event_valid", PyBool false);
                             ("pre_event_points", len_value pre_data);
                             ("pre_window_minutes", PyInt pre_window)])
      else
        let movement_results := calculate_price_movement pre_data in
        let speed_results := calculate_movement_speed pre_data in
        let results :=
          dict_of [("pre_event_valid", PyBool true);
                   ("pre_window_minutes", PyInt pre_window);
                   ("pre_event_points", len_value pre_data);
                   ("pre_event_legs", PyInt (Z.of_nat (df_len pre_data) - 1))] in
        let results := movement_results ∪ results in
        let results := speed_results ∪ results in
        let last_minute_start := add_minutes event_time (- 1) in
        let '(zigzag_df, last_minute_data) :=
          extract_zigzag_window zigzag_df last_minute_start event_time in
        if (2 <=? df_len last_minute_data)%nat then
          let last_min_movement := calculate_price_movement last_minute_data in
          (zigzag_df,
           <["pre_event_last_min_direction" :=
               get last_min_movement "movement_direction" (PyStr "neutral")]>
             (<["pre_event_last_min_movement" :=
                  get last_min_movement "price_movement" (PyInt 0)]> results))
        else (zigzag_df, results)
  end.

Definition window_key (minutes : Z) : string := "post_" +:+ pretty minutes +:+ "min".

(** [for k, v in d.items(): results[f'{window_key}_{k}'] = v] *)
Definition with_prefix (prefix : string) (d : dict) : dict :=
  dict_of (map (fun kv => (prefix +:+ "_" +:+ kv.1, kv.2)) (map_to_list d)).

(** One turn of the loop of [analyze_post_event]. *)
Definition post_event_step (indicator_time : option Z) (state : DataFrame * dict)
    (minutes : Z) : DataFrame * dict :=
  let '(zigzag_df, results) := state in
  let post_end := add_minutes indicator_time minutes in
  let '(zigzag_df, post_data) := extract_zigzag_window zigzag_df indicator_time post_end in
  if (df_len post_data <? 2)%nat then
    (zigzag_df,
     <[window_key minutes +:+ "_points" := len_value post_data]>
       (<[window_key minutes +:+ "_valid" := PyBool false]> results))
  else
    let movement_results := calculate_price_movement post_data in
    let speed_results := calculate_movement_speed post_data in
    let results :=
      <[window_key minutes +:+ "_legs" := PyInt (Z.of_nat (df_len post_data) - 1)]>
        (<[window_key minutes +:+ "_points" := len_value post_data]>
           (<[window_key minutes +:+ "_valid" := PyBool true]> results)) in
    let results := with_prefix (window_key minutes) movement_results ∪ results in
    (zigzag_df, with_prefix (window_key minutes) speed_results ∪ results).

(** [AsymmetricAnalyzer.analyze_post_event(indicator_row, zigzag_df)] for
    an analyzer with the given [post_windows]. *)
Definition analyze_post_event (post_windows : list Z)
    (indicator_row : list (string * pyval)) (zigzag_df : DataFrame) : DataFrame * dict :=
  match event_time_of indicator_row with
  | NoDatetimeColumn =>
      (zigzag_df, dict_of [("post_event_valid", PyBool false);
                           ("error", PyStr "No datetime column found")])
  | ConversionRaised =>
      (zigzag_df, dict_of [("post_event_valid", PyBool false);
                           ("error", PyStr (lib_str_exception L))])
  | EventTime event_time =>
      fold_left (post_event_step event_time) post_windows
        (zigzag_df, dict_of [("post_event_valid", PyBool true)])
  end.

(** One turn of the first loop of [calculate_ratios]; [None] is a
    TypeError. *)
Definition ratio_step (pre_movement : pyval) (post_results : dict)
    (ratios : dict) (minutes : Z) : option dict :=
  if negb (truthy (get post_results (window_key minutes +:+ "_valid") (PyBool false)))
  then Some ratios
  else
    let post_movement :=
      get post_results (window_key minutes +:+ "_price_movement") (PyInt 0) in
    positive ← py_gt pre_movement (PyInt 0);
    ratio ← (if positive : bool then py_div post_movement pre_movement else Some PInf);
    let ratios := <["ratio_" +:+ pretty minutes +:+ "min" := PyNum ratio]> ratios in
    Some (if flt (Fin 0) ratio
          then <["log_ratio_" +:+ pretty minutes +:+ "min" := PyNum (np_log L ratio)]> ratios
          else ratios).

Definition direction_consistency (pre_direction post_direction : pyval) : float :=
  if (py_eq pre_direction (PyStr "neutral") || py_eq post_direction (PyStr "neutral"))%bool
  then Fin 0.5
  else if py_eq pre_direction post_direction then Fin 1
  else Fin 0.

(** One turn of the second loop of [calculate_ratios]. *)
Definition direction_step (pre_direction : pyval) (post_results : dict)
    (ratios : dict) (minutes : Z) : dict :=
  let post_direction :=
    get post_results (window_key minutes +:+ "_movement_direction") (PyStr "neutral") in
  <["direction_consistency_" +:+ pretty minutes +:+ "min" :=
      PyNum (direction_consistency pre_direction post_direction)]> ratios.

(** [for x in xs] over a step that can raise. *)
Fixpoint for_each {S A : Type} (step : S -> A -> option S) (xs : list A) (s : S)
    : option S :=
  match xs with
  | [] => Some s
  | x :: xs' => s' ← step s x; for_each step xs' s'
  end.

(** [AsymmetricAnalyzer.calculate_ratios(pre_results, post_results)] for an
    analyzer with the given [post_windows]; [None] when it raises. *)
Definition calculate_ratios (post_windows : list Z) (pre_results post_results : dict)
    : option dict :=
  if negb (truthy (get pre_results "pre_event_valid" (PyBool false))) then
    Some (dict_of [("ratios_valid", PyBool false);
                   ("error", PyStr "Invalid pre-event results")])
  else if negb (truthy (get post_results "post_event_valid" (PyBool false))) then
    Some (dict_of [("ratios_valid", PyBool false);
                   ("error", PyStr "Invalid post-event results")])
  else
    let pre_movement := get pre_results "price_movement" (PyInt 0) in
    if py_eq pre_movement (PyInt 0) then
      Some (dict_of
              [("ratios_valid", PyBool false);
               ("error", PyStr "Pre-event movement is zero, cannot calculate ratios")])
    else
      ratios ← for_each (ratio_step pre_movement post_results) post_windows ∅;
      let pre_direction := get pre_results "movement_direction" (PyStr "neutral") in
      let ratios := fold_left (direction_step pre_direction post_results) post_windows ratios in
      Some (<["ratios_valid" := PyBool true]> ratios).

(** [AsymmetricAnalyzer.analyze_indicator(indicator_row, zigzag_df)];
    [None] when [calculate_ratios] raises. *)
Definition analyze_indicator (pre_window : Z) (post_windows : list Z)
    (indicator_row : list (string * pyval)) (zigzag_df : DataFrame)
    : option (DataFrame * dict) :=
  let '(zigzag_df, pre_results) := analyze_pre_event pre_window indicator_row zigzag_df in
  let '(zigzag_df, post_results) := analyze_post_event post_windows indicator_row zigzag_df in
  let combined_results : dict := post_results ∪ pre_results in
  combined_results ←
    (if (truthy (get pre_results "pre_event_valid" (PyBool false)) &&
         truthy (get post_results "post_event_valid" (PyBool false)))%bool
     then ratio_results ← calculate_ratios post_windows pre_results post_results;
          Some (ratio_results ∪ combined_results)
     else Some combined_results);
  Some (zigzag_df,
        fold_left (fun (acc : dict) kv =>
                     match acc !! kv.1 with
                     | Some _ => acc
                     | None => <[kv.1 := kv.2]> acc
                     end) indicator_row combined_results).

(** [batch_process_indicators(indicators_df, zigzag_df, analyzer)]: the
    table [zigzag_df] as the call leaves it and the rows of the returned
    table; [analyzer] gives [pre_window] and [post_windows], [None] is a
    new [AsymmetricAnalyzer()]. *)
Definition batch_process_indicators (indicators_df zigzag_df : DataFrame)
    (analyzer : option (Z * list Z)) : option (DataFrame * list dict) :=
  let analyzer := default (5, init_post_windows []) analyzer in
  for_each (fun (state : DataFrame * list dict) indicator_row =>
              r ← analyze_indicator analyzer.1 analyzer.2 indicator_row state.1;
              Some (r.1, state.2 ++ [r.2]))
    (iterrows indicators_df) (zigzag_df, []).

End Analyzer.

End asymmetric_analysis.

(** ** Fixed day segments *)

(** [f'{n:02}'] and [str(n).zfill(2)] for an hour. *)
Definition fmt02 (n : Z) : string :=
  let s := pretty n in
  if (String.length s <? 2)%nat then "0" +:+ s else s.

(** The segments [(start, end)] with [start <= hour < end]. *)
Definition segments_containing (ranges : list (Z * Z)) (hour : Z) : list (Z * Z) :=
  List.filter (fun r => ((r.1 <=? hour) && (hour <? r.2))%bool) ranges.

Module calculate_intraday_volatility.

Definition JST_TIME_RANGES : list (Z * Z) :=
  [(7, 9); (9, 12); (12, 15); (15, 21); (21, 24); (0, 3); (3, 7)].

End calculate_intraday_volatility.

Module merge_indicators_with_volatility.

Definition jst_time_ranges : list (Z * Z) :=
  [(7, 9); (9, 12); (12, 15); (15, 21); (21, 24); (0, 3); (3, 7)].

Fixpoint first_range (ranges : list (Z * Z)) (hour : Z) : option string :=
  match ranges with
  | [] => None
  | (start, end_) :: ranges' =>
      if ((start <=? hour) && (hour <? end_))%bool
      then Some (fmt02 start +:+ ":00-" +:+ fmt02 end_ +:+ ":00")
      else first_range ranges' hour
  end.

(** [get_time_range(hour)] *)
Definition get_time_range (hour : Z) : option string :=
  first_range jst_time_ranges hour.

End merge_indicators_with_volatility.

(** ** data_processor.py *)

Module data_processor.

Definition FIXED_TIME_WINDOWS_JST : list (Z * Z) :=
  [(0, 3); (3, 6); (7, 9); (9, 12); (12, 15); (15, 21); (21, 24)].

Definition NS_PER_HOUR : Z := 3600000000000.

(** [.dt.date]: the day number of a timestamp. *)
Definition date_of (t : Z) : Z := t / (24 * NS_PER_HOUR).

(** [datetime.combine(date_val, datetime.min.time()) + timedelta(hours=h)] *)
Definition at_hour (date_val h : Z) : Z := date_val * (24 * NS_PER_HOUR) + h * NS_PER_HOUR.

(** [.dt.date] on a column of timestamps: NaT stays NaT. *)
Definition dates_of (ts : list (option Z)) : list (option Z) := map (fmap date_of) ts.

(** Two dates are the same value; NaT is the same value as NaT. *)
Definition same_date (a b : option Z) : bool :=
  match a, b with
  | Some x, Some y => x =? y
  | None, None => true
  | _, _ => false
  end.

(** [Series.unique()]: the distinct values in the order of their first
    occurrence. *)
Definition unique (l : list (option Z)) : list (option Z) :=
  fold_left (fun acc x => if existsb (same_date x) acc then acc else acc ++ [x]) l [].

Definition col_name (window : Z * Z) : string :=
  "Volatility_" +:+ fmt02 window.1 +:+ "_" +:+ fmt02 window.2 +:+ "_JST".

(** One row of [daily_volatility_df]; the date [None] is NaT. *)
Record daily_row : Type := {
  Date : option Z;
  volatility : list (string * float)
}.

(** The mask of one date and one window over the rows of the table,
    [(start_time_jst >= window_start_dt) & (start_time_jst < window_end_dt)
    & (date_jst == date_val)].  A comparison with NaT is false, so a row
    without a start time is in no mask; for the date NaT the last test is
    false on every row. *)
Definition window_mask (start_time_jst : list (option Z)) (date_val : option Z)
    (window : Z * Z) : list bool :=
  map (fun t => match t, date_val with
                | Some t, Some date_val =>
                    ((at_hour date_val window.1 <=? t) && (t <? at_hour date_val window.2)
                     && (date_of t =? date_val))%bool
                | _, _ => false
                end) start_time_jst.

(** The cell of one date and one window: high minus low of [start_price]
    over the masked rows, NaN when no row is left. *)
Definition window_volatility (zigzag_df : DataFrame) (start_time_jst : list (option Z))
    (date_val : option Z) (window : Z * Z) : option float :=
  let window_data := df_filter (window_mask start_time_jst date_val window) zigzag_df in
  if (df_len window_data =? 0)%nat then Some NaN
  else
    prices ← df_get "start_price" window_data ≫= numeric_values;
    let high_price := series_max prices in
    let low_price := series_min prices in
    Some (fsub high_price low_price).

(** One turn of the loop over the dates: the row of one date. *)
Definition daily_data_row (zigzag_df : DataFrame) (start_time_jst : list (option Z))
    (date_val : option Z) : option daily_row :=
  cells ← collect (fun window =>
                     v ← window_volatility zigzag_df start_time_jst date_val window;
                     Some (col_name window, v))
            FIXED_TIME_WINDOWS_JST;
  Some {| Date := date_val; volatility := cells |}.

Section DailyVolatility.

Context (L : Library).

(** [DataProcessor._calculate_daily_fixed_window_volatility()].  The
    argument is the field [self.zigzag_df]; the first component of the
    result is the field as the call leaves it, the second the rows of
    the returned table ([[]] for [pd.DataFrame()]).  The outcome is
    [None] when the call raises: [pd.to_datetime] fails, [start_price]
    is not numeric, or a column has another length than the table.  A
    row without a start time has the date NaT, which gets a row of its
    own. *)
Definition _calculate_daily_fixed_window_volatility (zigzag_df : option DataFrame)
    : option (option DataFrame * list daily_row) :=
  match zigzag_df with
  | None => Some (None, [])
  | Some df =>
      match df_get "start_time_jst" df, df_get "start_price" df with
      | Some start_time_jst, Some _ =>
          ts ← (if is_datetime64_any_dtype start_time_jst
                then Some (datetime_values start_time_jst)
                else to_datetime L start_time_jst);
          if (length ts =? df_len df)%nat then
            let df1 :=
              if is_datetime64_any_dtype start_time_jst then df
              else df_set "start_time_jst" (datetime64 ts) df in
            let date_jst := dates_of ts in
            let df2 :=
              df_set "date_jst"
                (object (map (fun d => match d with
                                       | Some day => PyDate day
                                       | None => PyTime None
                                       end) date_jst)) df1 in
            let all_dates := unique date_jst in
            results ← collect (daily_data_row df2 ts) all_dates;
            Some (Some df2, results)
          else None
      | _, _ => Some (Some df, [])
      end
  end.

End DailyVolatility.

End data_processor.

(** ** statistical_processor.py *)

Module statistical_processor.

(** The closure [get_category(x)] over the thresholds [q1] and [q2]. *)
Definition get_category (q1 q2 x : float) : string :=
  if flt x q1 then "小"
  else if flt x q2 then "中"
  else "大".

Section Classify.

Context (L : Library).

(** [StatisticalProcessor.classify_indicators(stats_df, method)] for a
    processor with the given [category_thresholds] and [target_column].
    An exception is caught and gives back [stats_df]; a mean column
    that is not numeric makes the comparison raise. *)
Definition classify_indicators (category_thresholds : option (float * float))
    (target_column : string) (stats_df : DataFrame) (method : string) : DataFrame :=
  let classified_df := stats_df in
  let mean_col := target_column +:+ "_mean" in
  match df_get mean_col classified_df with
  | None => stats_df
  | Some column =>
      match numeric_values column with
      | None => stats_df
      | Some means =>
          let thresholds :=
            if String.eqb method "percentile" then
              match category_thresholds with
              | None => Some (lib_quantile L means 0.33, lib_quantile L means 0.67)
              | Some qs => Some qs
              end
            else if String.eqb method "absolute" then
              match category_thresholds with
              | None => Some (Fin 0.0005, Fin 0.001)
              | Some qs => Some qs
              end
            else None in
          match thresholds with
          | None => stats_df
          | Some (q1, q2) =>
              df_set "Volatility_Category"
                (object (map (fun x => PyStr (get_category q1 q2 x)) means))
                classified_df
          end
      end
  end.

End Classify.

End statistical_processor.

(** ** calculate_indicator_statistics.py *)

Module calculate_indicator_statistics.

(** The closure [get_category(x)] of [main] over the terciles [q1] and
    [q2] of [PriceMovement_mean]. *)
Definition get_category (q1 q2 x : float) : string :=
  if flt x q1 then "小"
  else if flt x q2 then "中"
  else "大".

(** The column [Volatility_Category] that [main] computes from the column
    [PriceMovement_mean] of the filtered statistics. *)
Definition Volatility_Category (L : Library) (PriceMovement_mean : list float)
    : list string :=
  let q1 := lib_quantile L PriceMovement_mean 0.33 in
  let q2 := lib_quantile L PriceMovement_mean 0.67 in
  map (get_category q1 q2) PriceMovement_mean.

End calculate_indicator_statistics.

(** ** multiscale_analysis.py *)

Module multiscale_analysis.

Definition fmul (x y : float) : float :=
  match x, y with
  | NaN, _ | _, NaN => NaN
  | Fin a, Fin b => Fin (a * b)
  | Fin a, PInf | PInf, Fin a =>
      if Qeq_bool a 0 then NaN else if Qle_bool 0 a then PInf else NInf
  | Fin a, NInf | NInf, Fin a =>
      if Qeq_bool a 0 then NaN else if Qle_bool 0 a then NInf else PInf
  | PInf, PInf | NInf, NInf => PInf
  | PInf, NInf | NInf, PInf => NInf
  end.

(** Rounding to the nearest integer, halves to the even neighbour. *)
Definition round_half_even (q : Q) : Z :=
  let f := Qfloor q in
  let r := (q - inject_Z f)%Q in
  if Qle_bool r 0.5 then
    if Qeq_bool r 0.5 then (if Z.even f then f else f + 1) else f
  else f + 1.

(** [x.round(4)] *)
Definition round4 (x : float) : float :=
  match x with
  | Fin q => Fin (inject_Z (round_half_even (q * 10000)) / 10000)
  | _ => x
  end.

(** [np.mean] of a column: missing values are skipped. *)
Definition np_mean (xs : list float) : float :=
  match dropna_floats xs with
  | [] => NaN
  | x :: r => fdiv (fold_left fadd r x) (Fin (inject_Z (Z.of_nat (length (x :: r)))))
  end.

(** [Series.isna()] *)
Definition isna (s : Series) : list bool := map is_missing (series_cells s).

(** [Series.replace(0, np.nan)] on a numeric column. *)
Definition replace_zero_nan (xs : list float) : list float :=
  map (fun x => if feqb x (Fin 0) then NaN else x) xs.

Definition movement_col (scale : Z) : string :=
  "post_" +:+ pretty scale +:+ "min_price_movement".

(** [MultiscaleAnalyzer.__init__]: the [time_scales] the analyzer keeps. *)
Definition init_time_scales (time_scales : list Z) (reference_scale : Z) : list Z :=
  let time_scales := match time_scales with [] => [5; 15; 30; 60] | _ => time_scales end in
  if existsb (Z.eqb reference_scale) time_scales then time_scales
  else foldr (insert_by Z.leb) [] (time_scales ++ [reference_scale]).

Record propagation_row : Type := {
  smaller_scale : Z;
  larger_scale : Z;
  count : nat;
  correlation : float;
  avg_growth_ratio : float;
  regression_slope : float;
  regression_intercept : float;
  regression_r_squared : float;
  regression_p_value : float;
  regression_std_err : float
}.

(** [analyzed_df.dropna(subset=[smaller_col, larger_col])] *)
Definition dropna_subset (analyzed_df : DataFrame) (smaller larger : Series) : DataFrame :=
  df_filter (zip_with (fun a b => negb (a || b)) (isna smaller) (isna larger)) analyzed_df.

Inductive step_result (A : Type) : Type :=
  | Continue
  | Append (a : A).
Arguments Continue {A}.
Arguments Append {A} a.

Section Propagation.

Context (L : Library).

(** The body of the loop of [analyze_propagation_effects] for one pair
    of neighbouring scales; [None] is an exception. *)
Definition propagation_step (analyzed_df : DataFrame) (smaller_scale larger_scale : Z)
    : option (step_result propagation_row) :=
  let smaller_col := movement_col smaller_scale in
  let larger_col := movement_col larger_scale in
  match df_get smaller_col analyzed_df, df_get larger_col analyzed_df with
  | Some smaller, Some larger =>
      let valid_data := dropna_subset analyzed_df smaller larger in
      if (df_len valid_data <? 5)%nat then Some Continue
      else
        xs ← df_get smaller_col valid_data ≫= numeric_values;
        ys ← df_get larger_col valid_data ≫= numeric_values;
        '(correlation, p_value) ← pearsonr L xs ys;
        let avg_growth_ratio := np_mean (zip_with fdiv ys (replace_zero_nan xs)) in
        '(slope, intercept, r_value, p_value, std_err) ← linregress L xs ys;
        Some (Append
                {| smaller_scale := smaller_scale;
                   larger_scale := larger_scale;
                   count := df_len valid_data;
                   correlation := correlation;
                   avg_growth_ratio := avg_growth_ratio;
                   regression_slope := slope;
                   regression_intercept := intercept;
                   regression_r_squared := fmul r_value r_value;
                   regression_p_value := p_value;
                   regression_std_err := std_err |})
  | _, _ => Some Continue
  end.

Fixpoint propagation_loop (analyzed_df : DataFrame) (pairs : list (Z * Z))
    : option (list propagation_row) :=
  match pairs with
  | [] => Some []
  | (smaller_scale, larger_scale) :: pairs' =>
      r ← propagation_step analyzed_df smaller_scale larger_scale;
      results ← propagation_loop analyzed_df pairs';
      Some (match r with Continue => results | Append row => row :: results end)
  end.

Definition round_row (r : propagation_row) : propagation_row :=
  {| smaller_scale := smaller_scale r;
     larger_scale := larger_scale r;
     count := count r;
     correlation := round4 (correlation r);
     avg_growth_ratio := round4 (avg_growth_ratio r);
     regression_slope := round4 (regression_slope r);
     regression_intercept := round4 (regression_intercept r);
     regression_r_squared := round4 (regression_r_squared r);
     regression_p_value := round4 (regression_p_value r);
     regression_std_err := round4 (regression_std_err r) |}.

(** [MultiscaleAnalyzer.analyze_propagation_effects(analyzed_df)] for an
    analyzer with the given [time_scales]: the rows of the returned
    table, [[]] for [pd.DataFrame()]. *)
Definition analyze_propagation_effects (time_scales : list Z) (analyzed_df : DataFrame)
    : list propagation_row :=
  match propagation_loop analyzed_df (zip time_scales (tail time_scales)) with
  | None => []
  | Some results => map round_row results
  end.

End Propagation.

End multiscale_analysis.

(** ** calculate_intraday_volatility.py: the loop of [main] *)

Module intraday_volatility.

(** [(start_time_jst >= start_datetime) & (start_time_jst < end_datetime)]
    on the column of start times; a comparison with NaT is false. *)
Definition range_mask (start_time_jst : list (option Z)) (start_datetime end_datetime : Z)
    : list bool :=
  map (fun t => match t with
                | Some t => ((start_datetime <=? t) && (t <? end_datetime))%bool
                | None => false
                end) start_time_jst.

(** [price_movement], [max_high_in_range] and [min_low_in_range] of one
    range from [legs_in_range]: high and low over the start and end prices
    of the legs together, NaN without a leg or without a price.  [None] is
    an exception: a price column that is absent or does not hold numbers. *)
Definition range_statistics (legs_in_range : DataFrame) : option (float * float * float) :=
  if (df_len legs_in_range =? 0)%nat then Some (NaN, NaN, NaN)
  else
    start_price ← df_get "start_price" legs_in_range ≫= numeric_values;
    end_price ← df_get "end_price" legs_in_range ≫= numeric_values;
    let prices_in_legs := dropna_floats (start_price ++ end_price) in
    match prices_in_legs with
    | [] => Some (NaN, NaN, NaN)
    | _ :: _ =>
        let max_high_in_range := series_max prices_in_legs in
        let min_low_in_range := series_min prices_in_legs in
        Some (fsub max_high_in_range min_low_in_range, max_high_in_range, min_low_in_range)
    end.

(** The entry [TimeRange_JST] of a result row. *)
Definition TimeRange_JST (range : Z * Z) : string :=
  fmt02 range.1 +:+ ":00-" +:+ fmt02 range.2 +:+ ":00".

End intraday_volatility.

(** ** multiscale_analysis.py: calculate_scale_ratios *)

Module scale_ratios.

Definition ratio_col (scale reference_scale : Z) : string :=
  "scale_ratio_" +:+ pretty scale +:+ "_to_" +:+ pretty reference_scale.

Definition norm_ratio_col (scale reference_scale : Z) : string :=
  "norm_scale_ratio_" +:+ pretty scale +:+ "_to_" +:+ pretty reference_scale.

(** The function applied to each row: the movement at the scale over the
    movement at the reference scale, NaN when one of them is missing or
    the latter is zero.  [None] is a TypeError. *)
Definition row_ratio (scale_value ref_value : pyval) : option float :=
  if (negb (is_missing scale_value) && negb (is_missing ref_value) &&
      negb (py_eq ref_value (PyInt 0)))%bool
  then py_div scale_value ref_value
  else Some NaN.

Section ScaleRatios.

Context (L : Library).

(** [np.log(x) if pd.notna(x) and x > 0 else np.nan] *)
Definition norm_ratio (x : float) : float :=
  if (negb (isnan x) && flt (Fin 0) x)%bool then np_log L x else NaN.

(** One turn of the loop over the scales; [None] is an exception. *)
Definition scale_step (reference_scale : Z) (result_df : DataFrame) (scale : Z)
    : option DataFrame :=
  if scale =? reference_scale then Some result_df
  else
    match df_get (multiscale_analysis.movement_col scale) result_df with
    | None => Some result_df
    | Some scale_values =>
        ref_values ← df_get (multiscale_analysis.movement_col reference_scale) result_df;
        ratios ← collect (fun row => row_ratio row.1 row.2)
                   (zip (series_cells scale_values) (series_cells ref_values));
        let result_df := df_set (ratio_col scale reference_scale) (float64 ratios) result_df in
        Some (df_set (norm_ratio_col scale reference_scale)
                (float64 (map norm_ratio ratios)) result_df)
    end.

(** [MultiscaleAnalyzer.calculate_scale_ratios(analyzed_df)] for an
    analyzer with the given [time_scales] and [reference_scale].  The
    work is done on a copy; an exception gives back [analyzed_df]. *)
Definition calculate_scale_ratios (time_scales : list Z) (reference_scale : Z)
    (analyzed_df : DataFrame) : DataFrame :=
  let result_df := analyzed_df in
  match df_get (multiscale_analysis.movement_col reference_scale) result_df with
  | None => analyzed_df
  | Some _ =>
      default analyzed_df
        (asymmetric_analysis.for_each (scale_step reference_scale) time_scales result_df)
  end.

End ScaleRatios.

End scale_ratios.

(** ** statistical_processor.py: detect_outliers *)

Module outliers.

Section Outliers.

(** [Series.quantile] comes with the library; [std] is [Series.std]. *)
Context (L : Library) (std : list float -> float).

(** [detect_outliers(data_series, method, threshold)] on a column of
    floats: one flag for each entry. *)
Definition detect_outliers (data_series : list float) (method : string) (threshold : float)
    : list bool :=
  let valid_data := dropna_floats data_series in
  let no_outliers := map (fun _ => false) data_series in
  if (length valid_data <? 4)%nat then no_outliers
  else if String.eqb method "iqr" then
    let q1 := lib_quantile L valid_data 0.25 in
    let q3 := lib_quantile L valid_data 0.75 in
    let iqr := fsub q3 q1 in
    let lower_bound := fsub q1 (multiscale_analysis.fmul threshold iqr) in
    let upper_bound := fadd q3 (multiscale_analysis.fmul threshold iqr) in
    map (fun x => (flt x lower_bound || flt upper_bound x)%bool) data_series
  else if String.eqb method "zscore" then
    let mean := multiscale_analysis.np_mean valid_data in
    let std := std valid_data in
    if feqb std (Fin 0) then no_outliers
    else map (fun x => flt threshold (fabs (fdiv (fsub x mean) std))) data_series
  else no_outliers.

End Outliers.

End outliers.

(** ** Predicates and examples used in the statements *)

(** [zigzag_df] as any call of [extract_zigzag_window] leaves it. *)
Definition extract_state (L : Library) (zigzag_df : DataFrame) : DataFrame :=
  (asymmetric_analysis.extract_zigzag_window L zigzag_df None None).1.

(** [df'] is [df], or [df] with its first time-like column replaced, where
    it stands, by its conversion to datetime64. *)
Definition converted_in_place (L : Library) (df df' : DataFrame) : Prop :=
  df' = df \/
  exists time_col rest s ts,
    time_cols df = time_col :: rest /\ df_get time_col df = Some s /\
    is_datetime64_any_dtype s = false /\
    to_datetime L s = Some ts /\ length ts = df_len df /\
    df' = df_set time_col (datetime64 ts) df.

(** A window with a single pivot. *)
Definition single_pivot_window : DataFrame :=
  [("start_time_dt", datetime64 [Some 0]); ("price", float64 [Fin 1800])].

(** Two zigzag legs with their start and end prices. *)
Definition two_leg_window : DataFrame :=
  [("start_time_dt", datetime64 [Some 0; Some 60000000000]);
   ("start_price", float64 [Fin 1; Fin 2]);
   ("end_price", float64 [Fin 5; Fin 0])].

(** Pivots at 09:00, 09:02 and 09:04 of the first day of the epoch. *)
Definition scenario_pivots : DataFrame :=
  [("start_time_dt", datetime64 [Some 32400000000000; Some 32520000000000;
                                 Some 32640000000000]);
   ("price", float64 [Fin 1800; Fin 1805; Fin 1798])].

(** A table laid out as [TestDataGenerator.generate_zigzag_data] lays it
    out: epoch seconds first, then the timestamps, then the prices. *)
Definition generated_zigzag : DataFrame :=
  [("start_time_utc_seconds", int64 [1700000000; 1700000060]);
   ("start_time_dt", datetime64 [Some 1700000000000000000; Some 1700000060000000000]);
   ("price", float64 [Fin 1800; Fin 1801])].

(** An announcement at the first pivot of [generated_zigzag]. *)
Definition generated_indicator : list (string * pyval) :=
  [("Currency", PyStr "USD"); ("EventName", PyStr "PMI");
   ("DateTime_UTC", PyTime (Some 1700000000000000000))].

(** The table of announcements whose single row is [generated_indicator]. *)
Definition generated_indicators : DataFrame :=
  [("Currency", object [PyStr "USD"]); ("EventName", object [PyStr "PMI"]);
   ("DateTime_UTC", datetime64 [Some 1700000000000000000])].

(** A valid pre-event result with the given movement and direction. *)
Definition pre_result (price_movement : pyval) (direction : string) : dict :=
  dict_of [("pre_event_valid", PyBool true); ("price_movement", price_movement);
           ("movement_direction", PyStr direction)].

(** A post-event result whose 5-minute window is valid, with movement 2
    upwards, and whose 15-minute window is marked invalid. *)
Definition post_result_5_valid_15_invalid : dict :=
  dict_of [("post_event_valid", PyBool true);
           ("post_5min_valid", PyBool true);
           ("post_5min_points", PyInt 3);
           ("post_5min_price_movement", PyNum (Fin 2));
           ("post_5min_movement_direction", PyStr "up");
           ("post_15min_valid", PyBool false);
           ("post_15min_points", PyInt 1)].

(** The local date of a timestamp, as a number of days since the epoch,
    and its hour of the day. *)
Definition spec_day (t : Z) : Z := t / 86400000000000.
Definition spec_hour (t : Z) : Z := (t mod 86400000000000) / 3600000000000.

(** The start prices of the pivots, given as pairs of start time and
    start price, whose start time lies in the segment [[start, end)] of the
    date. *)
Definition spec_segment_prices (pivots : list (option Z * float)) (date_val : Z)
    (segment : Z * Z) : list float :=
  map snd (List.filter
             (fun p => match p.1 with
                       | Some t => ((spec_day t =? date_val) && (segment.1 <=? spec_hour t) &&
                                    (spec_hour t <? segment.2))%bool
                       | None => false
                       end)
             pivots).

(** The cell of a date and a segment as the specification words it: high
    minus low of these start prices; NaN without such a pivot. *)
Definition spec_segment_volatility (pivots : list (option Z * float)) (date_val : Z)
    (segment : Z * Z) : float :=
  match spec_segment_prices pivots date_val segment with
  | [] => NaN
  | matched => fsub (series_max matched) (series_min matched)
  end.

(** The cell of a row of the daily table: that of the date of the row, and
    NaN in the row of the date NaT. *)
Definition spec_cell (pivots : list (option Z * float)) (date_val : option Z)
    (segment : Z * Z) : float :=
  match date_val with
  | Some date_val => spec_segment_volatility pivots date_val segment
  | None => NaN
  end.

(** A single pivot, at 07:00 of 2 January 1970 (JST), whose start price is
    missing. *)
Definition unpriced_pivot : DataFrame :=
  [("start_time_jst", datetime64 [Some 111600000000000]);
   ("start_price", float64 [NaN])].

(** Pivots of which the second has no start time. *)
Definition pivots_with_NaT : DataFrame :=
  [("start_time_jst", datetime64 [Some 111600000000000; None; Some 115200000000000]);
   ("start_price", float64 [Fin 1800; Fin 1700; Fin 1805])].

(** Pivots of 2 January 1970 (JST): two start at 07:00 and 08:00, one at
    10:00. *)
Definition one_day_pivots : DataFrame :=
  [("start_time_jst", datetime64 [Some 111600000000000; Some 115200000000000;
                                  Some 122400000000000]);
   ("start_price", float64 [Fin 1800; Fin 1805; Fin 1798]);
   ("end_price", float64 [Fin 1805; Fin 1798; Fin 1900])].


(** Five events with their movements at 5 and 15 minutes; the first has no
    movement at 5 minutes. *)
Definition five_events : DataFrame :=
  [("post_5min_price_movement", float64 [Fin 0; Fin 1; Fin 2; Fin 3; Fin 4]);
   ("post_15min_price_movement", float64 [Fin 1; Fin 2; Fin 3; Fin 4; Fin 5])].

(** ** Predicates and examples used in the further statements *)

(** Order of two timestamps that carry their row numbers. *)
Definition time_le (a b : Z * nat) : bool := a.1 <=? b.1.

(** What the record of [analyze_post_event] holds for the window of
    [minutes] minutes, whose pivots are [post_data]: the number of
    pivots, whether there are two or more and, if so, the number of legs
    and every entry of the movement and speed records of the window under
    its key [post_Nmin_<entry>]; no legs and no price movement
    otherwise. *)
Definition post_window_entries (L : Library) (minutes : Z) (post_data : DataFrame)
    (results : dict) : Prop :=
  results !! (asymmetric_analysis.window_key minutes +:+ "_points")
  = Some (PyInt (Z.of_nat (df_len post_data))) /\
  results !! (asymmetric_analysis.window_key minutes +:+ "_valid")
  = Some (PyBool (2 <=? df_len post_data)%nat) /\
  ((df_len post_data < 2)%nat ->
     results !! (asymmetric_analysis.window_key minutes +:+ "_legs") = None /\
     results !! (asymmetric_analysis.window_key minutes +:+ "_price_movement") = None) /\
  ((2 <= df_len post_data)%nat ->
     results !! (asymmetric_analysis.window_key minutes +:+ "_legs")
     = Some (PyInt (Z.of_nat (df_len post_data) - 1)) /\
     forall k v,
       (asymmetric_analysis.calculate_movement_speed L post_data ∪
        asymmetric_analysis.calculate_price_movement L post_data) !! k = Some v ->
       results !! (asymmetric_analysis.window_key minutes +:+ "_" +:+ k) = Some v).

(** The ratio of one row of two columns of floats. *)
Definition float_ratio (x y : float) : float :=
  if (negb (isnan x) && negb (isnan y) && negb (feqb y (Fin 0)))%bool
  then fdiv x y else NaN.

(** The place of a category in the order small, medium, large. *)
Definition category_rank (category : string) : nat :=
  if String.eqb category "小" then 0
  else if String.eqb category "中" then 1
  else 2.

(** The letters the keys of the analysis records start with. *)
Definition analysis_initials : list ascii :=
  ["p"; "m"; "s"; "e"; "n"; "t"; "l"; "r"; "d"]%char.

(** An announcement at 09:00, the time of the first of [scenario_pivots]. *)
Definition scenario_indicator : list (string * pyval) :=
  [("Currency", PyStr "USD"); ("EventName", PyStr "PMI");
   ("DateTime_UTC", PyTime (Some 32400000000000))].

(** An indicator that carries no time. *)
Definition untimed_indicator : list (string * pyval) :=
  [("Currency", PyStr "USD"); ("EventName", PyStr "PMI")].

(** The means of five indicators. *)
Definition mean_table : DataFrame :=
  [("EventName", object [PyStr "a"; PyStr "b"; PyStr "c"; PyStr "d"; PyStr "e"]);
   ("post_15min_price_movement_mean", float64 [Fin 0.5; Fin 1; Fin 1.5; Fin 2; Fin 2.5])].

(** A library whose quartiles are those of the values 1, 2, 3, 4, 100. *)
Definition quartile_library : Library :=
  {| lib_to_datetime := fun _ => None;
     lib_scalar_to_datetime := fun _ => None;
     lib_str_exception := "";
     np_log := fun _ => NaN;
     lib_quantile := fun _ p => if Qeq_bool p 0.25 then Fin 2 else Fin 4;
     pearsonr := fun _ _ => None;
     linregress := fun _ _ => None |}.

(** * Properties *)

Import asymmetric_analysis.

(** ** Floats: order *)

Lemma fle_refl x : isnan x = false -> fle x x = true.
Proof.
  destruct x; simpl; try done. intros _. apply Qle_bool_iff, Qle_refl.
Qed.

Lemma flt_fle x y : flt x y = true -> fle x y = true.
Proof.
  destruct x, y; simpl; try done. intros H.
  apply negb_true_iff in H. apply Qle_bool_iff.
  destruct (Qlt_le_dec q q0) as [Hlt|Hle].
  - by apply Qlt_le_weak.
  - apply Qle_bool_iff in Hle. congruence.
Qed.

Lemma flt_false_fle x y :
  isnan x = false -> isnan y = false -> flt x y = false -> fle y x = true.
Proof.
  destruct x, y; simpl; try done. intros _ _ H.
  by apply negb_false_iff in H.
Qed.

Lemma fle_trans x y z : fle x y = true -> fle y z = true -> fle x z = true.
Proof.
  destruct x, y, z; simpl; try done. intros H1 H2.
  apply Qle_bool_iff. apply Qle_bool_iff in H1, H2. by eapply Qle_trans.
Qed.

Lemma fle_notnan_l x y : fle x y = true -> isnan x = false.
Proof. by destruct x, y. Qed.

Lemma fle_notnan_r x y : fle x y = true -> isnan y = false.
Proof. by destruct x, y. Qed.

(** [fold_left fmax] keeps a greatest element of what it has seen. *)
Lemma fold_fmax_spec r x :
  isnan x = false -> Forall (fun y => isnan y = false) r ->
  let m := fold_left fmax r x in
  (m = x \/ In m r) /\ fle x m = true /\ (forall y, In y r -> fle y m = true).
Proof.
  revert x. induction r as [|a r IH]; intros x Hx Hr; simpl.
  - split; [by left|]. split; [by apply fle_refl|]. intros y [].
  - inversion Hr as [|? ? Ha Hr']; subst.
    assert (Hm : isnan (fmax x a) = false) by (unfold fmax; by destruct (flt x a)).
    destruct (IH (fmax x a) Hm Hr') as (Hin & Hle & Hall).
    assert (Hxa : fle x (fmax x a) = true /\ fle a (fmax x a) = true).
    { unfold fmax. destruct (flt x a) eqn:E.
      - split; [by apply flt_fle | by apply fle_refl].
      - split; [by apply fle_refl | by apply flt_false_fle]. }
    destruct Hxa as [Hx' Ha'].
    split.
    { destruct Hin as [->|Hin]; [|by right; right].
      unfold fmax. destruct (flt x a); [right; by left | by left]. }
    split; [by eapply fle_trans|].
    intros y [<-|Hy]; [by eapply fle_trans | by apply Hall].
Qed.

Lemma fold_fmin_spec r x :
  isnan x = false -> Forall (fun y => isnan y = false) r ->
  let m := fold_left fmin r x in
  (m = x \/ In m r) /\ fle m x = true /\ (forall y, In y r -> fle m y = true).
Proof.
  revert x. induction r as [|a r IH]; intros x Hx Hr; simpl.
  - split; [by left|]. split; [by apply fle_refl|]. intros y [].
  - inversion Hr as [|? ? Ha Hr']; subst.
    assert (Hm : isnan (fmin x a) = false) by (unfold fmin; by destruct (flt a x)).
    destruct (IH (fmin x a) Hm Hr') as (Hin & Hle & Hall).
    assert (Hxa : fle (fmin x a) x = true /\ fle (fmin x a) a = true).
    { unfold fmin. destruct (flt a x) eqn:E.
      - split; [by apply flt_fle | by apply fle_refl].
      - split; [by apply fle_refl | by apply flt_false_fle]. }
    destruct Hxa as [Hx' Ha'].
    split.
    { destruct Hin as [->|Hin]; [|by right; right].
      unfold fmin. destruct (flt a x); [right; by left | by left]. }
    split; [by eapply fle_trans|].
    intros y [<-|Hy]; [by eapply fle_trans | by apply Hall].
Qed.

Lemma dropna_floats_In xs y : In y (dropna_floats xs) <-> In y xs /\ isnan y = false.
Proof.
  unfold dropna_floats. rewrite List.filter_In. by rewrite negb_true_iff.
Qed.

Lemma dropna_floats_Forall xs : Forall (fun y => isnan y = false) (dropna_floats xs).
Proof. apply List.Forall_forall. intros y Hy. by apply dropna_floats_In in Hy as [_ ?]. Qed.

(** [Series.max()] is the greatest of the values that are not missing. *)
Lemma series_max_spec xs x :
  In x xs -> isnan x = false ->
  In (series_max xs) xs /\ isnan (series_max xs) = false /\
  (forall y, In y xs -> isnan y = false -> fle y (series_max xs) = true).
Proof.
  intros Hx Hn. unfold series_max.
  pose proof (dropna_floats_Forall xs) as HF.
  assert (Hd : In x (dropna_floats xs)) by by apply dropna_floats_In.
  destruct (dropna_floats xs) as [|a r] eqn:E; [done|].
  inversion HF as [|? ? Ha Hr]; subst.
  destruct (fold_fmax_spec r a Ha Hr) as (Hin & Hle & Hall).
  assert (Hin' : In (fold_left fmax r a) (a :: r)).
  { destruct Hin as [->|?]; [by left | by right]. }
  rewrite <- E in Hin'. apply dropna_floats_In in Hin' as [? ?].
  repeat split; try done.
  intros y Hy Hyn.
  assert (Hy' : In y (a :: r)) by (rewrite <- E; by apply dropna_floats_In).
  destruct Hy' as [<-|Hy']; [done | by apply Hall].
Qed.

(** [Series.min()] is the least of the values that are not missing. *)
Lemma series_min_spec xs x :
  In x xs -> isnan x = false ->
  In (series_min xs) xs /\ isnan (series_min xs) = false /\
  (forall y, In y xs -> isnan y = false -> fle (series_min xs) y = true).
Proof.
  intros Hx Hn. unfold series_min.
  pose proof (dropna_floats_Forall xs) as HF.
  assert (Hd : In x (dropna_floats xs)) by by apply dropna_floats_In.
  destruct (dropna_floats xs) as [|a r] eqn:E; [done|].
  inversion HF as [|? ? Ha Hr]; subst.
  destruct (fold_fmin_spec r a Ha Hr) as (Hin & Hle & Hall).
  assert (Hin' : In (fold_left fmin r a) (a :: r)).
  { destruct Hin as [->|?]; [by left | by right]. }
  rewrite <- E in Hin'. apply dropna_floats_In in Hin' as [? ?].
  repeat split; try done.
  intros y Hy Hyn.
  assert (Hy' : In y (a :: r)) by (rewrite <- E; by apply dropna_floats_In).
  destruct Hy' as [<-|Hy']; [done | by apply Hall].
Qed.

(** ** Tables: columns, masks and sorting *)

Lemma df_get_map (f : Series -> Series) c (df : DataFrame) :
  df_get c (map (fun col => (col.1, f col.2)) df) = f <$> df_get c df.
Proof.
  induction df as [|[n s] df IH]; simpl; [done|].
  by destruct (String.eqb n c).
Qed.

Lemma df_get_filter mask c df :
  df_get c (df_filter mask df) = series_map (fun A => @filter_mask A mask) <$> df_get c df.
Proof. apply df_get_map. Qed.

Lemma df_get_take perm c df :
  df_get c (df_take perm df) = series_map (fun A => @take_rows A perm) <$> df_get c df.
Proof. apply df_get_map. Qed.

Lemma df_get_Some_In c s (df : DataFrame) : df_get c df = Some s -> In (c, s) df.
Proof.
  induction df as [|[n s0] df IH]; simpl; [done|].
  destruct (String.eqb n c) eqn:E.
  - apply String.eqb_eq in E as ->. intros [= ->]. by left.
  - intros H. right. by apply IH.
Qed.

Lemma df_get_columns c (df : DataFrame) :
  In c (columns df) -> exists s, df_get c df = Some s.
Proof.
  induction df as [|[n s0] df IH]; simpl; [done|].
  destruct (String.eqb n c) eqn:E; [by eexists|].
  intros [->|H]; [|by apply IH].
  by rewrite String.eqb_refl in E.
Qed.

Lemma df_wf_get c s df : df_wf df -> df_get c df = Some s -> series_len s = df_len df.
Proof.
  intros Hwf Hget. apply df_get_Some_In in Hget.
  unfold df_wf in Hwf. rewrite List.Forall_forall in Hwf. by apply (Hwf (c, s)).
Qed.

Lemma time_cols_head_get df time_col rest :
  time_cols df = time_col :: rest -> exists s, df_get time_col df = Some s.
Proof.
  intros H. apply df_get_columns.
  assert (Hin : In time_col (time_cols df)) by (rewrite H; by left).
  unfold time_cols in Hin. by apply List.filter_In in Hin as [? _].
Qed.

Lemma price_cols_head_get df price_col rest :
  price_cols df = price_col :: rest -> exists s, df_get price_col df = Some s.
Proof.
  intros H. apply df_get_columns.
  assert (Hin : In price_col (price_cols df)) by (rewrite H; by left).
  unfold price_cols in Hin. by apply List.filter_In in Hin as [? _].
Qed.

Lemma insert_by_perm {A} (le : A -> A -> bool) x l : insert_by le x l ≡ₚ x :: l.
Proof.
  induction l as [|y l IH]; simpl; [done|].
  destruct (le x y); [done|]. rewrite IH. apply Permutation_swap.
Qed.

Lemma insertion_sort_perm {A} (le : A -> A -> bool) l : foldr (insert_by le) [] l ≡ₚ l.
Proof.
  induction l as [|x l IH]; simpl; [done|].
  by rewrite insert_by_perm, IH.
Qed.

(** [argsort] lists every position once. *)
Lemma argsort_perm keys : argsort keys ≡ₚ seq 0 (length keys).
Proof.
  unfold argsort. rewrite insertion_sort_perm.
  change (map snd ?l) with (l.*2).
  rewrite snd_zip; [done|]. by rewrite length_seq.
Qed.

Lemma argsort_length keys : length (argsort keys) = length keys.
Proof. by rewrite (Permutation_length (argsort_perm keys)), length_seq. Qed.

Lemma argsort_bound keys : Forall (fun i => (i < length keys)%nat) (argsort keys).
Proof.
  rewrite (argsort_perm keys). apply List.Forall_forall.
  intros i Hi. apply in_seq in Hi. lia.
Qed.

Lemma take_rows_length {A} perm (l : list A) :
  Forall (fun i => (i < length l)%nat) perm -> length (take_rows perm l) = length perm.
Proof.
  unfold take_rows. induction 1 as [|i perm Hi _ IH]; simpl; [done|].
  destruct (lookup_lt_is_Some_2 l i Hi) as [x ->]. simpl. f_equal. exact IH.
Qed.

Lemma take_rows_map {A B} (f : A -> B) perm (l : list A) :
  take_rows perm (map f l) = map f (take_rows perm l).
Proof.
  unfold take_rows. induction perm as [|i perm IH]; simpl; [done|].
  rewrite list_lookup_fmap. destruct (l !! i); simpl; [f_equal|]; exact IH.
Qed.

Lemma filter_mask_map {A B} (f : A -> B) mask (l : list A) :
  filter_mask mask (map f l) = map f (filter_mask mask l).
Proof.
  revert l. induction mask as [|b mask IH]; intros [|x l]; simpl; try done.
  destruct b; simpl; by rewrite IH.
Qed.

Lemma series_cells_filter mask s :
  series_cells (series_map (fun A => @filter_mask A mask) s)
  = filter_mask mask (series_cells s).
Proof. destruct s; simpl; by rewrite ?filter_mask_map. Qed.

Lemma series_cells_take perm s :
  series_cells (series_map (fun A => @take_rows A perm) s) = take_rows perm (series_cells s).
Proof. destruct s; simpl; by rewrite ?take_rows_map. Qed.

Lemma collect_length {A B} (f : A -> option B) l r :
  collect f l = Some r -> length r = length l.
Proof.
  revert r. induction l as [|x l IH]; intros r; simpl; [by intros [= <-]|].
  destruct (f x); simpl; [|done]. destruct (collect f l); simpl; [|done].
  intros [= <-]. simpl. by rewrite (IH l0).
Qed.

Lemma collect_lookup {A B} (f : A -> option B) l r i x :
  collect f l = Some r -> l !! i = Some x -> exists y, f x = Some y /\ r !! i = Some y.
Proof.
  revert r i. induction l as [|a l IH]; intros r i; simpl; [done|].
  destruct (f a) eqn:Ea; simpl; [|done]. destruct (collect f l) eqn:El; simpl; [|done].
  intros [= <-]. destruct i as [|i]; simpl.
  - intros [= <-]. by eexists.
  - intros H. by apply (IH l0).
Qed.

Lemma collect_take {A B} (f : A -> option B) perm l r :
  collect f l = Some r -> collect f (take_rows perm l) = Some (take_rows perm r).
Proof.
  intros H. unfold take_rows. induction perm as [|i perm IH]; simpl; [done|].
  destruct (l !! i) as [x|] eqn:E.
  - destruct (collect_lookup f l r i x H E) as (y & Hy & ->). simpl.
    rewrite Hy. simpl. change (list_omap _ _ ?f ?l) with (omap f l).
    by rewrite IH.
  - apply lookup_ge_None in E. rewrite <- (collect_length f l r H) in E.
    apply lookup_ge_None in E. by rewrite E.
Qed.

Lemma numeric_values_length s xs : numeric_values s = Some xs -> length xs = series_len s.
Proof.
  unfold series_len. destruct s; simpl; try done.
  - intros [= <-]. by rewrite length_map.
  - intros [= <-]. by rewrite !length_map.
  - apply collect_length.
Qed.

Lemma numeric_values_take perm s xs :
  numeric_values s = Some xs ->
  numeric_values (series_map (fun A => @take_rows A perm) s) = Some (take_rows perm xs).
Proof.
  destruct s; simpl; try done.
  - by intros [= <-].
  - intros [= <-]. by rewrite take_rows_map.
  - apply collect_take.
Qed.
(** ** calculate_price_movement *)

(** With fewer than two rows the result is the fixed dict of the early
    return. *)
Lemma calculate_price_movement_short L w :
  (df_len w < 2)%nat ->
  calculate_price_movement L w =
  dict_of [("price_movement", PyInt 0); ("max_price", PyNone); ("min_price", PyNone);
           ("start_price", PyNone); ("end_price", PyNone);
           ("movement_direction", PyStr "neutral")].
Proof.
  intros H. unfold calculate_price_movement.
  by rewrite (proj2 (Nat.ltb_lt _ _) H).
Qed.

(** [sort_values] keeps every column, reordered by one permutation of the
    rows. *)
Lemma sort_values_get by_ df sorted c s :
  df_wf df -> sort_values by_ df = Some sorted -> df_get c df = Some s ->
  exists perm, length perm = df_len df /\ Forall (fun i => (i < df_len df)%nat) perm /\
    df_get c sorted = Some (series_map (fun A => @take_rows A perm) s).
Proof.
  intros Hwf Hsort Hget. unfold sort_values in Hsort.
  destruct (df_get by_ df) as [keys|] eqn:Ek; simpl in Hsort; [|done].
  destruct (sortable keys); [|done]. injection Hsort as <-.
  exists (argsort (series_cells keys)).
  pose proof (df_wf_get _ _ _ Hwf Ek) as Hlen. unfold series_len in Hlen.
  split; [by rewrite argsort_length|].
  split; [rewrite <- Hlen; apply argsort_bound|].
  by rewrite df_get_take, Hget.
Qed.

(** The shape of the result on a table with two rows or more whose first
    price column holds numbers. *)
Lemma calculate_price_movement_numeric L w price_col rest prices :
  df_wf w -> (2 <= df_len w)%nat ->
  price_cols w = price_col :: rest ->
  df_get price_col w ≫= numeric_values = Some prices ->
  (forall time_col s, head (time_cols w) = Some time_col ->
     df_get time_col w = Some s -> sortable s = true) ->
  exists start_price end_price,
    calculate_price_movement L w =
    dict_of
      [("price_movement", PyNum (fsub (series_max prices) (series_min prices)));
       ("max_price", PyNum (series_max prices));
       ("min_price", PyNum (series_min prices));
       ("start_price", PyNum start_price);
       ("end_price", PyNum end_price);
       ("movement_direction", PyStr (direction_of start_price end_price));
       ("net_movement", PyNum (fsub end_price start_price));
       ("movement_efficiency",
        if flt (Fin 0) (fsub (series_max prices) (series_min prices))
        then PyNum (fdiv (fabs (fsub end_price start_price))
                      (fsub (series_max prices) (series_min prices)))
        else PyInt 0)].
Proof.
  intros Hwf Hlen Hpc Hnum Hsort. unfold calculate_price_movement.
  rewrite (proj2 (Nat.ltb_ge _ _) Hlen), Hpc, Hnum.
  destruct (df_get price_col w) as [ps|] eqn:Eps; simpl in Hnum; [|done].
  pose proof (numeric_values_length _ _ Hnum) as Hl.
  rewrite (df_wf_get _ _ _ Hwf Eps) in Hl.
  assert (Hsorted : exists sorted_prices,
    (match time_cols w with
     | [] => Some w
     | time_col :: _ => sort_values time_col w
     end ≫= df_get price_col) ≫= numeric_values = Some sorted_prices
    /\ length sorted_prices = df_len w).
  { destruct (time_cols w) as [|time_col tcs] eqn:Etc; simpl.
    - rewrite Eps. simpl. eauto.
    - destruct (time_cols_head_get _ _ _ Etc) as [keys Hk].
      specialize (Hsort time_col keys eq_refl Hk).
      assert (Hsv : exists sorted, sort_values time_col w = Some sorted).
      { unfold sort_values. rewrite Hk. simpl. rewrite Hsort. eauto. }
      destruct Hsv as [sorted Hsv].
      destruct (sort_values_get _ _ _ _ _ Hwf Hsv Eps) as (perm & Hpl & Hpb & Hg).
      rewrite Hsv. simpl. rewrite Hg. simpl.
      rewrite (numeric_values_take _ _ _ Hnum).
      eexists. split; [done|].
      rewrite take_rows_length; [done|]. by rewrite Hl. }
  destruct Hsorted as (sorted_prices & -> & Hsl).
  destruct sorted_prices as [|p0 sp]; [simpl in Hsl; lia|].
  destruct (last (p0 :: sp)) as [pl|] eqn:El.
  - by exists p0, pl.
  - by apply last_None in El.
Qed.
(** ** Rows of a masked table *)

Lemma filter_mask_length {A B} mask (l : list A) (k : list B) :
  length l = length k -> length (filter_mask mask l) = length (filter_mask mask k).
Proof.
  revert l k. induction mask as [|b mask IH]; intros [|x l] [|y k]; simpl; try done.
  intros [= H]. destruct b; simpl; by rewrite (IH l k H).
Qed.

Lemma filter_mask_nil_r {A} mask : @filter_mask A mask [] = [].
Proof. by destruct mask. Qed.

Lemma filter_mask_filter {A} (p : A -> bool) l : filter_mask (map p l) l = List.filter p l.
Proof.
  induction l as [|x l IH]; simpl; [done|].
  destruct (p x); by rewrite IH.
Qed.

Lemma rows_of_filter mask (cols : list (list pyval)) :
  Forall (fun c => length c = length mask) cols ->
  rows_of (length (filter_mask mask mask)) (map (filter_mask mask) cols)
  = filter_mask mask (rows_of (length mask) cols).
Proof.
  revert cols. induction mask as [|b mask IH]; intros cols Hc; simpl; [done|].
  assert (Ht : Forall (fun c => length c = length mask) (map tail cols)).
  { apply List.Forall_forall. intros c Hin. apply in_map_iff in Hin as (c0 & <- & Hin).
    rewrite List.Forall_forall in Hc. specialize (Hc c0 Hin).
    destruct c0; simpl in *; lia. }
  destruct b; simpl.
  - f_equal.
    + rewrite map_map. apply map_ext_in. intros c Hin.
      rewrite List.Forall_forall in Hc. specialize (Hc c Hin).
      by destruct c.
    + rewrite <- (IH _ Ht). f_equal. rewrite !map_map. apply map_ext_in.
      intros c Hin. rewrite List.Forall_forall in Hc. specialize (Hc c Hin).
      by destruct c.
  - rewrite <- (IH _ Ht). f_equal. rewrite !map_map. apply map_ext_in.
    intros c Hin. rewrite List.Forall_forall in Hc. specialize (Hc c Hin).
    by destruct c.
Qed.

Lemma df_filter_cells mask df :
  map (fun c => series_cells c.2) (df_filter mask df)
  = map (filter_mask mask) (map (fun c => series_cells c.2) df).
Proof.
  unfold df_filter. rewrite !map_map. apply map_ext. intros c. simpl.
  apply series_cells_filter.
Qed.

Lemma df_wf_cells df :
  df_wf df -> Forall (fun c => length c = df_len df) (map (fun c => series_cells c.2) df).
Proof.
  intros Hwf. apply List.Forall_forall. intros c Hin.
  apply in_map_iff in Hin as (c0 & <- & Hin).
  unfold df_wf in Hwf. rewrite List.Forall_forall in Hwf. exact (Hwf c0 Hin).
Qed.

Lemma df_len_filter mask df :
  df <> [] -> length mask = df_len df ->
  df_len (df_filter mask df) = length (filter_mask mask mask).
Proof.
  destruct df as [|[n s] df]; [done|]. intros _ Hlen. simpl in *.
  unfold series_len in *. rewrite series_cells_filter.
  by apply filter_mask_length.
Qed.

(** Masking the columns of a table is masking its rows. *)
Lemma df_rows_filter mask df :
  df_wf df -> length mask = df_len df ->
  df_rows (df_filter mask df) = filter_mask mask (df_rows df).
Proof.
  intros Hwf Hlen. unfold df_rows.
  destruct (decide (df = [])) as [->|Hne]; [simpl; by rewrite filter_mask_nil_r|].
  rewrite df_len_filter, df_filter_cells by done.
  rewrite <- Hlen. apply rows_of_filter. rewrite Hlen. by apply df_wf_cells.
Qed.

(** The cells of one column, read off the rows. *)
Lemma rows_of_col k n (cols : list (list pyval)) c :
  cols !! k = Some c -> length c = n ->
  map (fun r : list (option pyval) => r !! k) (rows_of n cols)
  = map (fun x => Some (Some x)) c.
Proof.
  revert cols c. induction n as [|n IH]; intros cols c Hk Hl; simpl.
  - by destruct c.
  - destruct c as [|x c]; [done|]. simpl. f_equal.
    + by rewrite list_lookup_fmap, Hk.
    + apply IH; [|simpl in Hl; lia]. by rewrite list_lookup_fmap, Hk.
Qed.

Lemma col_index_lookup c s (df : DataFrame) :
  df_get c df = Some s ->
  map (fun col => series_cells col.2) df !! col_index c df = Some (series_cells s).
Proof.
  induction df as [|[n s0] df IH]; simpl; [done|].
  destruct (String.eqb n c); [by intros [= ->]|]. apply IH.
Qed.

(** The timestamps of a datetime column, read off the rows. *)
Lemma df_rows_times c ts df :
  df_wf df -> df_get c df = Some (datetime64 ts) ->
  map (row_time (col_index c df)) (df_rows df) = ts.
Proof.
  intros Hwf Hget. unfold df_rows.
  pose proof (rows_of_col (col_index c df) (df_len df) _ _ (col_index_lookup _ _ _ Hget)) as H.
  rewrite <- (df_wf_get _ _ _ Hwf Hget) in *. specialize (H eq_refl).
  unfold row_time.
  transitivity (map (fun o : option (option pyval) =>
                       match o with Some (Some (PyTime t)) => t | _ => None end)
                  (map (fun r : list (option pyval) => r !! col_index c df)
                     (rows_of (series_len (datetime64 ts))
                        (map (fun col => series_cells col.2) df)))).
  { by rewrite map_map. }
  rewrite H. simpl. rewrite !map_map. simpl. apply map_id.
Qed.

(** *** Assignment to a column *)

Lemma df_set_columns c s df : In c (columns df) -> columns (df_set c s df) = columns df.
Proof.
  induction df as [|[n s0] df IH]; simpl; [done|].
  destruct (String.eqb n c) eqn:E; simpl; [done|].
  intros [->|H]; [by rewrite String.eqb_refl in E|]. by rewrite IH.
Qed.

Lemma df_get_set_eq c s df : df_get c (df_set c s df) = Some s.
Proof.
  induction df as [|[n s0] df IH]; simpl.
  - by rewrite String.eqb_refl.
  - destruct (String.eqb n c) eqn:E; simpl; by rewrite E.
Qed.

Lemma df_get_set_ne c c' s df : c <> c' -> df_get c' (df_set c s df) = df_get c' df.
Proof.
  intros Hne. induction df as [|[n s0] df IH]; simpl.
  - destruct (String.eqb c c') eqn:E; [by apply String.eqb_eq in E|done].
  - destruct (String.eqb n c) eqn:E; simpl.
    + apply String.eqb_eq in E as ->.
      destruct (String.eqb c c') eqn:E'; [by apply String.eqb_eq in E'|done].
    + by rewrite IH.
Qed.

Lemma col_index_set c s df : col_index c (df_set c s df) = col_index c df.
Proof.
  induction df as [|[n s0] df IH]; simpl.
  - by rewrite String.eqb_refl.
  - destruct (String.eqb n c) eqn:E; simpl; rewrite E; [done | by rewrite IH].
Qed.

Lemma df_len_set c s df :
  In c (columns df) -> series_len s = df_len df -> df_len (df_set c s df) = df_len df.
Proof.
  destruct df as [|[n s0] df]; simpl; [done|].
  by destruct (String.eqb n c).
Qed.

Lemma df_set_In col c s df : In col (df_set c s df) -> col = (c, s) \/ In col df.
Proof.
  induction df as [|[n s0] df IH]; simpl.
  - intros [<-|[]]. by left.
  - destruct (String.eqb n c) eqn:E; simpl.
    + apply String.eqb_eq in E as ->. intros [<-|H]; [by left | by right; right].
    + intros [<-|H]; [by right; left|]. destruct (IH H); [by left | by right; right].
Qed.

Lemma df_wf_set c s df :
  df_wf df -> In c (columns df) -> series_len s = df_len df -> df_wf (df_set c s df).
Proof.
  intros Hwf Hin Hlen. unfold df_wf. rewrite df_len_set by done.
  apply List.Forall_forall. intros col Hcol.
  destruct (df_set_In _ _ _ _ Hcol) as [->|H]; [done|].
  unfold df_wf in Hwf. rewrite List.Forall_forall in Hwf. by apply Hwf.
Qed.
Lemma df_set_same c s df : df_get c df = Some s -> df_set c s df = df.
Proof.
  induction df as [|[n s0] df IH]; simpl; [done|].
  destruct (String.eqb n c); [by intros [= ->]|]. intros H. by rewrite IH.
Qed.

Lemma rows_of_length n cols : length (rows_of n cols) = n.
Proof. revert cols. induction n as [|n IH]; intros cols; simpl; [done|]. by rewrite IH. Qed.

Lemma df_rows_length df : length (df_rows df) = df_len df.
Proof. apply rows_of_length. Qed.

Lemma filter_mask_le {A} mask (l : list A) : (length (filter_mask mask l) <= length l)%nat.
Proof.
  revert l. induction mask as [|b mask IH]; intros [|x l]; simpl; try lia.
  specialize (IH l). destruct b; simpl; lia.
Qed.

Lemma to_datetime_datetime64 L s :
  is_datetime64_any_dtype s = true -> to_datetime L s = Some (datetime_values s).
Proof. by destruct s. Qed.

(** ** extract_zigzag_window *)

(** When the time column converts, the call stores the converted column
    and returns the rows the mask selects. *)
Lemma extract_zigzag_window_converted L df t0 t1 time_col rest s ts :
  time_cols df = time_col :: rest -> df_get time_col df = Some s ->
  to_datetime L s = Some ts -> length ts = df_len df ->
  extract_zigzag_window L df t0 t1 =
  (df_set time_col (datetime64 ts) df,
   df_filter (map (in_window t0 t1) ts) (df_set time_col (datetime64 ts) df)).
Proof.
  intros Htc Hget Hto Hlen. unfold extract_zigzag_window. rewrite Htc, Hget.
  destruct (is_datetime64_any_dtype s) eqn:E.
  - rewrite (to_datetime_datetime64 L s E) in Hto. injection Hto as <-.
    destruct s; try done. simpl. by rewrite (df_set_same _ _ _ Hget).
  - rewrite Hto. by rewrite (proj2 (Nat.eqb_eq _ _) Hlen).
Qed.

(** In every other case the table is left as it is and [pd.DataFrame()]
    is returned. *)
Lemma extract_zigzag_window_cases L df t0 t1 :
  df_wf df ->
  extract_zigzag_window L df t0 t1 = (df, []) \/
  exists time_col rest s ts,
    time_cols df = time_col :: rest /\ df_get time_col df = Some s /\
    to_datetime L s = Some ts /\ length ts = df_len df.
Proof.
  intros Hwf. unfold extract_zigzag_window.
  destruct (time_cols df) as [|time_col rest] eqn:Htc; [by left|].
  destruct (df_get time_col df) as [s|] eqn:Hget; [|by left].
  destruct (is_datetime64_any_dtype s) eqn:E.
  - right. exists time_col, rest, s, (datetime_values s).
    rewrite to_datetime_datetime64 by done. repeat split; try done.
    rewrite <- (df_wf_get _ _ _ Hwf Hget). destruct s; try done.
    unfold series_len. simpl. by rewrite length_map.
  - destruct (to_datetime L s) as [ts|] eqn:Hto; [|by left].
    destruct (length ts =? df_len df)%nat eqn:Hl; [|by left].
    apply Nat.eqb_eq in Hl. right. by exists time_col, rest, s, ts.
Qed.

Lemma time_cols_head_In df time_col rest :
  time_cols df = time_col :: rest -> In time_col (columns df).
Proof.
  intros H. assert (Hin : In time_col (time_cols df)) by (rewrite H; by left).
  unfold time_cols in Hin. by apply List.filter_In in Hin as [? _].
Qed.

(** The table a call leaves behind is well formed and as long as before. *)
Lemma extract_zigzag_window_wf L df t0 t1 :
  df_wf df ->
  df_wf (extract_zigzag_window L df t0 t1).1 /\
  df_len (extract_zigzag_window L df t0 t1).1 = df_len df.
Proof.
  intros Hwf.
  destruct (extract_zigzag_window_cases L df t0 t1 Hwf)
    as [->|(time_col & rest & s & ts & Htc & Hget & Hto & Hlen)]; [done|].
  rewrite (extract_zigzag_window_converted L df t0 t1 _ _ _ _ Htc Hget Hto Hlen). simpl.
  pose proof (time_cols_head_In _ _ _ Htc) as Hin.
  assert (Hs : series_len (datetime64 ts) = df_len df).
  { unfold series_len. simpl. by rewrite length_map. }
  split; [by apply df_wf_set | by apply df_len_set].
Qed.

(** C9, what the code does: [extract_zigzag_window] returns exactly the
    rows whose entry in the first column whose name contains [time] or
    [date], converted to a timestamp, lies in the closed interval
    [[t0, t1]], both ends included, in the order of the table.  On a table
    without rows, and when no row matches, the result has no rows.  The
    call never raises: it is a total function, and every exception of the
    source is caught and gives the empty table.  The column read need not
    hold the timestamps of the pivots: in the tables of the repository it
    holds epoch seconds ([extract_zigzag_window_misses_generated_pivots]). *)
Theorem extract_zigzag_window_closed_interval L (zigzag_df : DataFrame) (t0 t1 : Z) :
  df_wf zigzag_df ->
  let r := extract_zigzag_window L zigzag_df (Some t0) (Some t1) in
  (forall time_col rest s ts,
     time_cols zigzag_df = time_col :: rest -> df_get time_col zigzag_df = Some s ->
     to_datetime L s = Some ts -> length ts = df_len zigzag_df ->
     let k := col_index time_col zigzag_df in
     map (row_time k) (df_rows r.1) = ts /\
     df_rows r.2 =
     List.filter (fun row => match row_time k row with
                             | Some t => ((t0 <=? t) && (t <=? t1))%bool
                             | None => false
                             end) (df_rows r.1)) /\
  (df_len zigzag_df = 0%nat -> df_rows r.2 = []) /\
  ((forall row, In row (df_rows r.1) -> forall time_col, head (time_cols zigzag_df) = Some time_col ->
      forall t, row_time (col_index time_col zigzag_df) row = Some t -> ~ (t0 <= t <= t1)) ->
   df_rows r.2 = []).
Proof.
  intros Hwf r.
  assert (Hmain : forall time_col rest s ts,
     time_cols zigzag_df = time_col :: rest -> df_get time_col zigzag_df = Some s ->
     to_datetime L s = Some ts -> length ts = df_len zigzag_df ->
     let k := col_index time_col zigzag_df in
     map (row_time k) (df_rows r.1) = ts /\
     df_rows r.2 =
     List.filter (fun row => match row_time k row with
                             | Some t => ((t0 <=? t) && (t <=? t1))%bool
                             | None => false
                             end) (df_rows r.1)).
  { intros time_col rest s ts Htc Hget Hto Hlen k. subst r.
    rewrite (extract_zigzag_window_converted L _ _ _ _ _ _ _ Htc Hget Hto Hlen). simpl.
    pose proof (time_cols_head_In _ _ _ Htc) as Hin.
    assert (Hs : series_len (datetime64 ts) = df_len zigzag_df).
    { unfold series_len. simpl. by rewrite length_map. }
    pose proof (df_wf_set time_col (datetime64 ts) _ Hwf Hin Hs) as Hwf'.
    pose proof (df_rows_times time_col ts _ Hwf' (df_get_set_eq _ _ _)) as Ht.
    rewrite col_index_set in Ht. split; [exact Ht|].
    rewrite df_rows_filter; [|done|by rewrite length_map, df_len_set].
    rewrite <- Ht at 1. rewrite map_map. apply filter_mask_filter. }
  split; [exact Hmain|].
  destruct (extract_zigzag_window_cases L zigzag_df (Some t0) (Some t1) Hwf)
    as [Hr|(time_col & rest & s & ts & Htc & Hget & Hto & Hlen)].
  { subst r. rewrite Hr. by split. }
  destruct (Hmain _ _ _ _ Htc Hget Hto Hlen) as [Ht Hrows].
  split.
  - intros H0. rewrite Hrows.
    destruct (extract_zigzag_window_wf L zigzag_df (Some t0) (Some t1) Hwf) as [_ Hl].
    fold r in Hl. pose proof (df_rows_length r.1) as Hrl. rewrite Hl, H0 in Hrl.
    by destruct (df_rows r.1).
  - intros Hnone. rewrite Hrows.
    assert (Hall : forall row, In row (df_rows r.1) ->
              forall t, row_time (col_index time_col zigzag_df) row = Some t ->
              ~ (t0 <= t <= t1)).
    { intros row Hin. apply (Hnone row Hin time_col). by rewrite Htc. }
    clear Hnone Hrows Ht. revert Hall. generalize (df_rows r.1).
    intros rows. induction rows as [|row rows IH]; intros Hall; simpl; [done|].
    destruct (row_time (col_index time_col zigzag_df) row) as [t|] eqn:Et.
    + destruct ((t0 <=? t) && (t <=? t1))%bool eqn:Eb.
      * apply andb_true_iff in Eb as [?%Z.leb_le ?%Z.leb_le].
        exfalso. apply (Hall row (or_introl eq_refl) t Et). lia.
      * apply IH. intros row' Hin. apply Hall. by right.
    + apply IH. intros row' Hin. apply Hall. by right.
Qed.
(** ** The input table across the analysis operations *)

(** The table a call leaves behind does not depend on the window. *)
Lemma extract_zigzag_window_state_indep L df t0 t1 t0' t1' :
  (extract_zigzag_window L df t0 t1).1 = (extract_zigzag_window L df t0' t1').1.
Proof.
  unfold extract_zigzag_window.
  destruct (time_cols df); [done|]. destruct (df_get s df) as [s0|]; [|done].
  destruct (is_datetime64_any_dtype s0); [done|].
  destruct (to_datetime L s0); [|done]. by destruct (length l0 =? df_len df)%nat.
Qed.

Lemma time_cols_set c s df : In c (columns df) -> time_cols (df_set c s df) = time_cols df.
Proof. intros H. unfold time_cols. by rewrite df_set_columns. Qed.

(** A second call finds the time column converted and changes nothing. *)
Lemma extract_zigzag_window_state_idem L df t0 t1 t0' t1' :
  (extract_zigzag_window L (extract_zigzag_window L df t0 t1).1 t0' t1').1
  = (extract_zigzag_window L df t0 t1).1.
Proof.
  unfold extract_zigzag_window at 2 3.
  destruct (time_cols df) as [|time_col rest] eqn:Htc.
  { simpl. unfold extract_zigzag_window. by rewrite Htc. }
  destruct (df_get time_col df) as [s|] eqn:Hget.
  2:{ simpl. unfold extract_zigzag_window. by rewrite Htc, Hget. }
  destruct (is_datetime64_any_dtype s) eqn:E.
  { simpl. unfold extract_zigzag_window. by rewrite Htc, Hget, E. }
  destruct (to_datetime L s) as [ts|] eqn:Hto.
  2:{ simpl. unfold extract_zigzag_window. by rewrite Htc, Hget, E, Hto. }
  destruct (length ts =? df_len df)%nat eqn:Hl.
  2:{ simpl. unfold extract_zigzag_window. by rewrite Htc, Hget, E, Hto, Hl. }
  simpl. unfold extract_zigzag_window.
  rewrite time_cols_set by (by eapply time_cols_head_In).
  by rewrite Htc, df_get_set_eq.
Qed.
(** C8: on a pivot subset with fewer than 2 rows
    [calculate_price_movement] returns [price_movement] 0, [max_price],
    [min_price], [start_price] and [end_price] None and [movement_direction]
    neutral, and no error entry; it never raises, being a total function. *)
Theorem price_movement_of_short_window L (zigzag_window : DataFrame) :
  (df_len zigzag_window < 2)%nat ->
  let r := calculate_price_movement L zigzag_window in
  r !! "price_movement" = Some (PyInt 0) /\
  r !! "max_price" = Some PyNone /\
  r !! "min_price" = Some PyNone /\
  r !! "start_price" = Some PyNone /\
  r !! "end_price" = Some PyNone /\
  r !! "movement_direction" = Some (PyStr "neutral") /\
  r !! "error" = None.
Proof.
  intros H r. subst r. rewrite (calculate_price_movement_short L _ H).
  repeat split; reflexivity.
Qed.

Lemma price_movement_of_short_window_witness :
  (df_len single_pivot_window < 2)%nat /\
  calculate_price_movement null_library single_pivot_window !! "price_movement"
  = Some (PyInt 0).
Proof.
  assert (H : (df_len single_pivot_window < 2)%nat) by (vm_compute; lia).
  split; [exact H|].
  exact (proj1 (price_movement_of_short_window null_library single_pivot_window H)).
Defined.

(** The result when sorting by the first time-like column raises. *)
Lemma calculate_price_movement_unsortable L w price_col rest prices time_col s :
  (2 <= df_len w)%nat ->
  price_cols w = price_col :: rest ->
  df_get price_col w ≫= numeric_values = Some prices ->
  head (time_cols w) = Some time_col -> df_get time_col w = Some s ->
  sortable s = false ->
  calculate_price_movement L w
  = dict_of [("price_movement", PyInt 0); ("error", PyStr (lib_str_exception L))].
Proof.
  intros Hlen Hpc Hnum Htc Hget Hsort. unfold calculate_price_movement.
  rewrite (proj2 (Nat.ltb_ge _ _) Hlen), Hpc, Hnum.
  destruct (time_cols w) as [|time_col' tcs]; [done|]. injection Htc as ->.
  unfold sort_values. rewrite Hget. simpl. by rewrite Hsort.
Qed.

(** C1, as amended: on a pivot subset with at least 2 rows whose first
    column named with [price] is a column of floats, when sorting by the
    first column named with [time] or [date] does not raise (there is no
    such column, or its values are of one kind), [max_price] is the maximum
    and [min_price] the minimum of the values of that one price column that
    are not missing ([start_price] for a table of zigzag legs; [end_price]
    is not consulted), [price_movement] is [max_price] minus [min_price] and
    there is no [error] entry.  When the sort raises, the result is the
    error record with [price_movement] 0. *)
Theorem price_movement_of_first_price_column L w price_col rest prices :
  df_wf w -> (2 <= df_len w)%nat ->
  price_cols w = price_col :: rest ->
  df_get price_col w = Some (float64 prices) ->
  let r := calculate_price_movement L w in
  ((forall time_col s, head (time_cols w) = Some time_col ->
      df_get time_col w = Some s -> sortable s = true) ->
   r !! "max_price" = Some (PyNum (series_max prices)) /\
   r !! "min_price" = Some (PyNum (series_min prices)) /\
   r !! "price_movement" = Some (PyNum (fsub (series_max prices) (series_min prices))) /\
   r !! "error" = None) /\
  (forall time_col s, head (time_cols w) = Some time_col ->
     df_get time_col w = Some s -> sortable s = false ->
     r = dict_of [("price_movement", PyInt 0); ("error", PyStr (lib_str_exception L))]) /\
  (forall x, In x prices -> isnan x = false ->
     In (series_max prices) prices /\ In (series_min prices) prices /\
     forall y, In y prices -> isnan y = false ->
       fle y (series_max prices) = true /\ fle (series_min prices) y = true).
Proof.
  intros Hwf Hlen Hpc Hget r.
  assert (Hnum : df_get price_col w ≫= numeric_values = Some prices) by (by rewrite Hget).
  split; [|split].
  - intros Hsort. subst r.
    destruct (calculate_price_movement_numeric L w price_col rest prices
                Hwf Hlen Hpc Hnum Hsort) as (sp & ep & ->).
    repeat split; reflexivity.
  - intros time_col s Htc Hs Hsort. subst r.
    by apply (calculate_price_movement_unsortable L w price_col rest prices time_col s).
  - intros x Hx Hnan. repeat split.
    + by apply (series_max_spec prices x).
    + by apply (series_min_spec prices x).
    + by apply (series_max_spec prices x).
    + by apply (series_min_spec prices x).
Qed.

Lemma price_movement_of_first_price_column_witness :
  calculate_price_movement null_library two_leg_window !! "max_price"
  = Some (PyNum (series_max [Fin 1; Fin 2])) /\
  calculate_price_movement null_library two_leg_window !! "price_movement"
  = Some (PyNum (fsub (series_max [Fin 1; Fin 2]) (series_min [Fin 1; Fin 2]))).
Proof.
  destruct (price_movement_of_first_price_column null_library two_leg_window
              "start_price" ["end_price"] [Fin 1; Fin 2]) as [H _].
  - repeat constructor.
  - vm_compute. lia.
  - reflexivity.
  - reflexivity.
  - destruct H as (H1 & _ & H3 & _).
    + intros time_col s [= <-] [= <-]. reflexivity.
    + split; [exact H1 | exact H3].
Defined.

(** C1 fails as stated: with start prices 1, 2 and end prices 5, 0 the
    maximum over both columns is 5 and the minimum 0, but the code returns
    2 and 1. *)
Lemma price_movement_ignores_end_price :
  (2 <= df_len two_leg_window)%nat /\
  df_get "start_price" two_leg_window = Some (float64 [Fin 1; Fin 2]) /\
  df_get "end_price" two_leg_window = Some (float64 [Fin 5; Fin 0]) /\
  series_max ([Fin 1; Fin 2] ++ [Fin 5; Fin 0]) = Fin 5 /\
  series_min ([Fin 1; Fin 2] ++ [Fin 5; Fin 0]) = Fin 0 /\
  calculate_price_movement null_library two_leg_window !! "max_price" = Some (PyNum (Fin 2)) /\
  calculate_price_movement null_library two_leg_window !! "min_price" = Some (PyNum (Fin 1)) /\
  calculate_price_movement null_library two_leg_window !! "max_price"
  <> Some (PyNum (series_max ([Fin 1; Fin 2] ++ [Fin 5; Fin 0]))) /\
  calculate_price_movement null_library two_leg_window !! "min_price"
  <> Some (PyNum (series_min ([Fin 1; Fin 2] ++ [Fin 5; Fin 0]))).
Proof. vm_compute. repeat split; (lia || reflexivity || discriminate). Qed.
Lemma extract_state_eq L df t0 t1 :
  (extract_zigzag_window L df t0 t1).1 = extract_state L df.
Proof. apply extract_zigzag_window_state_indep. Qed.

Lemma extract_state_idem L df : extract_state L (extract_state L df) = extract_state L df.
Proof. apply extract_zigzag_window_state_idem. Qed.

Lemma extract_state_converted L df : converted_in_place L df (extract_state L df).
Proof.
  unfold extract_state, extract_zigzag_window.
  destruct (time_cols df) as [|time_col rest] eqn:Htc; [by left|].
  destruct (df_get time_col df) as [s|] eqn:Hget; [|by left].
  destruct (is_datetime64_any_dtype s) eqn:E; [by left|].
  destruct (to_datetime L s) as [ts|] eqn:Hto; [|by left].
  destruct (length ts =? df_len df)%nat eqn:Hl; [|by left].
  apply Nat.eqb_eq in Hl. right. by exists time_col, rest, s, ts.
Qed.

Lemma analyze_pre_event_state L pre_window indicator_row df :
  (analyze_pre_event L pre_window indicator_row df).1 = df \/
  (analyze_pre_event L pre_window indicator_row df).1 = extract_state L df.
Proof.
  unfold analyze_pre_event.
  destruct (event_time_of L indicator_row) as [| |event_time]; [by left|by left|].
  right.
  match goal with |- context [extract_zigzag_window L df ?a ?b] =>
    pose proof (extract_state_eq L df a b) as H1;
    destruct (extract_zigzag_window L df a b) as [df1 pre_data] end.
  simpl in H1. subst df1.
  destruct (df_len pre_data <? 2)%nat; [done|].
  match goal with |- context [extract_zigzag_window L ?d ?a ?b] =>
    pose proof (extract_state_eq L d a b) as H2;
    destruct (extract_zigzag_window L d a b) as [df2 last_minute_data] end.
  simpl in H2. rewrite extract_state_idem in H2. subst df2.
  by destruct (2 <=? df_len last_minute_data)%nat.
Qed.

Lemma post_event_step_state L event_time df results minutes :
  (post_event_step L event_time (df, results) minutes).1 = extract_state L df.
Proof.
  unfold post_event_step.
  match goal with |- context [extract_zigzag_window L df ?a ?b] =>
    pose proof (extract_state_eq L df a b) as H1;
    destruct (extract_zigzag_window L df a b) as [df1 post_data] end.
  simpl in H1. subst df1. by destruct (df_len post_data <? 2)%nat.
Qed.

Lemma post_event_loop_state L event_time post_windows df results :
  (fold_left (post_event_step L event_time) post_windows (df, results)).1 = df \/
  (fold_left (post_event_step L event_time) post_windows (df, results)).1 = extract_state L df.
Proof.
  revert df results.
  induction post_windows as [|minutes ws IH]; intros df results; cbn [fold_left].
  - by left.
  - right.
    pose proof (post_event_step_state L event_time df results minutes) as Hs.
    destruct (post_event_step L event_time (df, results) minutes) as [df1 results1].
    simpl in Hs. subst df1.
    destruct (IH (extract_state L df) results1) as [H|H]; rewrite H; [done|].
    apply extract_state_idem.
Qed.

Lemma analyze_post_event_state L post_windows indicator_row df :
  (analyze_post_event L post_windows indicator_row df).1 = df \/
  (analyze_post_event L post_windows indicator_row df).1 = extract_state L df.
Proof.
  unfold analyze_post_event.
  destruct (event_time_of L indicator_row) as [| |event_time]; [by left|by left|].
  apply post_event_loop_state.
Qed.

Lemma analyze_indicator_state L pre_window post_windows indicator_row df df' result :
  analyze_indicator L pre_window post_windows indicator_row df = Some (df', result) ->
  df' = df \/ df' = extract_state L df.
Proof.
  unfold analyze_indicator.
  pose proof (analyze_pre_event_state L pre_window indicator_row df) as H1.
  destruct (analyze_pre_event L pre_window indicator_row df) as [df1 pre_results].
  pose proof (analyze_post_event_state L post_windows indicator_row df1) as H2.
  destruct (analyze_post_event L post_windows indicator_row df1) as [df2 post_results].
  simpl in *.
  match goal with |- context [mbind _ ?x] => destruct x end; simpl; [|done].
  intros [= <- _].
  destruct H1 as [->| ->], H2 as [->| ->]; auto.
  right. apply extract_state_idem.
Qed.

Lemma batch_loop_state L pre_window post_windows rows df results df' results' :
  for_each (fun (state : DataFrame * list dict) indicator_row =>
              r ← analyze_indicator L pre_window post_windows indicator_row state.1;
              Some (r.1, state.2 ++ [r.2])) rows (df, results) = Some (df', results') ->
  df' = df \/ df' = extract_state L df.
Proof.
  revert df results. induction rows as [|row rows IH]; intros df results; simpl.
  - intros [= <- _]. by left.
  - destruct (analyze_indicator L pre_window post_windows row df) as [[df1 r1]|] eqn:E;
      simpl; [|done].
    intros H. apply IH in H.
    destruct (analyze_indicator_state _ _ _ _ _ _ _ E) as [->| ->]; [done|].
    right. destruct H as [->| ->]; [done | apply extract_state_idem].
Qed.

Lemma batch_process_indicators_state L indicators_df df analyzer df' results :
  batch_process_indicators L indicators_df df analyzer = Some (df', results) ->
  df' = df \/ df' = extract_state L df.
Proof. unfold batch_process_indicators. apply batch_loop_state. Qed.
Lemma converted_in_place_frame L df df' :
  converted_in_place L df df' ->
  columns df' = columns df /\ df_len df' = df_len df /\
  (forall c, head (time_cols df) <> Some c -> df_get c df' = df_get c df) /\
  ((forall c s, head (time_cols df) = Some c -> df_get c df = Some s ->
      is_datetime64_any_dtype s = true) -> df' = df).
Proof.
  intros [->|(time_col & rest & s & ts & Htc & Hget & Hdt & Hto & Hlen & ->)]; [done|].
  pose proof (time_cols_head_In _ _ _ Htc) as Hin.
  repeat split.
  - by apply df_set_columns.
  - apply df_len_set; [done|]. unfold series_len. simpl. by rewrite length_map.
  - intros c Hc. apply df_get_set_ne. intros ->. apply Hc. by rewrite Htc.
  - intros H. specialize (H time_col s). rewrite Htc in H.
    specialize (H eq_refl Hget). congruence.
Qed.

Lemma daily_volatility_state L df st rows :
  data_processor._calculate_daily_fixed_window_volatility L (Some df) = Some (st, rows) ->
  exists df2, st = Some df2 /\
    forall c, c <> "start_time_jst" -> c <> "date_jst" -> df_get c df2 = df_get c df.
Proof.
  unfold data_processor._calculate_daily_fixed_window_volatility.
  destruct (df_get "start_time_jst" df) as [start_time_jst|]; [|intros [= <- _]; by eexists].
  destruct (df_get "start_price" df); [|intros [= <- _]; by eexists].
  match goal with |- context [mbind _ ?x] => destruct x as [ts|] end; simpl; [|done].
  destruct (length ts =? df_len df)%nat; [|done].
  match goal with |- context [mbind _ ?x] => destruct x as [results|] end; simpl; [|done].
  intros [= <- _]. eexists. split; [done|]. intros c Hc1 Hc2.
  rewrite df_get_set_ne by done.
  destruct (is_datetime64_any_dtype start_time_jst); [done|].
  by rewrite df_get_set_ne.
Qed.
(** C3, as amended: window extraction, pre-event analysis, post-event
    analysis, the analysis of one indicator and batch processing leave the
    pivot table as it was except for one column: the first column whose name
    contains [time] or [date], when it is not yet of a datetime type, is
    replaced where it stands by its conversion to datetime.  Column names,
    row count and every other column are unchanged, and a table whose time
    column is already of a datetime type is not changed at all.  The daily
    fixed-window calculation changes only the columns [start_time_jst]
    (converted) and [date_jst] (added). *)
Theorem input_table_changes_only_in_time_column L (zigzag_df : DataFrame) :
  (forall t0 t1,
     converted_in_place L zigzag_df (extract_zigzag_window L zigzag_df t0 t1).1) /\
  (forall pre_window indicator_row,
     converted_in_place L zigzag_df
       (analyze_pre_event L pre_window indicator_row zigzag_df).1) /\
  (forall post_windows indicator_row,
     converted_in_place L zigzag_df
       (analyze_post_event L post_windows indicator_row zigzag_df).1) /\
  (forall pre_window post_windows indicator_row zigzag_df' result,
     analyze_indicator L pre_window post_windows indicator_row zigzag_df
     = Some (zigzag_df', result) ->
     converted_in_place L zigzag_df zigzag_df') /\
  (forall indicators_df analyzer zigzag_df' results,
     batch_process_indicators L indicators_df zigzag_df analyzer
     = Some (zigzag_df', results) ->
     converted_in_place L zigzag_df zigzag_df') /\
  (forall zigzag_df',
     converted_in_place L zigzag_df zigzag_df' ->
     columns zigzag_df' = columns zigzag_df /\
     df_len zigzag_df' = df_len zigzag_df /\
     (forall c, head (time_cols zigzag_df) <> Some c ->
        df_get c zigzag_df' = df_get c zigzag_df) /\
     ((forall c s, head (time_cols zigzag_df) = Some c -> df_get c zigzag_df = Some s ->
         is_datetime64_any_dtype s = true) ->
      zigzag_df' = zigzag_df)) /\
  (forall state rows,
     data_processor._calculate_daily_fixed_window_volatility L (Some zigzag_df)
     = Some (state, rows) ->
     exists zigzag_df', state = Some zigzag_df' /\
       forall c, c <> "start_time_jst" -> c <> "date_jst" ->
         df_get c zigzag_df' = df_get c zigzag_df).
Proof.
  assert (Hor : forall df', df' = zigzag_df \/ df' = extract_state L zigzag_df ->
                converted_in_place L zigzag_df df').
  { intros df' [->| ->]; [by left | apply extract_state_converted]. }
  split; [|split; [|split; [|split; [|split; [|split]]]]].
  - intros t0 t1. rewrite extract_state_eq. apply extract_state_converted.
  - intros. apply Hor, analyze_pre_event_state.
  - intros. apply Hor, analyze_post_event_state.
  - intros * H. eapply Hor, analyze_indicator_state, H.
  - intros * H. eapply Hor, batch_process_indicators_state, H.
  - apply converted_in_place_frame.
  - apply daily_volatility_state.
Qed.

(** C3 fails as stated: on a table whose first time-like column holds epoch
    seconds, every analysis operation replaces that column in the caller's
    table. *)
Lemma analysis_converts_time_column_of_input :
  df_get "start_time_utc_seconds" generated_zigzag
  = Some (int64 [1700000000; 1700000060]) /\
  (extract_zigzag_window null_library generated_zigzag (Some 0) (Some 0)).1
  = df_set "start_time_utc_seconds" (datetime64 [Some 1700000000; Some 1700000060])
      generated_zigzag /\
  (extract_zigzag_window null_library generated_zigzag (Some 0) (Some 0)).1
  <> generated_zigzag /\
  (analyze_pre_event null_library 5 generated_indicator generated_zigzag).1
  <> generated_zigzag /\
  (analyze_post_event null_library [5; 15; 30] generated_indicator generated_zigzag).1
  <> generated_zigzag /\
  fst <$> batch_process_indicators null_library generated_indicators generated_zigzag None
  <> Some generated_zigzag /\
  fst <$> data_processor._calculate_daily_fixed_window_volatility null_library
           (Some [("start_time_jst", datetime64 [Some 0]); ("start_price", float64 [Fin 1])])
  <> Some (Some [("start_time_jst", datetime64 [Some 0]); ("start_price", float64 [Fin 1])]).
Proof. vm_compute. repeat split; discriminate. Qed.

Lemma extract_zigzag_window_closed_interval_witness :
  df_wf scenario_pivots /\
  df_rows (extract_zigzag_window null_library scenario_pivots
             (Some 32400000000000) (Some 32520000000000)).2
  = [[Some (PyTime (Some 32400000000000)); Some (PyNum (Fin 1800))];
     [Some (PyTime (Some 32520000000000)); Some (PyNum (Fin 1805))]].
Proof.
  assert (Hwf : df_wf scenario_pivots) by (repeat constructor).
  split; [exact Hwf|].
  pose proof (proj1 (extract_zigzag_window_closed_interval null_library scenario_pivots
                       32400000000000 32520000000000 Hwf)
                "start_time_dt" []
                (datetime64 [Some 32400000000000; Some 32520000000000; Some 32640000000000])
                [Some 32400000000000; Some 32520000000000; Some 32640000000000]
                eq_refl eq_refl eq_refl eq_refl) as [_ H].
  exact H.
Defined.

(** C9 fails on a table laid out as the repository lays it out.  Its first
    column named with [time] holds epoch seconds, which the conversion
    reads as nanoseconds since the epoch: both pivots of [generated_zigzag]
    have their timestamp [start_time_dt] in the window, and the code
    returns neither. *)
Lemma extract_zigzag_window_misses_generated_pivots :
  time_cols generated_zigzag = ["start_time_utc_seconds"; "start_time_dt"] /\
  df_get "start_time_utc_seconds" generated_zigzag
  = Some (int64 [1700000000; 1700000060]) /\
  df_get "start_time_dt" generated_zigzag
  = Some (datetime64 [Some 1700000000000000000; Some 1700000060000000000]) /\
  map (in_window (Some 1700000000000000000) (Some 1700000060000000000))
    [Some 1700000000000000000; Some 1700000060000000000] = [true; true] /\
  df_rows (extract_zigzag_window null_library generated_zigzag
             (Some 1700000000000000000) (Some 1700000060000000000)).2 = [] /\
  df_get "start_time_utc_seconds"
    (extract_zigzag_window null_library generated_zigzag
       (Some 1700000000000000000) (Some 1700000060000000000)).1
  = Some (datetime64 [Some 1700000000; Some 1700000060]).
Proof. vm_compute. repeat split. Qed.
(** ** Keys built from a window *)

Lemma string_length_app s t : String.length (s +:+ t) = (String.length s + String.length t)%nat.
Proof. induction s as [|c s IH]; simpl; [done|]. by rewrite IH. Qed.

Lemma string_app_inj_r s1 s2 t : s1 +:+ t = s2 +:+ t -> s1 = s2.
Proof.
  revert s2. induction s1 as [|c s1 IH]; intros [|c2 s2] H; simpl in H.
  - done.
  - apply (f_equal String.length) in H. simpl in H.
    rewrite ?string_length_app in H. simpl in H. lia.
  - apply (f_equal String.length) in H. simpl in H.
    rewrite ?string_length_app in H. simpl in H. lia.
  - injection H as -> H. f_equal. by apply IH.
Qed.

Lemma window_name_inj (prefix suffix : string) (n m : Z) :
  prefix +:+ pretty n +:+ suffix = prefix +:+ pretty m +:+ suffix -> n = m.
Proof.
  intros H. apply String.app_inj in H. apply string_app_inj_r in H.
  by apply pretty_Z_inj in H.
Qed.

(** ** calculate_ratios *)

Section Ratios.

Context (L : Library) (pre_movement : pyval) (post_results : dict).

Let valid (n : Z) : bool :=
  truthy (get post_results (window_key n +:+ "_valid") (PyBool false)).
Let movement (n : Z) : pyval :=
  get post_results (window_key n +:+ "_price_movement") (PyInt 0).
Let ratio_of (p q : float) : float := if flt (Fin 0) p then fdiv q p else PInf.

(** One turn of the first loop, when the values are numbers. *)
Lemma ratio_step_numeric ratios n p q :
  as_num pre_movement = Some p -> valid n = true -> as_num (movement n) = Some q ->
  ratio_step L pre_movement post_results ratios n =
  Some (if flt (Fin 0) (ratio_of p q)
        then <["log_ratio_" +:+ pretty n +:+ "min" := PyNum (np_log L (ratio_of p q))]>
               (<["ratio_" +:+ pretty n +:+ "min" := PyNum (ratio_of p q)]> ratios)
        else <["ratio_" +:+ pretty n +:+ "min" := PyNum (ratio_of p q)]> ratios).
Proof.
  intros Hp Hv Hq. unfold ratio_step. fold (valid n). rewrite Hv. simpl.
  fold (movement n). unfold py_gt, py_div. rewrite Hp, Hq.
  change (as_num (PyInt 0)) with (Some (Fin 0)). cbn [mbind option_bind].
  unfold ratio_of. by destruct (flt (Fin 0) p).
Qed.

Lemma ratio_step_skipped ratios n :
  valid n = false -> ratio_step L pre_movement post_results ratios n = Some ratios.
Proof. intros Hv. unfold ratio_step. fold (valid n). by rewrite Hv. Qed.

(** The first loop writes [ratio_Nmin] and [log_ratio_Nmin] of the valid
    windows and nothing else. *)
Lemma ratio_loop_spec p post_windows ratios :
  as_num pre_movement = Some p ->
  (forall n, In n post_windows -> valid n = true -> exists q, as_num (movement n) = Some q) ->
  exists ratios',
    for_each (ratio_step L pre_movement post_results) post_windows ratios = Some ratios' /\
    (forall k,
       (forall n, In n post_windows -> valid n = true ->
          k <> "ratio_" +:+ pretty n +:+ "min" /\ k <> "log_ratio_" +:+ pretty n +:+ "min") ->
       ratios' !! k = ratios !! k) /\
    (forall n q, In n post_windows -> valid n = true -> as_num (movement n) = Some q ->
       ratios' !! ("ratio_" +:+ pretty n +:+ "min") = Some (PyNum (ratio_of p q)) /\
       ratios' !! ("log_ratio_" +:+ pretty n +:+ "min")
       = if flt (Fin 0) (ratio_of p q) then Some (PyNum (np_log L (ratio_of p q)))
         else ratios !! ("log_ratio_" +:+ pretty n +:+ "min")).
Proof.
  intros Hp. revert ratios.
  induction post_windows as [|m ws IH]; intros ratios Hnum; cbn [for_each].
  { exists ratios. split; [done|]. split; [done|]. intros n q []. }
  assert (Hstep : exists r1,
    ratio_step L pre_movement post_results ratios m = Some r1 /\
    (forall k, (valid m = true ->
         k <> "ratio_" +:+ pretty m +:+ "min" /\ k <> "log_ratio_" +:+ pretty m +:+ "min") ->
       r1 !! k = ratios !! k) /\
    (forall q, valid m = true -> as_num (movement m) = Some q ->
       r1 !! ("ratio_" +:+ pretty m +:+ "min") = Some (PyNum (ratio_of p q)) /\
       r1 !! ("log_ratio_" +:+ pretty m +:+ "min")
       = if flt (Fin 0) (ratio_of p q) then Some (PyNum (np_log L (ratio_of p q)))
         else ratios !! ("log_ratio_" +:+ pretty m +:+ "min"))).
  { destruct (valid m) eqn:Hv.
    - destruct (Hnum m (or_introl eq_refl) Hv) as [q Hq].
      rewrite (ratio_step_numeric ratios m p q Hp Hv Hq).
      eexists. split; [done|]. split.
      + intros k Hk. destruct (Hk eq_refl) as [Hk1 Hk2].
        destruct (flt (Fin 0) (ratio_of p q)); by rewrite ?lookup_insert_ne.
      + intros q' _ Hq'. assert (q' = q) as -> by congruence.
        destruct (flt (Fin 0) (ratio_of p q)).
        * rewrite lookup_insert_eq. split; [|done].
          rewrite lookup_insert_ne by discriminate. by rewrite lookup_insert_eq.
        * rewrite lookup_insert_eq. split; [done|].
          by rewrite lookup_insert_ne by discriminate.
    - rewrite (ratio_step_skipped ratios m Hv). exists ratios.
      split; [done|]. split; [done|]. done. }
  destruct Hstep as (r1 & -> & Hother1 & Hm). cbn [mbind option_bind].
  destruct (IH r1) as (r' & Hr' & Hother & Hws).
  { intros n Hn. apply Hnum. by right. }
  exists r'. split; [done|]. split.
  - intros k Hk. rewrite Hother.
    + apply Hother1. intros Hv. apply Hk; [by left | done].
    + intros n Hn. apply Hk. by right.
  - intros n q Hn Hv Hq.
    destruct (in_dec Z.eq_dec n ws) as [Hin|Hnin].
    + destruct (Hws n q Hin Hv Hq) as [H1 H2]. split; [done|].
      rewrite H2. destruct (flt (Fin 0) (ratio_of p q)) eqn:Er; [done|].
      destruct (decide (n = m)) as [->|Hne].
      * destruct (Hm q Hv Hq) as [_ Hl]. by rewrite Er in Hl.
      * apply Hother1. intros _. split; [discriminate|].
        intros Heq. by apply (window_name_inj "log_ratio_" "min") in Heq.
    + destruct Hn as [<-|Hn]; [|done].
      destruct (Hm q Hv Hq) as [H1 H2].
      rewrite !Hother.
      * done.
      * intros n Hn _. split; [discriminate|].
        intros Heq. apply (window_name_inj "log_ratio_" "min") in Heq. by subst.
      * intros n Hn _. split; [|discriminate].
        intros Heq. apply (window_name_inj "ratio_" "min") in Heq. by subst.
Qed.

End Ratios.
Lemma ratio_step_frame L pre_movement post_results ratios n ratios' k :
  ratio_step L pre_movement post_results ratios n = Some ratios' ->
  (truthy (get post_results (window_key n +:+ "_valid") (PyBool false)) = true ->
   k <> "ratio_" +:+ pretty n +:+ "min" /\ k <> "log_ratio_" +:+ pretty n +:+ "min") ->
  ratios' !! k = ratios !! k.
Proof.
  unfold ratio_step.
  destruct (truthy (get post_results (window_key n +:+ "_valid") (PyBool false)));
    cbn [negb]; [|by intros [= <-]].
  intros H Hk. destruct (Hk eq_refl) as [Hk1 Hk2].
  destruct (py_gt pre_movement (PyInt 0)) as [positive|]; cbn [mbind option_bind] in H; [|done].
  match type of H with context [mbind _ ?x] => destruct x as [ratio|] end;
    cbn [mbind option_bind] in H; [|done].
  assert (Hr : ratios' = if flt (Fin 0) ratio
                 then <["log_ratio_" +:+ pretty n +:+ "min" := PyNum (np_log L ratio)]>
                        (<["ratio_" +:+ pretty n +:+ "min" := PyNum ratio]> ratios)
                 else <["ratio_" +:+ pretty n +:+ "min" := PyNum ratio]> ratios)
    by congruence.
  rewrite Hr. destruct (flt (Fin 0) ratio); by rewrite ?lookup_insert_ne.
Qed.

Lemma ratio_loop_frame L pre_movement post_results post_windows ratios ratios' k :
  for_each (ratio_step L pre_movement post_results) post_windows ratios = Some ratios' ->
  (forall n, In n post_windows ->
     truthy (get post_results (window_key n +:+ "_valid") (PyBool false)) = true ->
     k <> "ratio_" +:+ pretty n +:+ "min" /\ k <> "log_ratio_" +:+ pretty n +:+ "min") ->
  ratios' !! k = ratios !! k.
Proof.
  revert ratios. induction post_windows as [|m ws IH]; intros ratios; cbn [for_each].
  - by intros [= <-].
  - destruct (ratio_step L pre_movement post_results ratios m) as [r1|] eqn:E;
      cbn [mbind option_bind]; [|done].
    intros H Hk. rewrite (IH r1 H) by (intros n Hn; apply Hk; by right).
    apply (ratio_step_frame _ _ _ _ _ _ _ E). apply Hk. by left.
Qed.

(** The second loop writes [direction_consistency_Nmin] of every window
    and nothing else. *)
Lemma direction_loop_spec pre_direction post_results post_windows ratios :
  (forall k, (forall n, In n post_windows ->
                k <> "direction_consistency_" +:+ pretty n +:+ "min") ->
     fold_left (direction_step pre_direction post_results) post_windows ratios !! k
     = ratios !! k) /\
  (forall n, In n post_windows ->
     fold_left (direction_step pre_direction post_results) post_windows ratios
       !! ("direction_consistency_" +:+ pretty n +:+ "min")
     = Some (PyNum (direction_consistency pre_direction
                      (get post_results (window_key n +:+ "_movement_direction")
                         (PyStr "neutral"))))).
Proof.
  revert ratios. induction post_windows as [|m ws IH]; intros ratios; cbn [fold_left].
  - split; [done|]. intros n [].
  - destruct (IH (direction_step pre_direction post_results ratios m)) as [Hother Hin].
    split.
    + intros k Hk. rewrite Hother by (intros n Hn; apply Hk; by right).
      unfold direction_step. rewrite lookup_insert_ne; [done|].
      intros Heq. by apply (Hk m (or_introl eq_refl)).
    + intros n Hn. destruct (in_dec Z.eq_dec n ws) as [Hws|Hws]; [by apply Hin|].
      destruct Hn as [<-|Hn]; [|done].
      rewrite Hother.
      * unfold direction_step. by rewrite lookup_insert_eq.
      * intros n Hn Heq. apply (window_name_inj "direction_consistency_" "min") in Heq.
        by subst.
Qed.

(** A result with [ratios_valid] true comes from the two loops. *)
Lemma calculate_ratios_valid_inv L post_windows pre_results post_results ratios :
  calculate_ratios L post_windows pre_results post_results = Some ratios ->
  ratios !! "ratios_valid" = Some (PyBool true) ->
  exists r1,
    for_each (ratio_step L (get pre_results "price_movement" (PyInt 0)) post_results)
      post_windows ∅ = Some r1 /\
    ratios = <["ratios_valid" := PyBool true]>
               (fold_left (direction_step (get pre_results "movement_direction" (PyStr "neutral"))
                             post_results) post_windows r1).
Proof.
  unfold calculate_ratios.
  destruct (truthy (get pre_results "pre_event_valid" (PyBool false))); cbn [negb];
    [|by intros [= <-]].
  destruct (truthy (get post_results "post_event_valid" (PyBool false))); cbn [negb];
    [|by intros [= <-]].
  destruct (py_eq (get pre_results "price_movement" (PyInt 0)) (PyInt 0));
    [by intros [= <-]|].
  destruct (for_each _ post_windows ∅) as [r1|]; cbn [mbind option_bind]; [|done].
  intros [= <-] _. by exists r1.
Qed.

Lemma direction_consistency_neutral pre_direction :
  direction_consistency pre_direction (PyStr "neutral") = Fin 0.5.
Proof. unfold direction_consistency. by rewrite orb_true_r. Qed.

(** C10: whenever [calculate_ratios] returns a result with [ratios_valid]
    true, the result holds [direction_consistency_Nmin] for every configured
    post window N.  A window whose post metrics are marked invalid and
    which has no direction entry is taken as neutral: its
    [direction_consistency_Nmin] is 0.5, while its [ratio_Nmin] and
    [log_ratio_Nmin] are absent. *)
Theorem direction_consistency_for_every_window L post_windows pre_results post_results ratios :
  calculate_ratios L post_windows pre_results post_results = Some ratios ->
  ratios !! "ratios_valid" = Some (PyBool true) ->
  forall n, In n post_windows ->
    ratios !! ("direction_consistency_" +:+ pretty n +:+ "min")
    = Some (PyNum (direction_consistency
                     (get pre_results "movement_direction" (PyStr "neutral"))
                     (get post_results (window_key n +:+ "_movement_direction")
                        (PyStr "neutral")))) /\
    (truthy (get post_results (window_key n +:+ "_valid") (PyBool false)) = false ->
     post_results !! (window_key n +:+ "_movement_direction") = None ->
     ratios !! ("direction_consistency_" +:+ pretty n +:+ "min") = Some (PyNum (Fin 0.5)) /\
     ratios !! ("ratio_" +:+ pretty n +:+ "min") = None /\
     ratios !! ("log_ratio_" +:+ pretty n +:+ "min") = None).
Proof.
  intros Hc Hv n Hn.
  destruct (calculate_ratios_valid_inv _ _ _ _ _ Hc Hv) as (r1 & Hr1 & ->).
  destruct (direction_loop_spec (get pre_results "movement_direction" (PyStr "neutral"))
              post_results post_windows r1) as [Hother Hin].
  assert (Hd : (<["ratios_valid" := PyBool true]>
                  (fold_left (direction_step
                                (get pre_results "movement_direction" (PyStr "neutral"))
                                post_results) post_windows r1))
               !! ("direction_consistency_" +:+ pretty n +:+ "min")
               = Some (PyNum (direction_consistency
                     (get pre_results "movement_direction" (PyStr "neutral"))
                     (get post_results (window_key n +:+ "_movement_direction")
                        (PyStr "neutral"))))).
  { rewrite lookup_insert_ne by discriminate. by apply Hin. }
  split; [exact Hd|].
  intros Hinv Hmiss. split; [|split].
  - rewrite Hd. unfold get at 2. rewrite Hmiss. by rewrite direction_consistency_neutral.
  - rewrite lookup_insert_ne by discriminate.
    rewrite Hother by (intros; discriminate).
    rewrite (ratio_loop_frame _ _ _ _ _ _ _ Hr1); [done|].
    intros m Hm Hmv. split; [|discriminate].
    intros Heq. apply (window_name_inj "ratio_" "min") in Heq. congruence.
  - rewrite lookup_insert_ne by discriminate.
    rewrite Hother by (intros; discriminate).
    rewrite (ratio_loop_frame _ _ _ _ _ _ _ Hr1); [done|].
    intros m Hm Hmv. split; [discriminate|].
    intros Heq. apply (window_name_inj "log_ratio_" "min") in Heq. congruence.
Qed.

Lemma direction_consistency_for_every_window_witness :
  exists ratios,
    calculate_ratios null_library [5; 15] (pre_result (PyNum (Fin 4)) "up")
      post_result_5_valid_15_invalid = Some ratios /\
    ratios !! "direction_consistency_5min" = Some (PyNum (Fin 1)) /\
    ratios !! "direction_consistency_15min" = Some (PyNum (Fin 0.5)) /\
    ratios !! "ratio_15min" = None.
Proof.
  destruct (calculate_ratios null_library [5; 15] (pre_result (PyNum (Fin 4)) "up")
              post_result_5_valid_15_invalid) as [ratios|] eqn:E; [|by vm_compute in E].
  exists ratios. split; [done|].
  assert (Hv : ratios !! "ratios_valid" = Some (PyBool true)).
  { vm_compute in E. injection E as <-. reflexivity. }
  pose proof (direction_consistency_for_every_window null_library _ _ _ _ E Hv 5
                (or_introl eq_refl)) as [H5 _].
  pose proof (direction_consistency_for_every_window null_library _ _ _ _ E Hv 15
                (or_intror (or_introl eq_refl))) as [_ H15].
  destruct (H15 eq_refl eq_refl) as (Hd15 & Hr15 & _).
  split; [exact H5|]. split; [exact Hd15 | exact Hr15].
Defined.
Lemma fdiv_positive a b : (0 < a)%Q -> fdiv (Fin b) (Fin a) = Fin (b / a).
Proof.
  intros Ha. unfold fdiv.
  destruct (Qeq_bool a 0) eqn:E; [|done].
  apply Qeq_bool_iff in E. rewrite E in Ha. by apply Qlt_irrefl in Ha.
Qed.

Lemma flt_zero_positive a : (0 < a)%Q -> flt (Fin 0) (Fin a) = true.
Proof.
  intros Ha. simpl. apply negb_true_iff.
  destruct (Qle_bool a 0) eqn:E; [|done].
  apply Qle_bool_iff in E. exfalso. by apply (Qlt_not_le _ _ Ha).
Qed.

(** C4, as amended: [calculate_ratios] returns [ratios_valid] false,
    without raising, when the pre-event result is invalid, the post-event
    result is invalid or the pre-event movement equals 0.  Otherwise, when
    the movements are numbers, it returns [ratios_valid] true and, for every
    post window whose metrics are valid, [ratio_Nmin] is the post-window
    movement divided by the pre-event movement if the pre-event movement is
    positive and plus infinity if it is not; [log_ratio_Nmin] is
    [np.log(ratio)] when the ratio is positive and is absent otherwise. *)
Theorem calculate_ratios_guards_and_ratios L post_windows pre_results post_results :
  let pre_movement := get pre_results "price_movement" (PyInt 0) in
  let valid n := truthy (get post_results (window_key n +:+ "_valid") (PyBool false)) in
  let movement n := get post_results (window_key n +:+ "_price_movement") (PyInt 0) in
  ((truthy (get pre_results "pre_event_valid" (PyBool false)) = false \/
    truthy (get post_results "post_event_valid" (PyBool false)) = false \/
    py_eq pre_movement (PyInt 0) = true) ->
   exists ratios,
     calculate_ratios L post_windows pre_results post_results = Some ratios /\
     ratios !! "ratios_valid" = Some (PyBool false)) /\
  (truthy (get pre_results "pre_event_valid" (PyBool false)) = true ->
   truthy (get post_results "post_event_valid" (PyBool false)) = true ->
   py_eq pre_movement (PyInt 0) = false ->
   forall p, as_num pre_movement = Some p ->
   (forall n, In n post_windows -> valid n = true -> exists q, as_num (movement n) = Some q) ->
   exists ratios,
     calculate_ratios L post_windows pre_results post_results = Some ratios /\
     ratios !! "ratios_valid" = Some (PyBool true) /\
     forall n q, In n post_windows -> valid n = true -> as_num (movement n) = Some q ->
       let ratio := if flt (Fin 0) p then fdiv q p else PInf in
       ratios !! ("ratio_" +:+ pretty n +:+ "min") = Some (PyNum ratio) /\
       ratios !! ("log_ratio_" +:+ pretty n +:+ "min")
       = (if flt (Fin 0) ratio then Some (PyNum (np_log L ratio)) else None) /\
       (forall a b, p = Fin a -> q = Fin b -> (0 < a)%Q ->
          ratios !! ("ratio_" +:+ pretty n +:+ "min") = Some (PyNum (Fin (b / a))))).
Proof.
  intros pre_movement valid movement. split.
  - intros H. unfold calculate_ratios. fold pre_movement.
    destruct (truthy (get pre_results "pre_event_valid" (PyBool false))); cbn [negb];
      [|by eexists].
    destruct (truthy (get post_results "post_event_valid" (PyBool false))); cbn [negb];
      [|by eexists].
    destruct (py_eq pre_movement (PyInt 0)); [by eexists|].
    by destruct H as [?|[?|?]].
  - intros Hpre Hpost Hne p Hp Hnum.
    unfold calculate_ratios. fold pre_movement. rewrite Hpre, Hpost, Hne. cbn [negb].
    destruct (ratio_loop_spec L pre_movement post_results p post_windows ∅ Hp Hnum)
      as (r1 & -> & Hother & Hws).
    cbn [mbind option_bind]. eexists. split; [done|].
    split; [by rewrite lookup_insert_eq|].
    intros n q Hn Hv Hq. set (ratio := if flt (Fin 0) p then fdiv q p else PInf).
    destruct (direction_loop_spec (get pre_results "movement_direction" (PyStr "neutral"))
                post_results post_windows r1) as [Hdir _].
    destruct (Hws n q Hn Hv Hq) as [H1 H2].
    assert (Hr : (<["ratios_valid" := PyBool true]>
                    (fold_left (direction_step
                                  (get pre_results "movement_direction" (PyStr "neutral"))
                                  post_results) post_windows r1))
                 !! ("ratio_" +:+ pretty n +:+ "min") = Some (PyNum ratio)).
    { rewrite lookup_insert_ne by discriminate.
      rewrite Hdir by (intros; discriminate). exact H1. }
    split; [exact Hr|]. split.
    + rewrite lookup_insert_ne by discriminate.
      rewrite Hdir by (intros; discriminate). rewrite H2.
      subst ratio. by destruct (flt (Fin 0) (if flt (Fin 0) p then fdiv q p else PInf)).
    + intros a b -> -> Ha. rewrite Hr. subst ratio.
      by rewrite (flt_zero_positive a Ha), (fdiv_positive a b Ha).
Qed.

Lemma calculate_ratios_guards_and_ratios_witness :
  exists ratios,
    calculate_ratios null_library [5; 15] (pre_result (PyNum (Fin 4)) "up")
      post_result_5_valid_15_invalid = Some ratios /\
    ratios !! "ratios_valid" = Some (PyBool true) /\
    ratios !! "ratio_5min" = Some (PyNum (Fin (2 / 4))).
Proof.
  destruct (proj2 (calculate_ratios_guards_and_ratios null_library [5; 15]
                     (pre_result (PyNum (Fin 4)) "up") post_result_5_valid_15_invalid)
              eq_refl eq_refl eq_refl (Fin 4) eq_refl) as (ratios & Hc & Hv & Hr).
  { intros n [<-|[<-|[]]] Hn; [by exists (Fin 2) | by vm_compute in Hn]. }
  exists ratios. split; [exact Hc|]. split; [exact Hv|].
  destruct (Hr 5 (Fin 2) (or_introl eq_refl) eq_refl eq_refl) as (_ & _ & H).
  exact (H 4%Q 2%Q eq_refl eq_refl eq_refl).
Defined.

(** C4 fails as stated: for a pre-event movement of -1 and a valid 5-minute
    window with movement 2 the ratio is plus infinity, not 2 / -1. *)
Lemma ratio_of_negative_pre_movement_is_infinite :
  truthy (get (pre_result (PyNum (Fin (-1))) "up") "pre_event_valid" (PyBool false)) = true /\
  truthy (get post_result_5_valid_15_invalid "post_event_valid" (PyBool false)) = true /\
  py_eq (get (pre_result (PyNum (Fin (-1))) "up") "price_movement" (PyInt 0)) (PyInt 0) = false /\
  truthy (get post_result_5_valid_15_invalid "post_5min_valid" (PyBool false)) = true /\
  get post_result_5_valid_15_invalid "post_5min_price_movement" (PyInt 0) = PyNum (Fin 2) /\
  exists ratios,
    calculate_ratios null_library [5; 15] (pre_result (PyNum (Fin (-1))) "up")
      post_result_5_valid_15_invalid = Some ratios /\
    ratios !! "ratio_5min" = Some (PyNum PInf) /\
    ratios !! "ratio_5min" <> Some (PyNum (fdiv (Fin 2) (Fin (-1)))).
Proof.
  repeat split; try reflexivity.
  eexists. split; [vm_compute; reflexivity|]. split; [reflexivity|].
  vm_compute. discriminate.
Qed.
(** ** Fixed day segments *)

Lemma hour_cases h : 0 <= h < 24 ->
  h = 0 \/ h = 1 \/ h = 2 \/ h = 3 \/ h = 4 \/ h = 5 \/ h = 6 \/ h = 7 \/ h = 8 \/ h = 9 \/
  h = 10 \/ h = 11 \/ h = 12 \/ h = 13 \/ h = 14 \/ h = 15 \/ h = 16 \/ h = 17 \/ h = 18 \/
  h = 19 \/ h = 20 \/ h = 21 \/ h = 22 \/ h = 23.
Proof. lia. Qed.

(** C2: the segments of [calculate_intraday_volatility.py] and of
    [merge_indicators_with_volatility.py] partition the day: every hour of
    0..23 lies in exactly one of them, and [get_time_range] names it.  The
    segments of [DataProcessor] do so for every hour but 6, which lies in
    none: a pivot that starts between 06:00 and 07:00 falls in no window of
    any date. *)
Theorem fixed_day_segments_partition :
  (forall h, 0 <= h < 24 ->
     length (segments_containing calculate_intraday_volatility.JST_TIME_RANGES h) = 1%nat) /\
  (forall h, 0 <= h < 24 ->
     length (segments_containing merge_indicators_with_volatility.jst_time_ranges h) = 1%nat /\
     is_Some (merge_indicators_with_volatility.get_time_range h)) /\
  (forall h, 0 <= h < 24 -> h <> 6 ->
     length (segments_containing data_processor.FIXED_TIME_WINDOWS_JST h) = 1%nat) /\
  segments_containing data_processor.FIXED_TIME_WINDOWS_JST 6 = [] /\
  (forall date_val date_val' t window,
     data_processor.at_hour date_val 6 <= t < data_processor.at_hour date_val 7 ->
     In window data_processor.FIXED_TIME_WINDOWS_JST ->
     data_processor.window_mask [Some t] date_val' window = [false]).
Proof.
  split; [|split; [|split; [|split]]].
  - intros h Hh. destruct (hour_cases h Hh) as
      [->|[->|[->|[->|[->|[->|[->|[->|[->|[->|[->|[->|[->|[->|[->|[->|[->|[->|[->|[->|[->|[->|[->| ->]]]]]]]]]]]]]]]]]]]]]]];
      reflexivity.
  - intros h Hh. destruct (hour_cases h Hh) as
      [->|[->|[->|[->|[->|[->|[->|[->|[->|[->|[->|[->|[->|[->|[->|[->|[->|[->|[->|[->|[->|[->|[->| ->]]]]]]]]]]]]]]]]]]]]]]];
      (split; [reflexivity | by eexists]).
  - intros h Hh H6. destruct (hour_cases h Hh) as
      [->|[->|[->|[->|[->|[->|[->|[->|[->|[->|[->|[->|[->|[->|[->|[->|[->|[->|[->|[->|[->|[->|[->| ->]]]]]]]]]]]]]]]]]]]]]]];
      (reflexivity || done).
  - reflexivity.
  - intros d [d'|] t w Ht Hw; [|reflexivity].
    unfold data_processor.window_mask. simpl. f_equal.
    unfold data_processor.at_hour, data_processor.NS_PER_HOUR in *.
    apply andb_false_iff. left. apply andb_false_iff.
    assert (d' < d \/ d' = d \/ d < d') as [Hd|[->|Hd]] by lia.
    + right. apply Z.ltb_ge.
      simpl in Hw. destruct Hw as [<-|[<-|[<-|[<-|[<-|[<-|[<-|[]]]]]]]]; simpl; lia.
    + simpl in Hw. destruct Hw as [<-|[<-|[<-|[<-|[<-|[<-|[<-|[]]]]]]]]; simpl;
        (left; apply Z.leb_gt; lia) || (right; apply Z.ltb_ge; lia).
    + left. apply Z.leb_gt.
      simpl in Hw. destruct Hw as [<-|[<-|[<-|[<-|[<-|[<-|[<-|[]]]]]]]]; simpl; lia.
Qed.

Lemma fixed_day_segments_partition_witness :
  length (segments_containing calculate_intraday_volatility.JST_TIME_RANGES 6) = 1%nat /\
  segments_containing data_processor.FIXED_TIME_WINDOWS_JST 6 = [].
Proof.
  split.
  - apply (proj1 fixed_day_segments_partition 6). lia.
  - exact (proj1 (proj2 (proj2 (proj2 fixed_day_segments_partition)))).
Defined.

(** ** Classification *)

(** C6: with thresholds [q1] and [q2], [get_category] of both scripts
    gives 小 (small) to a mean strictly below [q1], 中 (medium) to a mean at
    or above [q1] and strictly below [q2], and 大 (large) otherwise, so a
    boundary value falls in the upper category; the means 0.5, 1.0, 1.5,
    2.0, 2.5 with thresholds 1.0 and 2.0 are classified small, medium,
    medium, large, large.  [classify_indicators] writes these categories
    into [Volatility_Category], row by row of a column of means that holds
    floats, for the thresholds it works with: those of the processor when
    it has them, and otherwise the quantiles 0.33 and 0.67 of the means
    with the method percentile, 0.0005 and 0.001 with the method absolute.
    [calculate_indicator_statistics.py] does the same with the quantiles
    0.33 and 0.67. *)
Theorem get_category_half_open (q1 q2 x : Q) :
  ((x < q1)%Q -> statistical_processor.get_category (Fin q1) (Fin q2) (Fin x) = "小") /\
  ((q1 <= x)%Q -> (x < q2)%Q ->
     statistical_processor.get_category (Fin q1) (Fin q2) (Fin x) = "中") /\
  ((q1 <= x)%Q -> (q2 <= x)%Q ->
     statistical_processor.get_category (Fin q1) (Fin q2) (Fin x) = "大") /\
  calculate_indicator_statistics.get_category (Fin q1) (Fin q2) (Fin x)
  = statistical_processor.get_category (Fin q1) (Fin q2) (Fin x) /\
  map (statistical_processor.get_category (Fin 1) (Fin 2))
    [Fin 0.5; Fin 1; Fin 1.5; Fin 2; Fin 2.5] = ["小"; "中"; "中"; "大"; "大"] /\
  (forall L target_column stats_df method means,
     df_get (target_column +:+ "_mean") stats_df = Some (float64 means) ->
     method = "percentile" \/ method = "absolute" ->
     df_get "Volatility_Category"
       (statistical_processor.classify_indicators L (Some (Fin q1, Fin q2))
          target_column stats_df method)
     = Some (object (map (fun m => PyStr (statistical_processor.get_category
                                            (Fin q1) (Fin q2) m)) means))) /\
  (forall L category_thresholds target_column stats_df method means,
     df_get (target_column +:+ "_mean") stats_df = Some (float64 means) ->
     method = "percentile" \/ method = "absolute" ->
     let thresholds :=
       match category_thresholds with
       | Some thresholds => thresholds
       | None =>
           if String.eqb method "percentile"
           then (lib_quantile L means 0.33, lib_quantile L means 0.67)
           else (Fin 0.0005, Fin 0.001)
       end in
     df_get "Volatility_Category"
       (statistical_processor.classify_indicators L category_thresholds
          target_column stats_df method)
     = Some (object (map (fun m => PyStr (statistical_processor.get_category
                                            thresholds.1 thresholds.2 m)) means))) /\
  (forall L PriceMovement_mean,
     calculate_indicator_statistics.Volatility_Category L PriceMovement_mean
     = map (statistical_processor.get_category
              (lib_quantile L PriceMovement_mean 0.33)
              (lib_quantile L PriceMovement_mean 0.67)) PriceMovement_mean) /\
  (forall L method, method = "percentile" \/ method = "absolute" ->
     df_get "Volatility_Category"
       (statistical_processor.classify_indicators L (Some (Fin 1, Fin 2))
          "post_15min_price_movement" mean_table method)
     = Some (object [PyStr "小"; PyStr "中"; PyStr "中"; PyStr "大"; PyStr "大"])).
Proof.
  assert (Hlt : forall a b, (a < b)%Q -> flt (Fin a) (Fin b) = true).
  { intros a b H. simpl. apply negb_true_iff. destruct (Qle_bool b a) eqn:E; [|done].
    apply Qle_bool_iff in E. exfalso. by apply (Qlt_not_le _ _ H). }
  assert (Hge : forall a b, (b <= a)%Q -> flt (Fin a) (Fin b) = false).
  { intros a b H. simpl. apply negb_false_iff. by apply Qle_bool_iff. }
  assert (Hclass : forall L category_thresholds target_column stats_df method means,
     df_get (target_column +:+ "_mean") stats_df = Some (float64 means) ->
     method = "percentile" \/ method = "absolute" ->
     let thresholds :=
       match category_thresholds with
       | Some thresholds => thresholds
       | None =>
           if String.eqb method "percentile"
           then (lib_quantile L means 0.33, lib_quantile L means 0.67)
           else (Fin 0.0005, Fin 0.001)
       end in
     df_get "Volatility_Category"
       (statistical_processor.classify_indicators L category_thresholds
          target_column stats_df method)
     = Some (object (map (fun m => PyStr (statistical_processor.get_category
                                            thresholds.1 thresholds.2 m)) means))).
  { intros L category_thresholds target_column stats_df method means Hget Hm.
    unfold statistical_processor.classify_indicators. rewrite Hget. simpl.
    destruct Hm as [-> | ->]; simpl;
      destruct category_thresholds as [[t1 t2]|]; simpl; by rewrite df_get_set_eq. }
  split; [|split; [|split; [|split; [|split; [|split; [|split; [|split]]]]]]].
  - intros H. unfold statistical_processor.get_category. by rewrite (Hlt _ _ H).
  - intros H1 H2. unfold statistical_processor.get_category.
    by rewrite (Hge _ _ H1), (Hlt _ _ H2).
  - intros H1 H2. unfold statistical_processor.get_category.
    by rewrite (Hge _ _ H1), (Hge _ _ H2).
  - reflexivity.
  - reflexivity.
  - intros L target_column stats_df method means Hget Hm.
    apply (Hclass L (Some (Fin q1, Fin q2)) target_column stats_df method means Hget Hm).
  - exact Hclass.
  - reflexivity.
  - intros L method Hm.
    rewrite (Hclass L (Some (Fin 1, Fin 2)) "post_15min_price_movement" mean_table method
               [Fin 0.5; Fin 1; Fin 1.5; Fin 2; Fin 2.5] eq_refl Hm).
    reflexivity.
Qed.

Lemma get_category_half_open_witness :
  statistical_processor.get_category (Fin 1) (Fin 2) (Fin 0.5) = "小" /\
  statistical_processor.get_category (Fin 1) (Fin 2) (Fin 1) = "中" /\
  statistical_processor.get_category (Fin 1) (Fin 2) (Fin 2) = "大".
Proof.
  split; [|split].
  - apply (proj1 (get_category_half_open 1 2 0.5)). reflexivity.
  - apply (proj1 (proj2 (get_category_half_open 1 2 1))); [discriminate | reflexivity].
  - apply (proj1 (proj2 (proj2 (get_category_half_open 1 2 2)))); discriminate.
Defined.
(** ** Daily fixed-window volatility *)

Lemma df_len_set_any c s df :
  series_len s = df_len df -> df_len (df_set c s df) = df_len df.
Proof.
  destruct df as [|[n s0] df]; simpl; [done|]. by destruct (String.eqb n c).
Qed.

Lemma df_wf_set_any c s df :
  df_wf df -> series_len s = df_len df -> df_wf (df_set c s df).
Proof.
  intros Hwf Hlen. unfold df_wf. rewrite df_len_set_any by done.
  apply List.Forall_forall. intros col Hcol.
  destruct (df_set_In _ _ _ _ Hcol) as [->|H]; [done|].
  unfold df_wf in Hwf. rewrite List.Forall_forall in Hwf. by apply Hwf.
Qed.

Lemma collect_filter_mask {A B} (f : A -> option B) mask l r :
  collect f l = Some r -> collect f (filter_mask mask l) = Some (filter_mask mask r).
Proof.
  revert l r. induction mask as [|b mask IH]; intros [|x l] r; simpl; try done.
  - by intros [= <-].
  - destruct (f x) as [y|] eqn:Ex; cbn [mbind option_bind]; [|done].
    destruct (collect f l) as [ys|] eqn:El; cbn [mbind option_bind]; [|done].
    intros [= <-]. specialize (IH l ys El).
    destruct b; simpl; [|done]. by rewrite Ex, IH.
Qed.

Lemma numeric_values_filter mask s xs :
  numeric_values s = Some xs ->
  numeric_values (series_map (fun A => @filter_mask A mask) s) = Some (filter_mask mask xs).
Proof.
  destruct s; simpl; try done.
  - by intros [= <-].
  - intros [= <-]. by rewrite filter_mask_map.
  - apply collect_filter_mask.
Qed.

Lemma filter_mask_zip {A B} (f : A -> bool) (ts : list A) (ps : list B) :
  filter_mask (map f ts) ps = map snd (List.filter (fun p => f p.1) (zip ts ps)).
Proof.
  revert ps. induction ts as [|t ts IH]; intros [|p ps]; simpl; try done.
  destruct (f t); simpl; by rewrite IH.
Qed.

Lemma collect_map {A B} (body : A -> option B) (f : A -> B) xs :
  (forall x, In x xs -> body x = Some (f x)) -> collect body xs = Some (map f xs).
Proof.
  induction xs as [|x xs IH]; intros H; simpl; [done|].
  rewrite (H x (or_introl eq_refl)). cbn [mbind option_bind].
  rewrite IH by (intros y Hy; apply H; by right). done.
Qed.

(** A time within the hours 0..24 of a date has that date. *)
Lemma date_of_at_hour date_val a b t :
  0 <= a -> b <= 24 ->
  data_processor.at_hour date_val a <= t < data_processor.at_hour date_val b ->
  data_processor.date_of t = date_val.
Proof.
  unfold data_processor.at_hour, data_processor.date_of, data_processor.NS_PER_HOUR.
  intros Ha Hb Ht. symmetry.
  apply (Z.div_unique_pos t _ date_val (t - date_val * (24 * 3600000000000))); lia.
Qed.

(** The three tests of the mask, on one start time, say that the time has
    the date and that its hour lies in the segment. *)
Lemma mask_test_as_specified (date_val a b t : Z) :
  ((data_processor.at_hour date_val a <=? t) && (t <? data_processor.at_hour date_val b)
   && (data_processor.date_of t =? date_val))%bool
  = ((spec_day t =? date_val) && (a <=? spec_hour t) && (spec_hour t <? b))%bool.
Proof.
  unfold data_processor.at_hour, data_processor.date_of, data_processor.NS_PER_HOUR,
    spec_day, spec_hour.
  change (24 * 3600000000000) with 86400000000000.
  pose proof (Z.div_mod t 86400000000000 ltac:(done)) as Ht.
  pose proof (Z.mod_pos_bound t 86400000000000 ltac:(done)) as Hr.
  set (r := t mod 86400000000000) in *. set (d := t / 86400000000000) in *.
  pose proof (Z.div_mod r 3600000000000 ltac:(done)) as Hq.
  pose proof (Z.mod_pos_bound r 3600000000000 ltac:(done)) as Hm.
  set (h := r / 3600000000000) in *. set (m := r mod 3600000000000) in *.
  destruct (d =? date_val) eqn:Ed.
  - apply Z.eqb_eq in Ed. rewrite andb_true_r. simpl.
    destruct (a <=? h) eqn:Ea, (h <? b) eqn:Eb; simpl;
      repeat match goal with
             | H : (_ <=? _) = true |- _ => apply Z.leb_le in H
             | H : (_ <=? _) = false |- _ => apply Z.leb_gt in H
             | H : (_ <? _) = true |- _ => apply Z.ltb_lt in H
             | H : (_ <? _) = false |- _ => apply Z.ltb_ge in H
             end.
    + apply andb_true_iff. split; [apply Z.leb_le | apply Z.ltb_lt]; lia.
    + apply andb_false_iff. right. apply Z.ltb_ge. lia.
    + apply andb_false_iff. left. apply Z.leb_gt. lia.
    + apply andb_false_iff. left. apply Z.leb_gt. lia.
  - simpl. apply andb_false_r.
Qed.

(** The mask of a date and a segment selects the pivots that start on
    the date at an hour of the segment. *)
Lemma window_mask_as_specified ts date_val window :
  data_processor.window_mask ts (Some date_val) window
  = map (fun t => match t with
                  | Some t => ((spec_day t =? date_val) && (window.1 <=? spec_hour t) &&
                               (spec_hour t <? window.2))%bool
                  | None => false
                  end) ts.
Proof.
  unfold data_processor.window_mask. apply map_ext. intros [t|]; [|done].
  apply mask_test_as_specified.
Qed.

(** The mask of the date NaT selects no row. *)
Lemma window_mask_NaT ts window :
  data_processor.window_mask ts None window = map (fun _ => false) ts.
Proof. unfold data_processor.window_mask. apply map_ext. by intros [t|]. Qed.

Lemma filter_mask_none {A B} (ts : list A) (l : list B) :
  filter_mask (map (fun _ => false) ts) l = [].
Proof. revert l. induction ts as [|t ts IH]; intros [|x l]; simpl; done. Qed.

(** One cell of a date, as the code computes it and as the specification
    words it. *)
Lemma window_volatility_spec df ts sp prices date_val window :
  df_wf df -> length ts = df_len df ->
  df_get "start_price" df = Some sp -> numeric_values sp = Some prices ->
  data_processor.window_volatility df ts (Some date_val) window
  = Some (spec_segment_volatility (zip ts prices) date_val window).
Proof.
  intros Hwf Hlen Hget Hnum.
  unfold data_processor.window_volatility, spec_segment_volatility, spec_segment_prices.
  rewrite (window_mask_as_specified ts date_val window).
  set (f := fun t : option Z =>
              match t with
              | Some t => ((spec_day t =? date_val) && (window.1 <=? spec_hour t) &&
                           (spec_hour t <? window.2))%bool
              | None => false
              end).
  assert (Hne : df <> []) by (intros ->; done).
  assert (Hpl : length prices = length ts).
  { rewrite (numeric_values_length _ _ Hnum), (df_wf_get _ _ _ Hwf Hget). done. }
  rewrite df_len_filter by (done || by rewrite length_map).
  rewrite <- (filter_mask_length (map f ts) prices (map f ts))
    by (by rewrite length_map).
  rewrite df_get_filter, Hget. cbn [fmap option_fmap option_map mbind option_bind].
  rewrite (numeric_values_filter _ _ _ Hnum). cbn [mbind option_bind].
  rewrite (filter_mask_zip f ts prices).
  change (fun p : option Z * float => f p.1) with
    (fun p : option Z * float =>
       match p.1 with
       | Some t => ((spec_day t =? date_val) && (window.1 <=? spec_hour t) &&
                    (spec_hour t <? window.2))%bool
       | None => false
       end).
  by destruct (map snd (List.filter _ (zip ts prices))).
Qed.

(** A cell of the date NaT is NaN. *)
Lemma window_volatility_NaT df ts window :
  df <> [] -> length ts = df_len df ->
  data_processor.window_volatility df ts None window = Some NaN.
Proof.
  intros Hne Hlen. unfold data_processor.window_volatility.
  rewrite window_mask_NaT.
  rewrite df_len_filter by (done || by rewrite length_map).
  by rewrite filter_mask_none.
Qed.

Lemma unique_In_acc (l acc : list (option Z)) x :
  In x acc \/ In x l ->
  In x (fold_left (fun acc x => if existsb (data_processor.same_date x) acc
                                then acc else acc ++ [x]) l acc).
Proof.
  assert (Heq : forall a b, data_processor.same_date a b = true -> a = b).
  { intros [a|] [b|]; simpl; try done. by intros ->%Z.eqb_eq. }
  revert acc. induction l as [|y l IH]; intros acc; simpl.
  - by intros [?|[]].
  - intros H. apply IH.
    destruct H as [H|[<-|H]]; [|  |by right].
    + left. destruct (existsb (data_processor.same_date y) acc); [done|].
      apply in_or_app. by left.
    + left. destruct (existsb (data_processor.same_date y) acc) eqn:E.
      * apply existsb_exists in E as (z & Hz & ->%Heq). done.
      * apply in_or_app. right. by left.
Qed.

Lemma unique_In l x : In x l -> In x (data_processor.unique l).
Proof. intros H. apply unique_In_acc. by right. Qed.

(** The row of one date. *)
Lemma daily_data_row_spec df ts sp prices date_val :
  df_wf df -> df <> [] -> length ts = df_len df ->
  df_get "start_price" df = Some sp -> numeric_values sp = Some prices ->
  data_processor.daily_data_row df ts date_val
  = Some {| data_processor.Date := date_val;
            data_processor.volatility :=
              map (fun window => (data_processor.col_name window,
                                  spec_cell (zip ts prices) date_val window))
                data_processor.FIXED_TIME_WINDOWS_JST |}.
Proof.
  intros Hwf Hne Hlen Hget Hnum. unfold data_processor.daily_data_row.
  rewrite (collect_map _ (fun window => (data_processor.col_name window,
             spec_cell (zip ts prices) date_val window))); [done|].
  intros window Hw. destruct date_val as [date_val|]; simpl.
  - by rewrite (window_volatility_spec df ts sp prices date_val window).
  - by rewrite (window_volatility_NaT df ts window).
Qed.

(** The table the daily calculation returns, as a function of the start
    times and the start prices. *)
Lemma daily_fixed_window_volatility_rows L df start_time_jst ts sp prices :
  df_wf df ->
  df_get "start_time_jst" df = Some start_time_jst ->
  to_datetime L start_time_jst = Some ts -> length ts = df_len df ->
  df_get "start_price" df = Some sp -> numeric_values sp = Some prices ->
  snd <$> data_processor._calculate_daily_fixed_window_volatility L (Some df)
  = Some (map (fun date_val =>
                 {| data_processor.Date := date_val;
                    data_processor.volatility :=
                      map (fun window =>
                             (data_processor.col_name window,
                              spec_cell (zip ts prices) date_val window))
                        data_processor.FIXED_TIME_WINDOWS_JST |})
            (data_processor.unique (data_processor.dates_of ts))).
Proof.
  intros Hwf Hts Hto Hlen Hsp Hnum.
  unfold data_processor._calculate_daily_fixed_window_volatility.
  rewrite Hts, Hsp.
  assert (Hconv : (if is_datetime64_any_dtype start_time_jst
                   then Some (datetime_values start_time_jst)
                   else to_datetime L start_time_jst) = Some ts).
  { destruct (is_datetime64_any_dtype start_time_jst) eqn:E; [|done].
    by rewrite <- (to_datetime_datetime64 L _ E). }
  rewrite Hconv. cbn [mbind option_bind].
  rewrite (proj2 (Nat.eqb_eq _ _) Hlen).
  set (df1 := if is_datetime64_any_dtype start_time_jst then df
              else df_set "start_time_jst" (datetime64 ts) df).
  set (df2 := df_set "date_jst" _ df1).
  assert (Hwf1 : df_wf df1 /\ df_len df1 = df_len df /\ df_get "start_price" df1 = Some sp).
  { subst df1. destruct (is_datetime64_any_dtype start_time_jst); [done|].
    assert (Hs : series_len (datetime64 ts) = df_len df).
    { unfold series_len. simpl. by rewrite length_map. }
    split; [by apply df_wf_set_any|]. split; [by apply df_len_set_any|].
    by rewrite df_get_set_ne. }
  destruct Hwf1 as (Hwf1 & Hl1 & Hsp1).
  assert (Hs2 : series_len
                  (object (map (fun d : option Z => match d with
                                                    | Some day => PyDate day
                                                    | None => PyTime None
                                                    end) (data_processor.dates_of ts)))
                = df_len df1).
  { unfold series_len, data_processor.dates_of. simpl. rewrite !length_map. congruence. }
  assert (Hwf2 : df_wf df2) by (by apply df_wf_set_any).
  assert (Hl2 : length ts = df_len df2).
  { subst df2. rewrite df_len_set_any by done. congruence. }
  assert (Hsp2 : df_get "start_price" df2 = Some sp).
  { subst df2. by rewrite df_get_set_ne. }
  assert (Hne2 : df2 <> []).
  { intros E. rewrite E in Hsp2. done. }
  rewrite (collect_map _ (fun date_val =>
             {| data_processor.Date := date_val;
                data_processor.volatility :=
                  map (fun window =>
                         (data_processor.col_name window,
                          spec_cell (zip ts prices) date_val window))
                    data_processor.FIXED_TIME_WINDOWS_JST |})).
  - done.
  - intros date_val _. by apply (daily_data_row_spec df2 ts sp prices).
Qed.

(** C5, as amended: on a table of pivots whose [start_price] is a column
    of floats, the daily fixed-window calculation returns a row for every
    date on which a pivot starts, and the cell of a row and a fixed
    day-segment is the maximum minus the minimum of [start_price] over the
    pivots that start on the date of the row at an hour of the segment,
    [start <= hour < end].  The rows are a function of the start times and
    the start prices alone, so no other column, [end_price] included, is
    consulted.  A segment without such a pivot gives NaN, and so does every
    segment of the row dated NaT, the row of the pivots without a start
    time.  A segment with exactly one such pivot gives 0 when its start
    price is a finite number and NaN when it is NaN or infinite. *)
Theorem daily_fixed_window_volatility_cells L df start_time_jst ts prices :
  df_wf df ->
  df_get "start_time_jst" df = Some start_time_jst ->
  to_datetime L start_time_jst = Some ts -> length ts = df_len df ->
  df_get "start_price" df = Some (float64 prices) ->
  exists rows,
    snd <$> data_processor._calculate_daily_fixed_window_volatility L (Some df) = Some rows /\
    (forall t, In (Some t) ts -> In (Some (spec_day t)) (map data_processor.Date rows)) /\
    (forall row, In row rows ->
       map fst (data_processor.volatility row)
       = ["Volatility_00_03_JST"; "Volatility_03_06_JST"; "Volatility_07_09_JST";
          "Volatility_09_12_JST"; "Volatility_12_15_JST"; "Volatility_15_21_JST";
          "Volatility_21_24_JST"] /\
       forall segment, In segment data_processor.FIXED_TIME_WINDOWS_JST ->
         In (data_processor.col_name segment,
             spec_cell (zip ts prices) (data_processor.Date row) segment)
           (data_processor.volatility row)) /\
    (forall df0, df_wf df0 -> df_len df0 = df_len df ->
       df_get "start_time_jst" df0 = Some start_time_jst ->
       df_get "start_price" df0 = Some (float64 prices) ->
       snd <$> data_processor._calculate_daily_fixed_window_volatility L (Some df0)
       = Some rows) /\
    (forall date_val segment,
       let matched := spec_segment_prices (zip ts prices) date_val segment in
       let cell := spec_cell (zip ts prices) (Some date_val) segment in
       (matched = [] -> cell = NaN) /\
       (forall x, In x matched -> isnan x = false ->
          exists high low,
            In high matched /\ In low matched /\
            (forall y, In y matched -> isnan y = false ->
               fle low y = true /\ fle y high = true) /\
            cell = fsub high low) /\
       (forall q, matched = [Fin q] -> feq cell (Fin 0)) /\
       (forall x, matched = [x] -> x = NaN \/ x = PInf \/ x = NInf -> cell = NaN)) /\
    (forall segment, spec_cell (zip ts prices) None segment = NaN).
Proof.
  intros Hwf Hts Hto Hlen Hsp.
  eexists. split; [|split; [|split; [|split; [|split]]]].
  - by apply (daily_fixed_window_volatility_rows L df start_time_jst ts (float64 prices) prices).
  - intros t Ht. rewrite map_map. cbn [data_processor.Date]. rewrite map_id.
    apply unique_In. unfold data_processor.dates_of.
    change (Some (spec_day t)) with (data_processor.date_of <$> Some t).
    by apply in_map.
  - intros row Hrow. apply in_map_iff in Hrow as (date_val & <- & _).
    cbn [data_processor.Date data_processor.volatility]. split.
    + by rewrite map_map.
    + intros segment Hseg.
      by apply (in_map (fun window => (data_processor.col_name window,
                                       spec_cell (zip ts prices) date_val window))).
  - intros df0 Hwf0 Hl0 Hts0 Hsp0.
    apply (daily_fixed_window_volatility_rows L df0 start_time_jst ts (float64 prices) prices);
      (done || congruence).
  - intros date_val segment matched cell. subst cell. unfold spec_cell, spec_segment_volatility.
    fold matched. split; [|split; [|split]].
    + by intros ->.
    + intros x Hx Hnan.
      destruct (series_max_spec matched x Hx Hnan) as (Hmax & _ & Hle).
      destruct (series_min_spec matched x Hx Hnan) as (Hmin & _ & Hge).
      exists (series_max matched), (series_min matched).
      split; [done|]. split; [done|]. split.
      * intros y Hy Hyn. split; [by apply Hge | by apply Hle].
      * by destruct matched.
    + intros q ->. simpl. unfold Qminus. apply Qplus_opp_r.
    + intros x -> [-> | [-> | ->]]; reflexivity.
  - reflexivity.
Qed.

Lemma daily_fixed_window_volatility_cells_witness :
  exists rows,
    snd <$> data_processor._calculate_daily_fixed_window_volatility null_library
              (Some one_day_pivots) = Some rows /\
    In (Some 1) (map data_processor.Date rows).
Proof.
  destruct (daily_fixed_window_volatility_cells null_library one_day_pivots
              (datetime64 [Some 111600000000000; Some 115200000000000;
                           Some 122400000000000])
              [Some 111600000000000; Some 115200000000000; Some 122400000000000]
              [Fin 1800; Fin 1805; Fin 1798])
    as (rows & Hrows & Hdates & _).
  - repeat constructor.
  - reflexivity.
  - reflexivity.
  - reflexivity.
  - reflexivity.
  - exists rows. split; [exact Hrows|].
    apply (Hdates 111600000000000). by left.
Defined.

(** C5 fails as stated: a segment with exactly one matching pivot does not
    give 0 when the start price of the pivot is missing.  The only pivot of
    [unpriced_pivot] starts at 07:00 of day 1, in the segment from 7 to 9,
    and the cell of that segment is NaN. *)
Lemma single_unpriced_pivot_gives_NaN :
  spec_day 111600000000000 = 1 /\ spec_hour 111600000000000 = 7 /\
  spec_segment_prices [(Some 111600000000000, NaN)] 1 (7, 9) = [NaN] /\
  snd <$> data_processor._calculate_daily_fixed_window_volatility null_library
            (Some unpriced_pivot)
  = Some [{| data_processor.Date := Some 1;
             data_processor.volatility :=
               [("Volatility_00_03_JST", NaN); ("Volatility_03_06_JST", NaN);
                ("Volatility_07_09_JST", NaN); ("Volatility_09_12_JST", NaN);
                ("Volatility_12_15_JST", NaN); ("Volatility_15_21_JST", NaN);
                ("Volatility_21_24_JST", NaN)] |}] /\
  ~ feq NaN (Fin 0).
Proof. vm_compute. repeat split. intros []. Qed.
(** ** Propagation effects *)

Import multiscale_analysis.


Lemma zip_with_map_zip {A B C} (f : A -> B -> C) (xs : list A) (ys : list B) :
  zip_with f xs ys = map (fun p => f p.1 p.2) (zip xs ys).
Proof.
  revert ys. induction xs as [|x xs IH]; intros [|y ys]; simpl; try done.
  by rewrite IH.
Qed.










(** * Further properties of the code *)


(** ** Names built from a number *)

Lemma pretty_N_go_chars x s :
  Forall (fun c => c <> "m"%char /\ c <> "_"%char) (String.list_ascii_of_string s) ->
  Forall (fun c => c <> "m"%char /\ c <> "_"%char)
    (String.list_ascii_of_string (pretty_N_go x s)).
Proof.
  revert s. induction (N.lt_wf_0 x) as [x _ IH]; intros s Hs.
  assert (x = 0 \/ 0 < x)%N as [->|Hx] by lia.
  - by rewrite pretty_N_go_0.
  - rewrite pretty_N_go_step by done. apply IH.
    + by apply N.div_lt.
    + simpl. constructor; [|done].
      unfold pretty_N_char. by repeat case_match.
Qed.

Lemma pretty_Z_chars (z : Z) :
  Forall (fun c => c <> "m"%char /\ c <> "_"%char) (String.list_ascii_of_string (pretty z)).
Proof.
  assert (HN : forall n : N,
    Forall (fun c => c <> "m"%char /\ c <> "_"%char) (String.list_ascii_of_string (pretty n))).
  { intros n. unfold pretty, pretty_N. case_decide.
    - repeat constructor; done.
    - apply pretty_N_go_chars. constructor. }
  destruct z as [|p|p]; unfold pretty, pretty_Z.
  - repeat constructor; done.
  - apply HN.
  - simpl. constructor; [done|]. apply HN.
Qed.

(** Two strings that agree after a separator which neither head contains
    have the same head and the same tail. *)
Lemma string_app_sep (c : ascii) s1 s2 r1 r2 :
  Forall (fun d => d <> c) (String.list_ascii_of_string s1) ->
  Forall (fun d => d <> c) (String.list_ascii_of_string s2) ->
  s1 +:+ String c r1 = s2 +:+ String c r2 -> s1 = s2 /\ r1 = r2.
Proof.
  revert s2. induction s1 as [|a s1 IH]; intros [|b s2] H1 H2 H; simpl in *.
  - by injection H as ->.
  - injection H as <- _. by inversion H2.
  - injection H as -> _. by inversion H1.
  - injection H as -> H. inversion H1; inversion H2; subst.
    destruct (IH s2) as [-> ->]; done.
Qed.

(** The name of a window and what follows it can be read back from a key. *)
Lemma window_key_sep (prefix : string) (n m : Z) (k1 k2 : string) :
  prefix +:+ pretty n +:+ "min_" +:+ k1 = prefix +:+ pretty m +:+ "min_" +:+ k2 ->
  n = m /\ k1 = k2.
Proof.
  intros H. apply String.app_inj in H.
  apply (string_app_sep "m") in H.
  - destruct H as [H1 H2]. apply pretty_Z_inj in H1. by injection H2 as ->.
  - eapply Forall_impl; [apply pretty_Z_chars|]. by intros c [].
  - eapply Forall_impl; [apply pretty_Z_chars|]. by intros c [].
Qed.

(** ** Entries of the movement and speed records *)

Lemma dict_of_lookup_In items k v : dict_of items !! k = Some v -> In (k, v) items.
Proof.
  unfold dict_of. intros H. apply elem_of_list_to_map_2 in H.
  by apply list_elem_of_In.
Qed.

(** Every entry of a movement record is one of nine, and [price_movement]
    is always there, as a number. *)
Lemma calculate_price_movement_keys L w k v :
  calculate_price_movement L w !! k = Some v ->
  In k ["price_movement"; "max_price"; "min_price"; "start_price"; "end_price";
        "movement_direction"; "net_movement"; "movement_efficiency"; "error"].
Proof.
  unfold calculate_price_movement.
  repeat (match goal with
          | |- context [if ?b then _ else _] => destruct b
          | |- context [match ?x with _ => _ end] => destruct x
          end);
    intros H; apply dict_of_lookup_In in H; simpl in H;
    repeat (destruct H as [[= <- _]|H]; [simpl; tauto|]); done.
Qed.

Lemma calculate_price_movement_number L w :
  exists v, calculate_price_movement L w !! "price_movement" = Some v /\
            is_Some (as_num v).
Proof.
  unfold calculate_price_movement.
  repeat (match goal with
          | |- context [if ?b then _ else _] => destruct b
          | |- context [match ?x with _ => _ end] => destruct x
          end);
    eexists; (split; [reflexivity|by eexists]).
Qed.

Lemma calculate_movement_speed_keys L w k v :
  calculate_movement_speed L w !! k = Some v ->
  In k ["movement_speed"; "time_diff_minutes"; "leg_frequency"; "error"].
Proof.
  unfold calculate_movement_speed.
  destruct (df_len w <? 2)%nat.
  { intros H. apply lookup_singleton_Some in H as [<- _]. simpl. tauto. }
  repeat (match goal with
          | |- context [if ?b then _ else _] => destruct b
          | |- context [match ?x with _ => _ end] => destruct x
          end);
    intros H; apply dict_of_lookup_In in H; simpl in H;
    repeat (destruct H as [[= <- _]|H]; [simpl; tauto|]); done.
Qed.

(** X1: whatever the window, the record of [calculate_movement_speed]
    holds [movement_speed], and it is a number.  A record with an [error]
    entry has speed 0 and neither [time_diff_minutes] nor [leg_frequency];
    a record without one, of a window of two rows or more, has both; a
    window of fewer than two rows gives exactly [{'movement_speed': 0}]. *)
Theorem movement_speed_always_reported L (zigzag_window : DataFrame) :
  let r := calculate_movement_speed L zigzag_window in
  (exists v, r !! "movement_speed" = Some v /\ is_Some (as_num v)) /\
  (is_Some (r !! "error") ->
     r !! "movement_speed" = Some (PyInt 0) /\
     r !! "time_diff_minutes" = None /\ r !! "leg_frequency" = None) /\
  (r !! "error" = None -> (2 <= df_len zigzag_window)%nat ->
     is_Some (r !! "time_diff_minutes") /\ is_Some (r !! "leg_frequency")) /\
  ((df_len zigzag_window < 2)%nat -> r = {["movement_speed" := PyInt 0]}).
Proof.
  intros r. subst r. unfold calculate_movement_speed.
  destruct (df_len zigzag_window <? 2)%nat eqn:Hlen.
  { apply Nat.ltb_lt in Hlen.
    split; [eexists; split; [reflexivity|by eexists]|].
    split; [intros [? H]; by rewrite lookup_singleton_ne in H|].
    split; [intros _ ?; lia|done]. }
  apply Nat.ltb_ge in Hlen.
  repeat (match goal with
          | |- context [if ?b then _ else _] => destruct b
          | |- context [match ?x with _ => _ end] => destruct x
          end);
    (split; [eexists; split; [reflexivity|by eexists]|]);
    (split; [try (intros [? H]; discriminate H); by intros _|]);
    (split; [try (intros H; discriminate H); (intros _ _; split; by eexists)|intros; lia]).
Qed.

Lemma take_rows_In {A} perm (l : list A) x : In x (take_rows perm l) -> In x l.
Proof.
  unfold take_rows. intros H. apply list_elem_of_In in H.
  apply list_elem_of_omap in H as (i & _ & Hi).
  apply list_elem_of_In. by eapply list_elem_of_lookup_2.
Qed.

Lemma head_In {A} (l : list A) x : head l = Some x -> In x l.
Proof. destruct l; [done|]. intros [= ->]. by left. Qed.

Lemma last_In {A} (l : list A) x : last l = Some x -> In x l.
Proof.
  intros H. apply last_Some in H as [l' ->]. apply in_or_app. right. by left.
Qed.

(** The first and the last price of a movement record are prices of the
    window. *)
Lemma calculate_price_movement_endpoints L w price_col rest prices :
  df_wf w -> (2 <= df_len w)%nat ->
  price_cols w = price_col :: rest ->
  df_get price_col w ≫= numeric_values = Some prices ->
  (forall time_col s, head (time_cols w) = Some time_col ->
     df_get time_col w = Some s -> sortable s = true) ->
  exists start_price end_price,
    In start_price prices /\ In end_price prices /\
    calculate_price_movement L w =
    dict_of
      [("price_movement", PyNum (fsub (series_max prices) (series_min prices)));
       ("max_price", PyNum (series_max prices));
       ("min_price", PyNum (series_min prices));
       ("start_price", PyNum start_price);
       ("end_price", PyNum end_price);
       ("movement_direction", PyStr (direction_of start_price end_price));
       ("net_movement", PyNum (fsub end_price start_price));
       ("movement_efficiency",
        if flt (Fin 0) (fsub (series_max prices) (series_min prices))
        then PyNum (fdiv (fabs (fsub end_price start_price))
                      (fsub (series_max prices) (series_min prices)))
        else PyInt 0)].
Proof.
  intros Hwf Hlen Hpc Hnum Hsort. unfold calculate_price_movement.
  rewrite (proj2 (Nat.ltb_ge _ _) Hlen), Hpc, Hnum.
  destruct (df_get price_col w) as [ps|] eqn:Eps; simpl in Hnum; [|done].
  pose proof (numeric_values_length _ _ Hnum) as Hl.
  rewrite (df_wf_get _ _ _ Hwf Eps) in Hl.
  assert (Hsorted : exists sorted_prices,
    (match time_cols w with
     | [] => Some w
     | time_col :: _ => sort_values time_col w
     end ≫= df_get price_col) ≫= numeric_values = Some sorted_prices
    /\ length sorted_prices = df_len w
    /\ forall x, In x sorted_prices -> In x prices).
  { destruct (time_cols w) as [|time_col tcs] eqn:Etc; simpl.
    - rewrite Eps. simpl. eauto.
    - destruct (time_cols_head_get _ _ _ Etc) as [keys Hk].
      specialize (Hsort time_col keys eq_refl Hk).
      assert (Hsv : exists sorted, sort_values time_col w = Some sorted).
      { unfold sort_values. rewrite Hk. simpl. rewrite Hsort. eauto. }
      destruct Hsv as [sorted Hsv].
      destruct (sort_values_get _ _ _ _ _ Hwf Hsv Eps) as (perm & Hpl & Hpb & Hg).
      rewrite Hsv. simpl. rewrite Hg. simpl.
      rewrite (numeric_values_take _ _ _ Hnum).
      eexists. split; [done|]. split.
      + rewrite take_rows_length; [done|]. by rewrite Hl.
      + intros x. apply take_rows_In. }
  destruct Hsorted as (sorted_prices & -> & Hsl & Hin).
  destruct sorted_prices as [|p0 sp]; [simpl in Hsl; lia|].
  destruct (last (p0 :: sp)) as [pl|] eqn:El.
  - exists p0, pl. split; [apply Hin; by left|]. split; [by apply Hin, last_In|done].
  - by apply last_None in El.
Qed.

(** ** Bounds of a movement record *)

Lemma fle_Fin a b : fle (Fin a) (Fin b) = true <-> (a <= b)%Q.
Proof. simpl. apply Qle_bool_iff. Qed.

Lemma flt_Fin a b : flt (Fin a) (Fin b) = true <-> (a < b)%Q.
Proof.
  simpl. rewrite negb_true_iff. split.
  - intros H. apply Qnot_le_lt. intros Hle. apply Qle_bool_iff in Hle. congruence.
  - intros H. destruct (Qle_bool b a) eqn:E; [|done].
    apply Qle_bool_iff in E. lra.
Qed.

Lemma flt_Fin_false a b : flt (Fin a) (Fin b) = false <-> (b <= a)%Q.
Proof.
  simpl. rewrite negb_false_iff. apply Qle_bool_iff.
Qed.

Lemma fdiv_Fin a b : ~ (b == 0)%Q -> fdiv (Fin a) (Fin b) = Fin (a / b).
Proof.
  intros H. simpl. destruct (Qeq_bool b 0) eqn:E; [|done].
  apply Qeq_bool_iff in E. done.
Qed.

(** X3: on a window of two rows or more whose first price column is a
    column of floats, all finite, and whose first time column, if there is
    one, can be sorted, the record of [calculate_price_movement] has no
    [error] entry; [start_price] and [end_price] lie between [min_price] and
    [max_price]; [price_movement] is maximum minus minimum and
    [net_movement] is end minus start; [movement_direction] is up, down or
    neutral as the end price is above, below or equal to the start price;
    [movement_efficiency] is the integer 0 on a flat window and otherwise
    the absolute net movement over the price movement, between 0 and 1. *)
Theorem price_movement_bounds L w price_col rest prices :
  df_wf w -> (2 <= df_len w)%nat ->
  price_cols w = price_col :: rest ->
  df_get price_col w = Some (float64 prices) ->
  (forall time_col s, head (time_cols w) = Some time_col ->
     df_get time_col w = Some s -> sortable s = true) ->
  Forall (fun x => exists q, x = Fin q) prices ->
  let r := calculate_price_movement L w in
  exists lo hi sp ep : Q,
    r !! "min_price" = Some (PyNum (Fin lo)) /\
    r !! "max_price" = Some (PyNum (Fin hi)) /\
    r !! "start_price" = Some (PyNum (Fin sp)) /\
    r !! "end_price" = Some (PyNum (Fin ep)) /\
    r !! "price_movement" = Some (PyNum (Fin (hi - lo))) /\
    r !! "net_movement" = Some (PyNum (Fin (ep - sp))) /\
    r !! "error" = None /\
    (lo <= sp <= hi)%Q /\ (lo <= ep <= hi)%Q /\
    ((sp < ep)%Q -> r !! "movement_direction" = Some (PyStr "up")) /\
    ((ep < sp)%Q -> r !! "movement_direction" = Some (PyStr "down")) /\
    ((sp == ep)%Q -> r !! "movement_direction" = Some (PyStr "neutral")) /\
    ((hi == lo)%Q -> r !! "movement_efficiency" = Some (PyInt 0)) /\
    ((lo < hi)%Q ->
       r !! "movement_efficiency" = Some (PyNum (Fin (Qabs (ep - sp) / (hi - lo)))) /\
       (0 <= Qabs (ep - sp) / (hi - lo) <= 1)%Q).
Proof.
  intros Hwf Hlen Hpc Hget Hsort Hfin r. subst r.
  assert (Hnum : df_get price_col w ≫= numeric_values = Some prices) by (by rewrite Hget).
  destruct (calculate_price_movement_endpoints L w price_col rest prices
              Hwf Hlen Hpc Hnum Hsort) as (s0 & e0 & Hs0 & He0 & ->).
  rewrite Forall_forall in Hfin.
  destruct (Hfin s0 (proj2 (list_elem_of_In _ _) Hs0)) as [sp ->].
  destruct (Hfin e0 (proj2 (list_elem_of_In _ _) He0)) as [ep ->].
  destruct (series_max_spec prices (Fin sp) Hs0 eq_refl) as (Hmi & _ & Hmax).
  destruct (series_min_spec prices (Fin sp) Hs0 eq_refl) as (Hni & _ & Hmin).
  destruct (Hfin _ (proj2 (list_elem_of_In _ _) Hmi)) as [hi Ehi].
  destruct (Hfin _ (proj2 (list_elem_of_In _ _) Hni)) as [lo Elo].
  rewrite Ehi, Elo in *.
  pose proof (proj1 (fle_Fin _ _) (Hmax _ Hs0 eq_refl)) as H1.
  pose proof (proj1 (fle_Fin _ _) (Hmax _ He0 eq_refl)) as H2.
  pose proof (proj1 (fle_Fin _ _) (Hmin _ Hs0 eq_refl)) as H3.
  pose proof (proj1 (fle_Fin _ _) (Hmin _ He0 eq_refl)) as H4.
  exists lo, hi, sp, ep.
  change (fsub (Fin hi) (Fin lo)) with (Fin (hi - lo)).
  change (fsub (Fin ep) (Fin sp)) with (Fin (ep - sp)).
  change (fabs (Fin (ep - sp))) with (Fin (Qabs (ep - sp))).
  do 7 (split; [reflexivity|]).
  split; [done|]. split; [done|].
  assert (Hdir : forall d, direction_of (Fin sp) (Fin ep) = d ->
    dict_of
      [("price_movement", PyNum (Fin (hi - lo))); ("max_price", PyNum (Fin hi));
       ("min_price", PyNum (Fin lo)); ("start_price", PyNum (Fin sp));
       ("end_price", PyNum (Fin ep));
       ("movement_direction", PyStr (direction_of (Fin sp) (Fin ep)));
       ("net_movement", PyNum (Fin (ep - sp)));
       ("movement_efficiency",
        if flt (Fin 0) (Fin (hi - lo))
        then PyNum (fdiv (Fin (Qabs (ep - sp))) (Fin (hi - lo)))
        else PyInt 0)] !! "movement_direction" = Some (PyStr d)).
  { by intros d <-. }
  split; [|split; [|split; [|split]]].
  - intros H. apply Hdir. unfold direction_of.
    by rewrite (proj2 (flt_Fin _ _) H).
  - intros H. apply Hdir. unfold direction_of.
    rewrite (proj2 (flt_Fin_false sp ep)) by lra.
    by rewrite (proj2 (flt_Fin _ _) H).
  - intros H. apply Hdir. unfold direction_of.
    rewrite (proj2 (flt_Fin_false sp ep)) by lra.
    by rewrite (proj2 (flt_Fin_false ep sp)) by lra.
  - intros H. rewrite (proj2 (flt_Fin_false 0 (hi - lo))) by lra. reflexivity.
  - intros H. rewrite (proj2 (flt_Fin 0 (hi - lo))) by lra.
    rewrite fdiv_Fin by lra. split; [reflexivity|].
    assert (Habs : (Qabs (ep - sp) <= hi - lo)%Q).
    { apply Qabs_case; intros; lra. }
    pose proof (Qabs_nonneg (ep - sp)) as Hnn.
    split.
    + apply Qle_shift_div_l; lra.
    + apply Qle_shift_div_r; lra.
Qed.

Lemma price_movement_bounds_witness :
  exists lo hi sp ep : Q,
    calculate_price_movement null_library two_leg_window !! "min_price"
    = Some (PyNum (Fin lo)) /\
    calculate_price_movement null_library two_leg_window !! "max_price"
    = Some (PyNum (Fin hi)) /\
    (lo <= sp <= hi)%Q /\ (lo <= ep <= hi)%Q.
Proof.
  destruct (price_movement_bounds null_library two_leg_window
              "start_price" ["end_price"] [Fin 1; Fin 2])
    as (lo & hi & sp & ep & H1 & H2 & _ & _ & _ & _ & _ & H3 & H4 & _).
  - repeat constructor.
  - vm_compute. lia.
  - reflexivity.
  - reflexivity.
  - intros time_col s [= <-] [= <-]. reflexivity.
  - repeat constructor; by eexists.
  - exists lo, hi, sp, ep. split; [exact H1|]. split; [exact H2|]. split; [exact H3|exact H4].
Defined.

(** ** Sorting by time *)

Lemma insert_by_map {A B} (g : A -> B) (le : A -> A -> bool) (le' : B -> B -> bool) x l :
  (forall a b, le' (g a) (g b) = le a b) ->
  insert_by le' (g x) (map g l) = map g (insert_by le x l).
Proof.
  intros H. induction l as [|y l IH]; simpl; [done|].
  rewrite H. destruct (le x y); simpl; [done|]. by rewrite IH.
Qed.

Lemma insertion_sort_map {A B} (g : A -> B) (le : A -> A -> bool) (le' : B -> B -> bool) l :
  (forall a b, le' (g a) (g b) = le a b) ->
  foldr (insert_by le') [] (map g l) = map g (foldr (insert_by le) [] l).
Proof.
  intros H. induction l as [|x l IH]; simpl; [done|].
  rewrite IH. by apply insert_by_map.
Qed.

Lemma insert_by_time_sorted x l :
  StronglySorted (fun a b : Z * nat => a.1 <= b.1) l ->
  StronglySorted (fun a b : Z * nat => a.1 <= b.1) (insert_by time_le x l).
Proof.
  induction 1 as [|y l Hs IH Hy]; simpl.
  - repeat constructor.
  - unfold time_le at 1. destruct (x.1 <=? y.1) eqn:E.
    + apply Z.leb_le in E. constructor; [by constructor|].
      constructor; [done|]. eapply Forall_impl; [exact Hy|]. simpl. intros; lia.
    + apply Z.leb_gt in E. constructor; [done|].
      rewrite (insert_by_perm time_le x l). constructor; [lia | done].
Qed.

Lemma insertion_sort_time_sorted l :
  StronglySorted (fun a b : Z * nat => a.1 <= b.1) (foldr (insert_by time_le) [] l).
Proof.
  induction l as [|x l IH]; simpl; [constructor | by apply insert_by_time_sorted].
Qed.

Lemma sorted_head_least (l : list (Z * nat)) x y :
  StronglySorted (fun a b : Z * nat => a.1 <= b.1) l ->
  head l = Some x -> In y l -> x.1 <= y.1.
Proof.
  intros Hs Hh Hy. destruct Hs as [|z l Hs Hz]; [done|].
  injection Hh as ->. destruct Hy as [->|Hy]; [lia|].
  rewrite Forall_forall in Hz. apply Hz. by apply list_elem_of_In.
Qed.

Lemma sorted_last_greatest (l : list (Z * nat)) x y :
  StronglySorted (fun a b : Z * nat => a.1 <= b.1) l ->
  last l = Some x -> In y l -> y.1 <= x.1.
Proof.
  induction 1 as [|z l Hs IH Hz]; [done|].
  intros Hl Hy. destruct l as [|z' l'].
  - injection Hl as <-. destruct Hy as [->|[]]. lia.
  - change (last (z :: z' :: l')) with (last (z' :: l')) in Hl.
    destruct Hy as [<-|Hy]; [|by apply IH].
    rewrite Forall_forall in Hz. apply Hz. apply list_elem_of_In. by apply last_In.
Qed.

Lemma zip_seq_lookup {A} (l : list A) k x i :
  In (x, i) (zip l (seq k (length l))) -> (k <= i)%nat /\ l !! (i - k)%nat = Some x.
Proof.
  revert k. induction l as [|y l IH]; intros k; simpl; [done|].
  intros [[= -> ->]|H].
  - split; [lia|]. by rewrite Nat.sub_diag.
  - apply IH in H as [H1 H2]. split; [lia|].
    replace (i - k)%nat with (S (i - S k)) by lia. done.
Qed.

(** The rows of a column of timestamps, taken in the order of [argsort],
    are the timestamps in ascending order. *)
Lemma take_rows_argsort_times (times : list Z) :
  let cells := map (fun t => PyTime (Some t)) times in
  exists sorted : list (Z * nat),
    take_rows (argsort cells) cells = map (fun p => PyTime (Some p.1)) sorted /\
    StronglySorted (fun a b : Z * nat => a.1 <= b.1) sorted /\
    map fst sorted ≡ₚ times.
Proof.
  intros cells. set (idx := seq 0 (length times)).
  set (sorted := foldr (insert_by time_le) [] (zip times idx)).
  exists sorted.
  assert (Hperm : sorted ≡ₚ zip times idx) by apply insertion_sort_perm.
  assert (Harg : argsort cells = map snd sorted).
  { unfold argsort, cells. rewrite length_map. fold idx.
    replace (zip (map (fun t => PyTime (Some t)) times) idx)
      with (map (fun p : Z * nat => (PyTime (Some p.1), p.2)) (zip times idx)).
    2:{ generalize idx. clear. induction times as [|t ts IH]; intros [|i js]; simpl; try done.
        by rewrite IH. }
    rewrite (insertion_sort_map (fun p : Z * nat => (PyTime (Some p.1), p.2)) time_le).
    - fold sorted. rewrite map_map. done.
    - intros [a i] [b j]. done. }
  split; [|split].
  - rewrite Harg. unfold take_rows.
    assert (Hall : Forall (fun p : Z * nat => cells !! p.2 = Some (PyTime (Some p.1))) sorted).
    { rewrite Hperm. apply Forall_forall. intros [t i] Hin.
      apply list_elem_of_In, zip_seq_lookup in Hin as [_ Hin]. simpl.
      rewrite Nat.sub_0_r in Hin.
      unfold cells. change (map ?f times) with (f <$> times).
      rewrite list_lookup_fmap, Hin. done. }
    clear Hperm Harg. generalize dependent sorted. intros sorted Hall.
    induction Hall as [|p l Hp Hl IH]; simpl; [done|].
    rewrite Hp. simpl. f_equal. exact IH.
  - apply insertion_sort_time_sorted.
  - rewrite Hperm. unfold idx. rewrite fst_zip; [done|]. by rewrite length_seq.
Qed.

Lemma sortable_times (times : list Z) : sortable (datetime64 (map Some times)) = true.
Proof.
  unfold sortable. simpl.
  induction times as [|t ts IH]; simpl; [done|].
  clear IH. induction ts as [|u us IH]; simpl; [done|]. exact IH.
Qed.

Lemma df_len_take perm c s df :
  df_wf df -> df_get c df = Some s ->
  Forall (fun i => (i < series_len s)%nat) perm ->
  df_len (df_take perm df) = length perm.
Proof.
  intros Hwf Hget Hperm.
  pose proof (df_wf_get _ _ _ Hwf Hget) as Hlen.
  destruct df as [|[n s0] df]; [done|]. simpl.
  unfold series_len. rewrite series_cells_take.
  apply take_rows_length. simpl in Hlen. unfold series_len in *. by rewrite <- Hlen.
Qed.

(** X2: on a window of two rows or more that has a price column and
    whose first time column holds timestamps of the years 1970 to 2261,
    none missing, [calculate_movement_speed] measures the span from the
    earliest to the latest timestamp, wherever the two stand in the table,
    in whole microseconds.  When they are less than a microsecond apart the
    record is the error 'Zero time difference'.  Otherwise
    [time_diff_minutes] is the whole microseconds of the span in minutes,
    a positive number, [leg_frequency] is the number of legs divided by
    it, and [movement_speed] is the price movement of the window sorted by
    time divided by it; there is no [error] entry. *)
Theorem movement_speed_over_time_span L w time_col tcs times :
  df_wf w -> (2 <= df_len w)%nat -> price_cols w <> [] ->
  time_cols w = time_col :: tcs ->
  df_get time_col w = Some (datetime64 (map Some times)) ->
  Forall in_range times ->
  exists first_time last_time,
    In first_time times /\ In last_time times /\
    (forall t, In t times -> first_time <= t <= last_time) /\
    let r := calculate_movement_speed L w in
    (last_time - first_time < 1000 ->
       r = dict_of [("movement_speed", PyInt 0); ("error", PyStr "Zero time difference")]) /\
    (1000 <= last_time - first_time ->
       let minutes := (inject_Z ((last_time - first_time) / 1000) / 60000000)%Q in
       (0 < minutes)%Q /\
       r !! "time_diff_minutes" = Some (PyNum (Fin minutes)) /\
       r !! "leg_frequency"
       = Some (PyNum (Fin (inject_Z (Z.of_nat (df_len w) - 1) / minutes))) /\
       r !! "error" = None /\
       exists sorted_data price_movement,
         sort_values time_col w = Some sorted_data /\
         as_num (get (calculate_price_movement L sorted_data) "price_movement" (PyInt 0))
         = Some price_movement /\
         r !! "movement_speed" = Some (PyNum (fdiv price_movement (Fin minutes)))).
Proof.
  intros Hwf Hlen Hpc Htc Hget _.
  set (cells := map (fun t => PyTime (Some t)) times).
  destruct (take_rows_argsort_times times) as (sorted & Htake & Hsorted & Hperm).
  fold cells in Htake.
  assert (Hcells : series_cells (datetime64 (map Some times)) = cells).
  { simpl. unfold cells. by rewrite map_map. }
  pose proof (df_wf_get _ _ _ Hwf Hget) as Hslen. unfold series_len in Hslen.
  rewrite Hcells in Hslen.
  assert (Htl : length times = df_len w) by (unfold cells in Hslen; by rewrite length_map in Hslen).
  assert (Hsl : length sorted = df_len w).
  { rewrite <- Htl, <- Hperm. by rewrite length_map. }
  destruct sorted as [|p0 sorted']; [simpl in Hsl; lia|].
  destruct (last (p0 :: sorted')) as [pl|] eqn:El; [|by apply last_None in El].
  exists p0.1, pl.1.
  assert (Hin : forall p, In p (p0 :: sorted') -> In p.1 times).
  { intros p Hp. apply list_elem_of_In. rewrite <- Hperm.
    apply list_elem_of_In, in_map. exact Hp. }
  split; [apply Hin; by left|]. split; [by apply Hin, last_In|].
  split.
  { intros t Ht. apply list_elem_of_In in Ht. rewrite <- Hperm in Ht.
    apply list_elem_of_In, in_map_iff in Ht as (p & <- & Hp).
    split.
    - by apply (sorted_head_least (p0 :: sorted') p0 p).
    - by apply (sorted_last_greatest (p0 :: sorted') pl p). }
  assert (Hsv : sort_values time_col w = Some (df_take (argsort cells) w)).
  { unfold sort_values. rewrite Hget. simpl.
    rewrite sortable_times. by rewrite <- Hcells. }
  assert (Hlens : df_len (df_take (argsort cells) w) = df_len w).
  { rewrite (df_len_take _ _ _ _ Hwf Hget).
    - by rewrite argsort_length.
    - unfold series_len. rewrite Hcells. apply argsort_bound. }
  assert (Htimes : default [] (series_cells <$> df_get time_col (df_take (argsort cells) w))
                   = map (fun p : Z * nat => PyTime (Some p.1)) (p0 :: sorted')).
  { transitivity (take_rows (argsort cells) cells); [|exact Htake].
    rewrite df_get_take, Hget. simpl. rewrite <- take_rows_map.
    unfold cells. by rewrite map_map. }
  destruct (calculate_price_movement_number L (df_take (argsort cells) w)) as (v & Hv & [pm Hpm]).
  assert (Hr : calculate_movement_speed L w =
    let time_diff_minutes := minutes_between (Some p0.1) (Some pl.1) in
    if feqb time_diff_minutes (Fin 0) then
      dict_of [("movement_speed", PyInt 0); ("error", PyStr "Zero time difference")]
    else
      dict_of [("movement_speed", PyNum (fdiv pm time_diff_minutes));
               ("time_diff_minutes", PyNum time_diff_minutes);
               ("leg_frequency",
                if flt (Fin 0) time_diff_minutes
                then PyNum (fdiv (Fin (inject_Z (Z.of_nat (df_len w) - 1))) time_diff_minutes)
                else PyInt 0)]).
  { unfold calculate_movement_speed.
    rewrite (proj2 (Nat.ltb_ge _ _) Hlen), Htc.
    destruct (price_cols w) as [|pc pcs]; [done|].
    rewrite Hsv, Htimes.
    assert (Hhead : head (map (fun p : Z * nat => PyTime (Some p.1)) (p0 :: sorted'))
                    = Some (PyTime (Some p0.1))) by done.
    assert (Hlast : last (map (fun p : Z * nat => PyTime (Some p.1)) (p0 :: sorted'))
                    = Some (PyTime (Some pl.1))).
    { change (map ?f ?l) with (f <$> l). by rewrite fmap_last, El. }
    rewrite Hhead, Hlast. cbn [mbind option_bind scalar_to_datetime].
    cbv zeta. destruct (feqb _ _); [done|].
    unfold get at 1. rewrite Hv. unfold py_div. rewrite Hpm.
    cbn [as_num mbind option_bind]. by rewrite Hlens. }
  rewrite Hr. clear Hr. cbv zeta.
  assert (HUS : (0 < 60000000)%Q) by done.
  assert (Hord : p0.1 <= pl.1).
  { apply (sorted_head_least (p0 :: sorted') p0 pl); [done | done | by apply last_In]. }
  unfold minutes_between.
  split.
  - intros Hlt. rewrite (Z.div_small (pl.1 - p0.1) 1000) by lia. done.
  - intros Hge.
    assert (Hus : 0 < (pl.1 - p0.1) / 1000) by (apply Z.div_str_pos; lia).
    assert (Hpos : (0 < inject_Z ((pl.1 - p0.1) / 1000) / 60000000)%Q).
    { apply Qlt_shift_div_l; [done|]. rewrite Qmult_0_l.
      change 0%Q with (inject_Z 0). by rewrite <- Zlt_Qlt. }
    split; [exact Hpos|].
    assert (Hz : feqb (Fin (inject_Z ((pl.1 - p0.1) / 1000) / 60000000)) (Fin 0)
                 = false).
    { simpl. destruct (Qeq_bool _ 0) eqn:E; [|done]. apply Qeq_bool_iff in E. lra. }
    rewrite Hz. rewrite (proj2 (flt_Fin _ _) Hpos).
    rewrite (fdiv_Fin (inject_Z (Z.of_nat (df_len w) - 1))) by lra.
    split; [reflexivity|]. split; [reflexivity|]. split; [reflexivity|].
    exists (df_take (argsort cells) w), pm.
    split; [done|]. split; [|reflexivity].
    unfold get. by rewrite Hv.
Qed.

Lemma movement_speed_over_time_span_witness :
  Forall in_range [32400000000000; 32520000000000; 32640000000000] /\
  calculate_movement_speed null_library scenario_pivots !! "error" = None /\
  is_Some (calculate_movement_speed null_library scenario_pivots !! "time_diff_minutes").
Proof.
  assert (Hrange : Forall in_range [32400000000000; 32520000000000; 32640000000000]).
  { repeat constructor; unfold in_range; lia. }
  split; [exact Hrange|].
  destruct (movement_speed_over_time_span null_library scenario_pivots "start_time_dt" []
              [32400000000000; 32520000000000; 32640000000000])
    as (first_time & last_time & _ & _ & Hall & _ & H3).
  - repeat constructor.
  - vm_compute. lia.
  - discriminate.
  - reflexivity.
  - reflexivity.
  - exact Hrange.
  - pose proof (Hall 32400000000000 (or_introl eq_refl)) as Hfirst.
    pose proof (Hall 32640000000000 (or_intror (or_intror (or_introl eq_refl)))) as Hlast.
    destruct H3 as (_ & Htd & _ & Herr & _); [lia|].
    split; [exact Herr | by eexists].
Defined.

(** ** Nested windows *)

Lemma filter_mask_nested {A B} (p q : B -> bool) (ts : list B) (l : list A) :
  (forall t, p t = true -> q t = true) ->
  filter_mask (map p (filter_mask (map q ts) ts)) (filter_mask (map q ts) l)
  = filter_mask (map p ts) l.
Proof.
  intros Hpq. revert l. induction ts as [|t ts IH]; intros [|x l]; simpl; try done.
  - by rewrite filter_mask_nil_r.
  - destruct (q t) eqn:Eq; simpl.
    + destruct (p t); by rewrite IH.
    + destruct (p t) eqn:Ep; [|by rewrite IH].
      apply Hpq in Ep. congruence.
Qed.

Lemma df_filter_nested {B} (p q : B -> bool) (ts : list B) df :
  (forall t, p t = true -> q t = true) ->
  df_filter (map p (filter_mask (map q ts) ts)) (df_filter (map q ts) df)
  = df_filter (map p ts) df.
Proof.
  intros Hpq. unfold df_filter. rewrite map_map. apply map_ext. intros [c s]. simpl.
  f_equal. destruct s; simpl; f_equal; by apply filter_mask_nested.
Qed.

Lemma columns_filter mask df : columns (df_filter mask df) = columns df.
Proof. unfold columns, df_filter. rewrite map_map. by apply map_ext. Qed.

Lemma df_len_filter_le mask df : (df_len (df_filter mask df) <= df_len df)%nat.
Proof.
  destruct df as [|[c s] df]; simpl; [done|].
  unfold series_len. rewrite series_cells_filter. apply filter_mask_le.
Qed.

(** The table a window is cut from, with its column of timestamps. *)
Lemma extract_zigzag_window_shape L df :
  (forall t0 t1, (extract_zigzag_window L df t0 t1).2 = []) \/
  exists df' time_col rest ts,
    time_cols df' = time_col :: rest /\ df_get time_col df' = Some (datetime64 ts) /\
    forall t0 t1,
      (extract_zigzag_window L df t0 t1).2 = df_filter (map (in_window t0 t1) ts) df'.
Proof.
  unfold extract_zigzag_window.
  destruct (time_cols df) as [|time_col rest] eqn:Htc; [by left|].
  destruct (df_get time_col df) as [s|] eqn:Hget; [|by left].
  destruct (is_datetime64_any_dtype s) eqn:E.
  { right. exists df, time_col, rest, (datetime_values s).
    split; [done|]. split; [|done]. by destruct s. }
  destruct (to_datetime L s) as [ts|] eqn:Hto; [|by left].
  destruct (length ts =? df_len df)%nat eqn:Hl; [|by left].
  right. exists (df_set time_col (datetime64 ts) df), time_col, rest, ts.
  split; [|split; [|done]].
  - rewrite time_cols_set; [done|]. by eapply time_cols_head_In.
  - apply df_get_set_eq.
Qed.

(** X4: extracting a window from the rows extracted for a wider
    window gives the rows that extracting it from the table gives, so a
    window never has more rows than a window that contains it. *)
Theorem extract_zigzag_window_nested L (zigzag_df : DataFrame) (t0 t1 t0' t1' : Z) :
  t0' <= t0 -> t1 <= t1' ->
  let outer := (extract_zigzag_window L zigzag_df (Some t0') (Some t1')).2 in
  let inner := (extract_zigzag_window L zigzag_df (Some t0) (Some t1)).2 in
  (extract_zigzag_window L outer (Some t0) (Some t1)).2 = inner /\
  (df_len inner <= df_len outer)%nat.
Proof.
  intros H0 H1 outer inner. subst outer inner.
  assert (Hnest : (extract_zigzag_window L
              (extract_zigzag_window L zigzag_df (Some t0') (Some t1')).2
              (Some t0) (Some t1)).2
          = (extract_zigzag_window L zigzag_df (Some t0) (Some t1)).2 /\
          exists mask, (extract_zigzag_window L zigzag_df (Some t0) (Some t1)).2
                       = df_filter mask (extract_zigzag_window L zigzag_df (Some t0') (Some t1')).2).
  { destruct (extract_zigzag_window_shape L zigzag_df)
      as [Hnil|(df' & time_col & rest & ts & Htc & Hget & Hres)].
    { rewrite !Hnil. split; [done|]. by exists []. }
    rewrite !Hres.
    assert (Himp : forall t, in_window (Some t0) (Some t1) t = true ->
                             in_window (Some t0') (Some t1') t = true).
    { intros [t|]; simpl; [|done]. rewrite !andb_true_iff, !Z.leb_le. lia. }
    assert (Hcut : extract_zigzag_window L
                (df_filter (map (in_window (Some t0') (Some t1')) ts) df') (Some t0) (Some t1)
              = (df_filter (map (in_window (Some t0') (Some t1')) ts) df',
                 df_filter (map (in_window (Some t0) (Some t1))
                              (filter_mask (map (in_window (Some t0') (Some t1')) ts) ts))
                   (df_filter (map (in_window (Some t0') (Some t1')) ts) df'))).
    { unfold extract_zigzag_window at 1. unfold time_cols.
      rewrite columns_filter. fold (time_cols df'). rewrite Htc.
      rewrite df_get_filter, Hget. done. }
    rewrite Hcut. cbn [snd].
    rewrite (df_filter_nested _ _ _ _ Himp). split; [done|].
    eexists. symmetry. by apply df_filter_nested. }
  destruct Hnest as [Hn [mask Hm]]. split; [exact Hn|].
  rewrite Hm. apply df_len_filter_le.
Qed.

Lemma extract_zigzag_window_nested_witness :
  (df_len (extract_zigzag_window null_library scenario_pivots
             (Some 32400000000000%Z) (Some 32520000000000%Z)).2
   <= df_len (extract_zigzag_window null_library scenario_pivots
                (Some 32400000000000%Z) (Some 32640000000000%Z)).2)%nat.
Proof.
  refine (proj2 (extract_zigzag_window_nested null_library scenario_pivots
                   32400000000000 32520000000000 32400000000000 32640000000000 _ _)); lia.
Defined.

(** ** Records with prefixed keys *)

Lemma with_prefix_kmap prefix (d : dict) :
  with_prefix prefix d = kmap (fun k => prefix +:+ "_" +:+ k) d.
Proof. reflexivity. Qed.

Lemma prefix_key_inj (prefix : string) : Inj (=) (=) (fun k => prefix +:+ "_" +:+ k).
Proof. intros k1 k2 H. apply String.app_inj in H. by injection H. Qed.

Lemma with_prefix_lookup prefix (d : dict) k :
  with_prefix prefix d !! (prefix +:+ "_" +:+ k) = d !! k.
Proof.
  rewrite with_prefix_kmap.
  apply (lookup_kmap (fun k => prefix +:+ "_" +:+ k) (Inj0 := prefix_key_inj prefix)).
Qed.

Lemma with_prefix_lookup_Some prefix (d : dict) key v :
  with_prefix prefix d !! key = Some v ->
  exists k, key = prefix +:+ "_" +:+ k /\ d !! k = Some v.
Proof.
  rewrite with_prefix_kmap. intros H.
  apply (lookup_kmap_Some (fun k => prefix +:+ "_" +:+ k) (Inj0 := prefix_key_inj prefix)) in H.
  destruct H as (k & -> & H). eauto.
Qed.

Lemma with_prefix_lookup_other prefix (d : dict) key :
  (forall k, key <> prefix +:+ "_" +:+ k) -> with_prefix prefix d !! key = None.
Proof.
  intros H. destruct (with_prefix prefix d !! key) as [v|] eqn:E; [|done].
  apply with_prefix_lookup_Some in E as (k & -> & _). by destruct (H k).
Qed.

Lemma string_app_assoc (a b c : string) : (a +:+ b) +:+ c = a +:+ b +:+ c.
Proof.
  induction a as [|x a IH]; [done|].
  change (String x ((a +:+ b) +:+ c) = String x (a +:+ b +:+ c)). by rewrite IH.
Qed.

(** The keys of two windows differ when the windows do. *)
Lemma window_key_entry_inj (n m : Z) (k1 k2 : string) :
  window_key n +:+ "_" +:+ k1 = window_key m +:+ "_" +:+ k2 -> n = m /\ k1 = k2.
Proof.
  unfold window_key. rewrite !string_app_assoc. simpl. intros H.
  by apply (window_key_sep "post_") in H.
Qed.

(** ** analyze_post_event, window by window *)

(** What a window holds does not depend on earlier calls on the table. *)
Lemma extract_zigzag_window_again L df t0 t1 :
  (extract_zigzag_window L (extract_state L df) t0 t1).2
  = (extract_zigzag_window L df t0 t1).2.
Proof.
  unfold extract_state. unfold extract_zigzag_window at 2 3.
  destruct (time_cols df) as [|time_col rest] eqn:Htc.
  { simpl. unfold extract_zigzag_window. by rewrite Htc. }
  destruct (df_get time_col df) as [s|] eqn:Hget.
  2:{ simpl. unfold extract_zigzag_window. by rewrite Htc, Hget. }
  destruct (is_datetime64_any_dtype s) eqn:E.
  { simpl. unfold extract_zigzag_window. by rewrite Htc, Hget, E. }
  destruct (to_datetime L s) as [ts|] eqn:Hto.
  2:{ simpl. unfold extract_zigzag_window. by rewrite Htc, Hget, E, Hto. }
  destruct (length ts =? df_len df)%nat eqn:Hl.
  2:{ simpl. unfold extract_zigzag_window. by rewrite Htc, Hget, E, Hto, Hl. }
  simpl. unfold extract_zigzag_window.
  rewrite time_cols_set by (by eapply time_cols_head_In).
  by rewrite Htc, df_get_set_eq.
Qed.

Lemma post_event_step_result L t df results m :
  (post_event_step L t (df, results) m).2 =
  let post_data := (extract_zigzag_window L df t (add_minutes t m)).2 in
  if (df_len post_data <? 2)%nat then
    <[window_key m +:+ "_" +:+ "points" := len_value post_data]>
      (<[window_key m +:+ "_" +:+ "valid" := PyBool false]> results)
  else
    with_prefix (window_key m) (calculate_movement_speed L post_data) ∪
    (with_prefix (window_key m) (calculate_price_movement L post_data) ∪
     (<[window_key m +:+ "_" +:+ "legs" := PyInt (Z.of_nat (df_len post_data) - 1)]>
        (<[window_key m +:+ "_" +:+ "points" := len_value post_data]>
           (<[window_key m +:+ "_" +:+ "valid" := PyBool true]> results)))).
Proof.
  unfold post_event_step.
  destruct (extract_zigzag_window L df t (add_minutes t m)) as [df1 post_data]. simpl.
  by destruct (df_len post_data <? 2)%nat.
Qed.

(** One turn leaves the entries of the other windows alone. *)
Lemma post_event_step_frame L t df results m key :
  (forall k, key <> window_key m +:+ "_" +:+ k) ->
  (post_event_step L t (df, results) m).2 !! key = results !! key.
Proof.
  intros Hk. rewrite post_event_step_result. cbv zeta.
  destruct (df_len _ <? 2)%nat.
  - by rewrite !lookup_insert_ne by (intros H; by apply (Hk _ (eq_sym H))).
  - rewrite !lookup_union_r by (by apply with_prefix_lookup_other).
    by rewrite !lookup_insert_ne by (intros H; by apply (Hk _ (eq_sym H))).
Qed.

Lemma post_event_step_entries L t df results m :
  ((df_len (extract_zigzag_window L df t (add_minutes t m)).2 < 2)%nat ->
   results !! (window_key m +:+ "_legs") = None /\
   results !! (window_key m +:+ "_price_movement") = None) ->
  post_window_entries L m (extract_zigzag_window L df t (add_minutes t m)).2
    (post_event_step L t (df, results) m).2.
Proof.
  rewrite post_event_step_result. cbv zeta.
  set (post_data := (extract_zigzag_window L df t (add_minutes t m)).2).
  intros Hbefore.
  assert (Hs : forall k, In k ["valid"; "points"; "legs"] ->
    with_prefix (window_key m) (calculate_movement_speed L post_data)
      !! (window_key m +:+ "_" +:+ k) = None).
  { intros k Hk. rewrite with_prefix_lookup.
    destruct (calculate_movement_speed L post_data !! k) as [v|] eqn:E; [|done].
    apply calculate_movement_speed_keys in E. simpl in *.
    repeat destruct Hk as [<-|Hk]; try done;
      repeat (destruct E as [E|E]; try done). }
  assert (Hp : forall k, In k ["valid"; "points"; "legs"] ->
    with_prefix (window_key m) (calculate_price_movement L post_data)
      !! (window_key m +:+ "_" +:+ k) = None).
  { intros k Hk. rewrite with_prefix_lookup.
    destruct (calculate_price_movement L post_data !! k) as [v|] eqn:E; [|done].
    apply calculate_price_movement_keys in E. simpl in *.
    repeat destruct Hk as [<-|Hk]; try done;
      repeat (destruct E as [E|E]; try done). }
  assert (Hne : forall k1 k2 : string, k1 <> k2 ->
    window_key m +:+ "_" +:+ k1 <> window_key m +:+ "_" +:+ k2).
  { intros k1 k2 Hne H. by apply window_key_entry_inj in H as [_ ?]. }
  unfold post_window_entries.
  change (window_key m +:+ "_points") with (window_key m +:+ "_" +:+ "points").
  change (window_key m +:+ "_valid") with (window_key m +:+ "_" +:+ "valid").
  change (window_key m +:+ "_legs") with (window_key m +:+ "_" +:+ "legs").
  change (window_key m +:+ "_price_movement")
    with (window_key m +:+ "_" +:+ "price_movement").
  destruct (df_len post_data <? 2)%nat eqn:Hlen.
  - apply Nat.ltb_lt in Hlen.
    rewrite (proj2 (Nat.leb_gt _ _)) by lia.
    split; [by rewrite lookup_insert_eq|].
    split; [rewrite lookup_insert_ne by (by apply Hne); by rewrite lookup_insert_eq|].
    split; [|intros; lia].
    intros _. rewrite !lookup_insert_ne by (by apply Hne). by apply Hbefore.
  - apply Nat.ltb_ge in Hlen.
    rewrite (proj2 (Nat.leb_le _ _)) by lia.
    rewrite !lookup_union_r by (apply Hs || apply Hp; simpl; tauto).
    split; [rewrite lookup_insert_ne by (by apply Hne); by rewrite lookup_insert_eq|].
    split; [rewrite !lookup_insert_ne by (by apply Hne); by rewrite lookup_insert_eq|].
    split; [intros; lia|]. intros _.
    split; [by rewrite lookup_insert_eq|].
    intros k v Hv.
    destruct (calculate_movement_speed L post_data !! k) as [v1|] eqn:E1.
    + rewrite (lookup_union_Some_l _ _ _ _ E1) in Hv. injection Hv as <-.
      apply lookup_union_Some_l. by rewrite with_prefix_lookup.
    + rewrite (lookup_union_r _ _ _ E1) in Hv.
      rewrite lookup_union_r by (by rewrite with_prefix_lookup).
      apply lookup_union_Some_l. by rewrite with_prefix_lookup.
Qed.

Lemma string_app_has (c : ascii) s r t :
  s +:+ String c r = t -> In c (String.list_ascii_of_string t).
Proof.
  intros <-. induction s as [|a s IH]; simpl; [by left | by right].
Qed.

Lemma window_key_entry_not_flag (m : Z) (k : string) :
  window_key m +:+ "_" +:+ k <> "post_event_valid".
Proof.
  unfold window_key. rewrite !string_app_assoc. intros H.
  change "post_event_valid" with ("post_" +:+ "event_valid") in H.
  apply String.app_inj in H.
  apply (string_app_has "m") in H. simpl in H.
  repeat (destruct H as [H|H]; [discriminate H|]). done.
Qed.

Lemma post_event_loop_frame L t ws df results key :
  (forall m k, In m ws -> key <> window_key m +:+ "_" +:+ k) ->
  (fold_left (post_event_step L t) ws (df, results)).2 !! key = results !! key.
Proof.
  revert df results. induction ws as [|w ws IH]; intros df results Hk; cbn [fold_left].
  - done.
  - destruct (post_event_step L t (df, results) w) as [df1 r1] eqn:E.
    rewrite IH by (intros m k Hm; apply Hk; by right).
    change r1 with (df1, r1).2. rewrite <- E.
    apply post_event_step_frame. intros k. apply Hk. by left.
Qed.

Lemma post_event_loop_entries L t ws df0 df results :
  df = df0 \/ df = extract_state L df0 ->
  (forall m, (df_len (extract_zigzag_window L df0 t (add_minutes t m)).2 < 2)%nat ->
     results !! (window_key m +:+ "_legs") = None /\
     results !! (window_key m +:+ "_price_movement") = None) ->
  forall m, In m ws ->
    post_window_entries L m (extract_zigzag_window L df0 t (add_minutes t m)).2
      (fold_left (post_event_step L t) ws (df, results)).2.
Proof.
  revert df results. induction ws as [|w ws IH]; intros df results Hdf Hq m Hm;
    cbn [fold_left]; [done|].
  assert (Hpd : forall a b, (extract_zigzag_window L df a b).2
                            = (extract_zigzag_window L df0 a b).2).
  { intros a b. destruct Hdf as [->| ->]; [done | apply extract_zigzag_window_again]. }
  pose proof (post_event_step_state L t df results w) as Hst.
  pose proof (post_event_step_entries L t df results w) as Hen.
  pose proof (fun key => post_event_step_frame L t df results w key) as Hfr.
  rewrite Hpd in Hen.
  destruct (post_event_step L t (df, results) w) as [df1 r1]. simpl in Hst, Hen, Hfr.
  assert (Hdf1 : df1 = df0 \/ df1 = extract_state L df0).
  { right. subst df1. destruct Hdf as [->| ->]; [done | apply extract_state_idem]. }
  assert (Hq1 : forall m, (df_len (extract_zigzag_window L df0 t (add_minutes t m)).2 < 2)%nat ->
     r1 !! (window_key m +:+ "_legs") = None /\
     r1 !! (window_key m +:+ "_price_movement") = None).
  { intros n Hn. destruct (decide (n = w)) as [->|Hne].
    - destruct (Hen (Hq w)) as (_ & _ & H & _). by apply H.
    - change (window_key n +:+ "_legs") with (window_key n +:+ "_" +:+ "legs").
      change (window_key n +:+ "_price_movement")
        with (window_key n +:+ "_" +:+ "price_movement").
      rewrite !Hfr by (intros k H; by apply window_key_entry_inj in H as [? _]).
      by apply Hq. }
  destruct (in_dec Z.eq_dec m ws) as [Hin|Hnin]; [by apply IH|].
  destruct Hm as [<-|Hm]; [|done].
  specialize (Hen (Hq w)).
  assert (Hsame : forall k,
    (fold_left (post_event_step L t) ws (df1, r1)).2 !! (window_key w +:+ "_" +:+ k)
    = r1 !! (window_key w +:+ "_" +:+ k)).
  { intros k. apply post_event_loop_frame. intros n k' Hn H.
    apply window_key_entry_inj in H as [-> _]. done. }
  unfold post_window_entries in *.
  change (window_key w +:+ "_points") with (window_key w +:+ "_" +:+ "points") in *.
  change (window_key w +:+ "_valid") with (window_key w +:+ "_" +:+ "valid") in *.
  change (window_key w +:+ "_legs") with (window_key w +:+ "_" +:+ "legs") in *.
  change (window_key w +:+ "_price_movement")
    with (window_key w +:+ "_" +:+ "price_movement") in *.
  rewrite !Hsame. destruct Hen as (H1 & H2 & H3 & H4).
  split; [done|]. split; [done|]. split; [done|].
  intros Hlen. destruct (H4 Hlen) as [H5 H6]. split; [done|].
  intros k v Hv. rewrite Hsame. by apply H6.
Qed.



(** ** analyze_pre_event *)

Lemma analyze_pre_event_result L pre_window indicator_row df event_time :
  event_time_of L indicator_row = EventTime event_time ->
  (analyze_pre_event L pre_window indicator_row df).2 =
  let pre_data :=
    (extract_zigzag_window L df (add_minutes event_time (- pre_window)) event_time).2 in
  let last_minute_data :=
    (extract_zigzag_window L df (add_minutes event_time (- 1)) event_time).2 in
  if (df_len pre_data <? 2)%nat then
    dict_of [("pre_event_valid", PyBool false);
             ("pre_event_points", len_value pre_data);
             ("pre_window_minutes", PyInt pre_window)]
  else
    let results :=
      calculate_movement_speed L pre_data ∪
      (calculate_price_movement L pre_data ∪
       dict_of [("pre_event_valid", PyBool true);
                ("pre_window_minutes", PyInt pre_window);
                ("pre_event_points", len_value pre_data);
                ("pre_event_legs", PyInt (Z.of_nat (df_len pre_data) - 1))]) in
    if (2 <=? df_len last_minute_data)%nat then
      <["pre_event_last_min_direction" :=
          get (calculate_price_movement L last_minute_data) "movement_direction"
            (PyStr "neutral")]>
        (<["pre_event_last_min_movement" :=
             get (calculate_price_movement L last_minute_data) "price_movement" (PyInt 0)]>
           results)
    else results.
Proof.
  intros Het. unfold analyze_pre_event. rewrite Het. cbv zeta.
  pose proof (extract_state_eq L df (add_minutes event_time (- pre_window)) event_time) as H1.
  destruct (extract_zigzag_window L df (add_minutes event_time (- pre_window)) event_time)
    as [df1 pre_data]. simpl in H1. subst df1. cbn [snd].
  destruct (df_len pre_data <? 2)%nat; [done|].
  rewrite <- (extract_zigzag_window_again L df (add_minutes event_time (- 1)) event_time).
  destruct (extract_zigzag_window L (extract_state L df) (add_minutes event_time (- 1)) event_time)
    as [df2 last_minute_data]. cbn [snd].
  by destruct (2 <=? df_len last_minute_data)%nat.
Qed.



(** ** analyze_indicator never raises *)

Lemma window_key_not_error (m : Z) (s : string) : window_key m +:+ s <> "error".
Proof. unfold window_key. rewrite string_app_assoc. discriminate. Qed.

(** The movement a pre-event record holds is a number. *)
Lemma analyze_pre_event_movement_number L pre_window indicator_row df :
  is_Some (as_num (get (analyze_pre_event L pre_window indicator_row df).2
                     "price_movement" (PyInt 0))).
Proof.
  destruct (event_time_of L indicator_row) as [| |event_time] eqn:Het.
  - unfold analyze_pre_event. rewrite Het. by eexists.
  - unfold analyze_pre_event. rewrite Het. by eexists.
  - rewrite (analyze_pre_event_result _ _ _ _ _ Het). cbv zeta.
    destruct (df_len _ <? 2)%nat; [by eexists|].
    match goal with |- context [calculate_price_movement L ?d ∪ _] =>
      destruct (calculate_price_movement_number L d) as (v & Hv & Hn);
      assert (Hs : calculate_movement_speed L d !! "price_movement" = None) by
        (destruct (calculate_movement_speed L d !! "price_movement") as [u|] eqn:E; [|done];
         apply calculate_movement_speed_keys in E; simpl in E;
         repeat (destruct E as [E|E]; try done))
    end.
    unfold get.
    destruct (2 <=? df_len _)%nat.
    + rewrite !lookup_insert_ne by done.
      rewrite lookup_union_r by done.
      by rewrite (lookup_union_Some_l _ _ _ _ Hv).
    + rewrite lookup_union_r by done.
      by rewrite (lookup_union_Some_l _ _ _ _ Hv).
Qed.

(** So are the movements a post-event record holds. *)
Lemma post_event_step_numbers L t df results w :
  (forall m v, results !! (window_key m +:+ "_price_movement") = Some v ->
     is_Some (as_num v)) ->
  forall m v, (post_event_step L t (df, results) w).2 !! (window_key m +:+ "_price_movement")
              = Some v -> is_Some (as_num v).
Proof.
  intros Hres m v. rewrite post_event_step_result. cbv zeta.
  change (window_key m +:+ "_price_movement")
    with (window_key m +:+ "_" +:+ "price_movement").
  destruct (df_len _ <? 2)%nat.
  - intros H. apply lookup_insert_Some in H as [[_ <-]|[_ H]]; [by eexists|].
    apply lookup_insert_Some in H as [[_ <-]|[_ H]]; [by eexists|].
    by apply (Hres m).
  - intros H. apply lookup_union_Some_raw in H as [H|[_ H]].
    { apply with_prefix_lookup_Some in H as (k & Hk & H).
      apply window_key_entry_inj in Hk as [_ <-].
      apply calculate_movement_speed_keys in H. simpl in H.
      repeat (destruct H as [H|H]; try done). }
    apply lookup_union_Some_raw in H as [H|[_ H]].
    { apply with_prefix_lookup_Some in H as (k & Hk & H).
      apply window_key_entry_inj in Hk as [_ <-].
      match type of H with calculate_price_movement L ?d !! _ = _ =>
        destruct (calculate_price_movement_number L d) as (u & Hu & Hn) end.
      congruence. }
    apply lookup_insert_Some in H as [[_ <-]|[_ H]]; [by eexists|].
    apply lookup_insert_Some in H as [[_ <-]|[_ H]]; [by eexists|].
    apply lookup_insert_Some in H as [[_ <-]|[_ H]]; [by eexists|].
    by apply (Hres m).
Qed.

Lemma post_event_loop_numbers L t ws df results :
  (forall m v, results !! (window_key m +:+ "_price_movement") = Some v ->
     is_Some (as_num v)) ->
  forall m v,
    (fold_left (post_event_step L t) ws (df, results)).2
      !! (window_key m +:+ "_price_movement") = Some v -> is_Some (as_num v).
Proof.
  revert df results. induction ws as [|w ws IH]; intros df results Hres; cbn [fold_left].
  - exact Hres.
  - pose proof (post_event_step_numbers L t df results w Hres) as H1.
    destruct (post_event_step L t (df, results) w) as [df1 r1]. by apply IH.
Qed.

Lemma analyze_post_event_movement_number L post_windows indicator_row df m :
  is_Some (as_num (get (analyze_post_event L post_windows indicator_row df).2
                     (window_key m +:+ "_price_movement") (PyInt 0))).
Proof.
  assert (Hlit : forall msg : string, is_Some (as_num (get
            (dict_of [("post_event_valid", PyBool false); ("error", PyStr msg)])
            (window_key m +:+ "_price_movement") (PyInt 0)))).
  { intros msg. unfold get.
    change (dict_of [("post_event_valid", PyBool false); ("error", PyStr msg)])
      with (<["post_event_valid" := PyBool false]> (<["error" := PyStr msg]> (∅ : dict))).
    rewrite lookup_insert_ne.
    - rewrite lookup_insert_ne; [by eexists|]. intros H. symmetry in H.
      by apply window_key_not_error in H.
    - intros H. symmetry in H. by apply (window_key_entry_not_flag m "price_movement"). }
  unfold analyze_post_event.
  destruct (event_time_of L indicator_row) as [| |event_time]; [apply Hlit|apply Hlit|].
  unfold get.
  destruct (_ !! (window_key m +:+ "_price_movement")) as [v|] eqn:E; [|by eexists].
  revert E. apply post_event_loop_numbers.
  intros n u H. apply dict_of_lookup_In in H. destruct H as [[= _ <-]|[]]. by eexists.
Qed.

(** [calculate_ratios] succeeds on records whose movements are numbers. *)
Lemma calculate_ratios_total L post_windows pre_results post_results :
  is_Some (as_num (get pre_results "price_movement" (PyInt 0))) ->
  (forall m, is_Some (as_num (get post_results (window_key m +:+ "_price_movement")
                                (PyInt 0)))) ->
  is_Some (calculate_ratios L post_windows pre_results post_results).
Proof.
  intros [p Hp] Hq. unfold calculate_ratios.
  destruct (negb _); [by eexists|]. destruct (negb _); [by eexists|].
  destruct (py_eq _ _); [by eexists|].
  destruct (ratio_loop_spec L _ post_results p post_windows ∅ Hp) as (r & -> & _).
  { intros n _ _. destruct (Hq n) as [q Hq']. by exists q. }
  by eexists.
Qed.

Lemma analyze_indicator_total L pre_window post_windows indicator_row df :
  is_Some (analyze_indicator L pre_window post_windows indicator_row df).
Proof.
  unfold analyze_indicator.
  pose proof (analyze_pre_event_movement_number L pre_window indicator_row df) as Hpre.
  destruct (analyze_pre_event L pre_window indicator_row df) as [df1 pre_results].
  pose proof (fun m => analyze_post_event_movement_number L post_windows indicator_row df1 m)
    as Hpost.
  destruct (analyze_post_event L post_windows indicator_row df1) as [df2 post_results].
  simpl in Hpre, Hpost.
  destruct (_ && _)%bool; [|by eexists].
  destruct (calculate_ratios_total L post_windows pre_results post_results Hpre Hpost)
    as [r ->].
  by eexists.
Qed.

(** ** The records of a batch *)

(** The loop that adds the fields of the row keeps what the record has
    and adds the first value of every other field. *)
Lemma add_row_fields_lookup (indicator_row : list (string * pyval)) (combined : dict) k :
  fold_left (fun (acc : dict) kv =>
               match acc !! kv.1 with
               | Some _ => acc
               | None => <[kv.1 := kv.2]> acc
               end) indicator_row combined !! k
  = match combined !! k with
    | Some v => Some v
    | None => row_get indicator_row k
    end.
Proof.
  revert combined. induction indicator_row as [|[k0 v0] row IH]; intros combined;
    cbn [fold_left].
  - unfold row_get. simpl. by destruct (combined !! k).
  - rewrite IH. unfold row_get. cbn [List.find fst snd].
    destruct (String.eqb_spec k0 k) as [->|Hne].
    + destruct (combined !! k) as [v|] eqn:E; [by rewrite E|].
      by rewrite lookup_insert_eq.
    + destruct (combined !! k0) as [v|] eqn:E; [done|].
      by rewrite lookup_insert_ne.
Qed.

Lemma row_get_Some_In (indicator_row : list (string * pyval)) k :
  In k (map fst indicator_row) -> is_Some (row_get indicator_row k).
Proof.
  unfold row_get. induction indicator_row as [|[k0 v0] row IH]; simpl; [done|].
  intros [->|H].
  - rewrite String.eqb_refl. by eexists.
  - destruct (String.eqb k0 k); [by eexists | by apply IH].
Qed.

Lemma analyze_pre_event_flag L pre_window indicator_row df :
  is_Some ((analyze_pre_event L pre_window indicator_row df).2 !! "pre_event_valid").
Proof.
  destruct (event_time_of L indicator_row) as [| |event_time] eqn:Het.
  - unfold analyze_pre_event. rewrite Het. by eexists.
  - unfold analyze_pre_event. rewrite Het. by eexists.
  - rewrite (analyze_pre_event_result _ _ _ _ _ Het). cbv zeta.
    destruct (df_len _ <? 2)%nat; [by eexists|].
    assert (H : forall (a b base : dict), is_Some (base !! "pre_event_valid") ->
                  is_Some ((a ∪ (b ∪ base)) !! "pre_event_valid")).
    { intros a b base Hb. apply lookup_union_is_Some. right.
      apply lookup_union_is_Some. by right. }
    destruct (2 <=? df_len _)%nat.
    + rewrite !lookup_insert_ne by done. apply H. by eexists.
    + apply H. by eexists.
Qed.

Lemma analyze_post_event_flag L post_windows indicator_row df :
  is_Some ((analyze_post_event L post_windows indicator_row df).2 !! "post_event_valid").
Proof.
  unfold analyze_post_event.
  destruct (event_time_of L indicator_row) as [| |event_time]; [by eexists|by eexists|].
  rewrite post_event_loop_frame; [by eexists|].
  intros m k _ H. by apply (window_key_entry_not_flag m k).
Qed.

(** The record of one indicator: it is always produced, and it holds the
    two validity flags and every field of the row. *)
Lemma analyze_indicator_record L pre_window post_windows indicator_row df :
  exists df' r,
    analyze_indicator L pre_window post_windows indicator_row df = Some (df', r) /\
    is_Some (r !! "pre_event_valid") /\ is_Some (r !! "post_event_valid") /\
    forall k, In k (map fst indicator_row) -> is_Some (r !! k).
Proof.
  destruct (analyze_indicator_total L pre_window post_windows indicator_row df)
    as [[df' r] Hr].
  exists df', r. split; [done|].
  unfold analyze_indicator in Hr.
  pose proof (analyze_pre_event_flag L pre_window indicator_row df) as Hpre.
  destruct (analyze_pre_event L pre_window indicator_row df) as [df1 pre_results].
  pose proof (analyze_post_event_flag L post_windows indicator_row df1) as Hpost.
  destruct (analyze_post_event L post_windows indicator_row df1) as [df2 post_results].
  simpl in Hpre, Hpost.
  match type of Hr with (mbind _ ?c) = _ =>
    assert (Hc : exists combined, c = Some combined /\
                   is_Some (combined !! "pre_event_valid") /\
                   is_Some (combined !! "post_event_valid"))
  end.
  { assert (H0 : is_Some ((post_results ∪ pre_results) !! "pre_event_valid") /\
                 is_Some ((post_results ∪ pre_results) !! "post_event_valid")).
    { split; apply lookup_union_is_Some; [by right | by left]. }
    destruct (_ && _)%bool; [|by eexists].
    destruct (calculate_ratios L post_windows pre_results post_results) as [ratios|];
      [|done].
    eexists. split; [done|].
    split; apply lookup_union_is_Some; right; apply H0. }
  destruct Hc as (combined & Hc & H1 & H2). rewrite Hc in Hr. simpl in Hr.
  injection Hr as <- <-.
  split; [|split].
  - rewrite add_row_fields_lookup. destruct H1 as [v ->]. by eexists.
  - rewrite add_row_fields_lookup. destruct H2 as [v ->]. by eexists.
  - intros k Hk. rewrite add_row_fields_lookup.
    destruct (combined !! k); [by eexists|]. by apply row_get_Some_In.
Qed.


(** ** MultiscaleAnalyzer: its scales and the rows of the propagation table *)

Lemma insert_by_leb_sorted x l :
  StronglySorted Z.le l -> StronglySorted Z.le (insert_by Z.leb x l).
Proof.
  induction 1 as [|y l Hs IH Hy]; simpl.
  - repeat constructor.
  - destruct (x <=? y) eqn:E.
    + apply Z.leb_le in E. constructor; [by constructor|].
      constructor; [done|]. eapply Forall_impl; [exact Hy|]. simpl. intros; lia.
    + apply Z.leb_gt in E. constructor; [done|].
      rewrite (insert_by_perm Z.leb x l). constructor; [lia | done].
Qed.

Lemma insertion_sort_leb_sorted l : StronglySorted Z.le (foldr (insert_by Z.leb) [] l).
Proof.
  induction l as [|x l IH]; simpl; [constructor | by apply insert_by_leb_sorted].
Qed.

(** X11: the scales a [MultiscaleAnalyzer] keeps always include
    the reference scale and are otherwise the scales it was given (5, 15,
    30, 60 when none is given).  When the reference scale is among them the
    list is kept as given, in its order; when it had to be added the list is
    sorted in ascending order. *)
Theorem init_time_scales_reference (time_scales : list Z) (reference_scale : Z) :
  let given := match time_scales with [] => [5; 15; 30; 60] | _ => time_scales end in
  let kept := init_time_scales time_scales reference_scale in
  In reference_scale kept /\
  (forall s, In s kept <-> In s given \/ s = reference_scale) /\
  (In reference_scale given -> kept = given) /\
  (~ In reference_scale given ->
     kept ≡ₚ reference_scale :: given /\ StronglySorted Z.le kept).
Proof.
  intros given kept. subst kept. unfold init_time_scales. fold given.
  destruct (existsb (Z.eqb reference_scale) given) eqn:E.
  - apply existsb_exists in E as (s & Hs & Heq). apply Z.eqb_eq in Heq. subst s.
    split; [done|]. split; [|split; [done|tauto]].
    intros s. split; [tauto|]. by intros [?| ->].
  - assert (Hnot : ~ In reference_scale given).
    { intros Hin.
      assert (Ht : existsb (Z.eqb reference_scale) given = true); [|congruence].
      apply existsb_exists. exists reference_scale. split; [done|]. apply Z.eqb_refl. }
    assert (Hperm : foldr (insert_by Z.leb) [] (given ++ [reference_scale])
                    ≡ₚ reference_scale :: given).
    { rewrite insertion_sort_perm. by rewrite Permutation_app_comm. }
    split; [|split; [|split]].
    + apply list_elem_of_In. rewrite Hperm. by left.
    + intros s. rewrite <- !list_elem_of_In, Hperm, elem_of_cons. tauto.
    + done.
    + intros _. split; [done|]. apply insertion_sort_leb_sorted.
Qed.

Lemma round_row_scales r :
  smaller_scale (round_row r) = smaller_scale r /\
  larger_scale (round_row r) = larger_scale r /\ count (round_row r) = count r.
Proof. done. Qed.

Lemma propagation_step_row L analyzed_df smaller larger row :
  propagation_step L analyzed_df smaller larger = Some (Append row) ->
  smaller_scale row = smaller /\ larger_scale row = larger /\
  (5 <= count row <= df_len analyzed_df)%nat.
Proof.
  unfold propagation_step.
  destruct (df_get (movement_col smaller) analyzed_df) as [s|]; [|done].
  destruct (df_get (movement_col larger) analyzed_df) as [l|]; [|done].
  destruct (df_len _ <? 5)%nat eqn:Hlen; [done|]. apply Nat.ltb_ge in Hlen.
  destruct (df_get (movement_col smaller) _ ≫= numeric_values) as [xs|];
    cbn [mbind option_bind]; [|done].
  destruct (df_get (movement_col larger) _ ≫= numeric_values) as [ys|];
    cbn [mbind option_bind]; [|done].
  destruct (pearsonr L xs ys) as [[c p]|]; cbn [mbind option_bind]; [|done].
  destruct (linregress L xs ys) as [[[[[sl ic] rv] pv] se]|]; cbn [mbind option_bind]; [|done].
  intros [= <-]. cbn. split; [done|]. split; [done|]. split; [done|].
  apply df_len_filter_le.
Qed.

Lemma propagation_loop_rows L analyzed_df pairs rows :
  propagation_loop L analyzed_df pairs = Some rows ->
  map (fun r => (smaller_scale r, larger_scale r)) rows `sublist_of` pairs /\
  Forall (fun r => (5 <= count r <= df_len analyzed_df)%nat) rows.
Proof.
  revert rows. induction pairs as [|[smaller larger] pairs IH]; intros rows; simpl.
  - intros [= <-]. split; [done|constructor].
  - destruct (propagation_step L analyzed_df smaller larger) as [r|] eqn:Hstep;
      cbn [mbind option_bind]; [|done].
    destruct (propagation_loop L analyzed_df pairs) as [rest|];
      cbn [mbind option_bind]; [|done].
    intros [= <-]. destruct (IH rest eq_refl) as [Hsub Hall].
    destruct r as [|row].
    + split; [by apply sublist_cons | done].
    + apply propagation_step_row in Hstep as (<- & <- & Hc).
      split; [by apply sublist_skip | by constructor].
Qed.

(** X12: the rows of [analyze_propagation_effects] name pairs
    of neighbouring scales, in the order of the configured scales, at most
    one row for each pair; the count of every row is at least 5 and at most
    the number of rows of the analysed table. *)
Theorem propagation_effects_rows L (time_scales : list Z) (analyzed_df : DataFrame) :
  let rows := analyze_propagation_effects L time_scales analyzed_df in
  map (fun r => (smaller_scale r, larger_scale r)) rows
    `sublist_of` zip time_scales (tail time_scales) /\
  (length rows <= length time_scales - 1)%nat /\
  Forall (fun r => (5 <= count r <= df_len analyzed_df)%nat) rows.
Proof.
  intros rows. subst rows. unfold analyze_propagation_effects.
  destruct (propagation_loop L analyzed_df (zip time_scales (tail time_scales)))
    as [results|] eqn:E.
  - apply propagation_loop_rows in E as [Hsub Hall].
    assert (Hmap : map (fun r => (smaller_scale r, larger_scale r)) (map round_row results)
                   = map (fun r => (smaller_scale r, larger_scale r)) results).
    { rewrite map_map. by apply map_ext. }
    rewrite Hmap. split; [done|]. split.
    + apply sublist_length in Hsub. rewrite !length_map in *.
      rewrite length_zip_with in Hsub.
      destruct time_scales as [|s0 ts]; cbn [tail length] in *; lia.
    + apply Forall_forall. intros r Hr. apply list_elem_of_In, in_map_iff in Hr
        as (r0 & <- & Hr0).
      rewrite Forall_forall in Hall. apply (Hall r0). by apply list_elem_of_In.
  - split; [apply sublist_nil_l|]. split; [simpl; lia | constructor].
Qed.

(** ** calculate_scale_ratios *)

Import scale_ratios.

Lemma row_ratio_floats x y : row_ratio (PyNum x) (PyNum y) = Some (float_ratio x y).
Proof.
  unfold row_ratio, float_ratio.
  replace (is_missing (PyNum x)) with (isnan x) by (by destruct x).
  replace (is_missing (PyNum y)) with (isnan y) by (by destruct y).
  change (py_eq (PyNum y) (PyInt 0)) with (feqb y (Fin 0)).
  by destruct (_ && _ && _)%bool.
Qed.

Lemma collect_row_ratio xs ys :
  collect (fun row => row_ratio row.1 row.2) (zip (map PyNum xs) (map PyNum ys))
  = Some (zip_with float_ratio xs ys).
Proof.
  revert ys. induction xs as [|x xs IH]; intros [|y ys]; simpl; try done.
  rewrite row_ratio_floats. cbn [mbind option_bind].
  change (zip_with pair (map PyNum xs) (map PyNum ys)) with (zip (map PyNum xs) (map PyNum ys)).
  by rewrite IH.
Qed.

Lemma ratio_col_not_movement s ref s' :
  ratio_col s ref <> movement_col s' /\ norm_ratio_col s ref <> movement_col s'.
Proof. split; discriminate. Qed.

Lemma ratio_col_inj s s' ref : ratio_col s ref = ratio_col s' ref -> s = s'.
Proof. unfold ratio_col. apply (window_name_inj "scale_ratio_" ("_to_" +:+ pretty ref)). Qed.

Lemma norm_ratio_col_inj s s' ref : norm_ratio_col s ref = norm_ratio_col s' ref -> s = s'.
Proof.
  unfold norm_ratio_col. apply (window_name_inj "norm_scale_ratio_" ("_to_" +:+ pretty ref)).
Qed.

Lemma ratio_col_not_norm s s' ref : ratio_col s ref <> norm_ratio_col s' ref.
Proof. discriminate. Qed.

(** One turn of the loop on columns of floats. *)
Lemma scale_step_floats L ref cur s ys :
  df_get (movement_col ref) cur = Some (float64 ys) ->
  (forall col, df_get (movement_col s) cur = Some col -> exists xs, col = float64 xs) ->
  exists cur',
    scale_step L ref cur s = Some cur' /\
    (forall c, c <> ratio_col s ref -> c <> norm_ratio_col s ref ->
       df_get c cur' = df_get c cur) /\
    (forall xs, s <> ref -> df_get (movement_col s) cur = Some (float64 xs) ->
       df_get (ratio_col s ref) cur' = Some (float64 (zip_with float_ratio xs ys)) /\
       df_get (norm_ratio_col s ref) cur'
       = Some (float64 (map (norm_ratio L) (zip_with float_ratio xs ys)))).
Proof.
  intros Href Hcol. unfold scale_step.
  destruct (s =? ref) eqn:E.
  { apply Z.eqb_eq in E. exists cur. split; [done|]. split; [done|]. by intros xs []. }
  destruct (df_get (movement_col s) cur) as [col|] eqn:Hs.
  2:{ exists cur. split; [done|]. split; [done|]. by intros xs _ [=]. }
  destruct (Hcol col eq_refl) as [xs ->].
  rewrite Href. cbn [mbind option_bind series_cells].
  rewrite collect_row_ratio. cbn [mbind option_bind].
  eexists. split; [done|]. split.
  - intros c Hc1 Hc2. by rewrite !df_get_set_ne by done.
  - intros xs' _ [= <-]. split.
    + rewrite df_get_set_ne by (intros H; by apply (ratio_col_not_norm s s ref)).
      apply df_get_set_eq.
    + apply df_get_set_eq.
Qed.

Lemma scale_loop_floats L ref ts df cur ys :
  df_get (movement_col ref) df = Some (float64 ys) ->
  (forall s col, In s ts -> df_get (movement_col s) df = Some col ->
     exists xs, col = float64 xs) ->
  (forall s, df_get (movement_col s) cur = df_get (movement_col s) df) ->
  exists result,
    for_each (scale_step L ref) ts cur = Some result /\
    (forall c, (forall s, In s ts -> c <> ratio_col s ref /\ c <> norm_ratio_col s ref) ->
       df_get c result = df_get c cur) /\
    (forall s xs, In s ts -> s <> ref -> df_get (movement_col s) df = Some (float64 xs) ->
       df_get (ratio_col s ref) result = Some (float64 (zip_with float_ratio xs ys)) /\
       df_get (norm_ratio_col s ref) result
       = Some (float64 (map (norm_ratio L) (zip_with float_ratio xs ys)))).
Proof.
  intros Href. revert cur. induction ts as [|t ts IH]; intros cur Hfloat Hcur;
    cbn [for_each].
  { exists cur. split; [done|]. split; [done|]. intros s xs []. }
  destruct (scale_step_floats L ref cur t ys) as (cur1 & -> & Hframe1 & Hset1).
  { by rewrite Hcur. }
  { intros col Hc. rewrite Hcur in Hc. apply (Hfloat t col); [by left | done]. }
  cbn [mbind option_bind].
  destruct (IH cur1) as (result & Hres & Hframe & Hset).
  { intros s col Hs. apply Hfloat. by right. }
  { intros s. rewrite Hframe1; [apply Hcur| |].
    - intros H. symmetry in H. by apply ratio_col_not_movement in H.
    - intros H. symmetry in H. by apply ratio_col_not_movement in H. }
  exists result. split; [done|]. split.
  - intros c Hc. rewrite Hframe by (intros s Hs; apply Hc; by right).
    apply Hframe1; apply (Hc t); by left.
  - intros s xs Hs Hne Hxs.
    destruct (in_dec Z.eq_dec s ts) as [Hin|Hnin]; [by apply Hset|].
    destruct Hs as [->|Hs]; [|done].
    rewrite <- Hcur in Hxs. destruct (Hset1 xs Hne Hxs) as [H1 H2].
    rewrite !Hframe.
    + done.
    + intros s' Hs'. split.
      * intros H. symmetry in H. by apply ratio_col_not_norm in H.
      * intros H. apply norm_ratio_col_inj in H. by subst.
    + intros s' Hs'. split.
      * intros H. apply ratio_col_inj in H. by subst.
      * apply ratio_col_not_norm.
Qed.

Lemma float_ratio_lookup xs ys i x y :
  xs !! i = Some x -> ys !! i = Some y ->
  zip_with float_ratio xs ys !! i = Some (float_ratio x y).
Proof. intros Hx Hy. by rewrite lookup_zip_with, Hx, Hy. Qed.

(** X13: when the movement columns of the configured scales hold
    floats, [calculate_scale_ratios] leaves every column of the analysed
    table as it is and, for every scale other than the reference scale
    whose movement column exists, writes [scale_ratio_S_to_R] and
    [norm_scale_ratio_S_to_R], one entry for each row.  The ratio of a row
    is NaN when either movement is missing or the reference movement is
    zero; for finite movements with a reference that is not zero it is a
    finite number that, multiplied by the reference movement, gives the
    movement at the scale. *)
Theorem scale_ratio_columns L (time_scales : list Z) (reference_scale : Z)
    (analyzed_df : DataFrame) (ref_values : list float) :
  df_get (movement_col reference_scale) analyzed_df = Some (float64 ref_values) ->
  (forall s col, In s time_scales -> df_get (movement_col s) analyzed_df = Some col ->
     exists xs, col = float64 xs) ->
  let result := calculate_scale_ratios L time_scales reference_scale analyzed_df in
  (forall c, (forall s, In s time_scales ->
                c <> ratio_col s reference_scale /\ c <> norm_ratio_col s reference_scale) ->
     df_get c result = df_get c analyzed_df) /\
  forall s values, In s time_scales -> s <> reference_scale ->
    df_get (movement_col s) analyzed_df = Some (float64 values) ->
    exists ratios,
      df_get (ratio_col s reference_scale) result = Some (float64 ratios) /\
      df_get (norm_ratio_col s reference_scale) result
      = Some (float64 (map (norm_ratio L) ratios)) /\
      length ratios = (length values `min` length ref_values)%nat /\
      forall i x y, values !! i = Some x -> ref_values !! i = Some y ->
        (isnan x = true \/ isnan y = true \/ feqb y (Fin 0) = true ->
           ratios !! i = Some NaN) /\
        (forall a b, x = Fin a -> y = Fin b -> ~ (b == 0)%Q ->
           exists q, ratios !! i = Some (Fin q) /\ (q * b == a)%Q).
Proof.
  intros Href Hfloat result. subst result. unfold calculate_scale_ratios. rewrite Href.
  destruct (scale_loop_floats L reference_scale time_scales analyzed_df analyzed_df
              ref_values Href Hfloat) as (result & -> & Hframe & Hset); [done|].
  cbn [default]. split; [exact Hframe|].
  intros s values Hs Hne Hval. destruct (Hset s values Hs Hne Hval) as [H1 H2].
  exists (zip_with float_ratio values ref_values).
  split; [done|]. split; [done|]. split; [apply length_zip_with|].
  intros i x y Hx Hy. rewrite (float_ratio_lookup _ _ _ _ _ Hx Hy). split.
  - intros H. f_equal. unfold float_ratio.
    destruct H as [->|[->| ->]]; simpl; rewrite ?andb_false_r; done.
  - intros a b -> -> Hb. exists (a / b)%Q. split.
    + f_equal. unfold float_ratio. simpl.
      destruct (Qeq_bool b 0) eqn:E; [apply Qeq_bool_iff in E; done|]. done.
    + field. exact Hb.
Qed.

Lemma scale_ratio_columns_witness :
  df_get (movement_col 5) (calculate_scale_ratios null_library [5; 15] 15 five_events)
  = df_get (movement_col 5) five_events /\
  exists ratios,
    df_get (ratio_col 5 15) (calculate_scale_ratios null_library [5; 15] 15 five_events)
    = Some (float64 ratios) /\
    length ratios = 5%nat.
Proof.
  pose proof (scale_ratio_columns null_library [5; 15] 15 five_events
                [Fin 1; Fin 2; Fin 3; Fin 4; Fin 5]) as H.
  cbv zeta in H.
  destruct H as [Hkeep Hnew].
  - reflexivity.
  - intros s col [<-|[<-|[]]] [= <-]; by eexists.
  - split.
    + apply Hkeep. intros s [<-|[<-|[]]]; split; discriminate.
    + destruct (Hnew 5 [Fin 0; Fin 1; Fin 2; Fin 3; Fin 4]) as (ratios & H1 & _ & H2 & _).
      * simpl; tauto.
      * discriminate.
      * reflexivity.
      * exists ratios. split; [exact H1 | exact H2].
Defined.

(** ** Classification: order and missing means *)

Lemma flt_fle_trans x y z : fle x y = true -> flt y z = true -> flt x z = true.
Proof.
  destruct x as [a| | |], y as [b| | |], z as [c| | |]; simpl; try done.
  rewrite !negb_true_iff. intros H1 H2. apply Qle_bool_iff in H1.
  destruct (Qle_bool c a) eqn:E; [|done]. apply Qle_bool_iff in E.
  assert (Hcb : (c <= b)%Q) by lra. apply Qle_bool_iff in Hcb. congruence.
Qed.

Lemma get_category_values q1 q2 x :
  In (statistical_processor.get_category q1 q2 x) ["小"; "中"; "大"].
Proof.
  unfold statistical_processor.get_category.
  destruct (flt x q1); [simpl; tauto|]. destruct (flt x q2); simpl; tauto.
Qed.

Lemma get_category_nan q1 q2 : statistical_processor.get_category q1 q2 NaN = "大".
Proof. by destruct q1, q2. Qed.

Lemma get_category_rank_mono q1 q2 x y :
  fle x y = true ->
  (category_rank (statistical_processor.get_category q1 q2 x)
   <= category_rank (statistical_processor.get_category q1 q2 y))%nat.
Proof.
  unfold statistical_processor.get_category. intros Hle.
  destruct (flt y q1) eqn:Ey1.
  { rewrite (flt_fle_trans _ _ _ Hle Ey1). done. }
  destruct (flt y q2) eqn:Ey2.
  { rewrite (flt_fle_trans _ _ _ Hle Ey2). destruct (flt x q1); cbn; lia. }
  destruct (flt x q1); [cbn; lia|]. destruct (flt x q2); cbn; lia.
Qed.

(** X15: [get_category], in both scripts, gives 大 (large) to a
    missing mean whatever the thresholds are, gives one of the three
    categories to every value, and is monotone: of two means the greater
    never falls in a smaller category, for any thresholds. *)
Theorem get_category_order (q1 q2 x y : float) :
  statistical_processor.get_category q1 q2 NaN = "大" /\
  calculate_indicator_statistics.get_category q1 q2 x
  = statistical_processor.get_category q1 q2 x /\
  In (statistical_processor.get_category q1 q2 x) ["小"; "中"; "大"] /\
  (fle x y = true ->
   (category_rank (statistical_processor.get_category q1 q2 x)
    <= category_rank (statistical_processor.get_category q1 q2 y))%nat).
Proof.
  split; [apply get_category_nan|]. split; [done|].
  split; [apply get_category_values | apply get_category_rank_mono].
Qed.

(** X14: on a statistics table whose mean column holds floats,
    [classify_indicators] changes no column other than
    [Volatility_Category]; with a method other than percentile and absolute
    it returns the table as it is; with one of the two it writes one
    category for each row, each of them 小, 中 or 大, where a missing mean
    gets 大 and of two rows the one with the greater mean never gets the
    smaller category. *)
Theorem classify_indicators_table L category_thresholds target_column
    (stats_df : DataFrame) method means :
  df_get (target_column +:+ "_mean") stats_df = Some (float64 means) ->
  let result :=
    statistical_processor.classify_indicators L category_thresholds target_column
      stats_df method in
  (forall c, c <> "Volatility_Category" -> df_get c result = df_get c stats_df) /\
  (method <> "percentile" -> method <> "absolute" -> result = stats_df) /\
  (method = "percentile" \/ method = "absolute" ->
   exists categories,
     df_get "Volatility_Category" result = Some (object (map PyStr categories)) /\
     length categories = length means /\
     Forall (fun category => In category ["小"; "中"; "大"]) categories /\
     (forall i x, means !! i = Some x -> isnan x = true -> categories !! i = Some "大") /\
     (forall i j x y ci cj,
        means !! i = Some x -> means !! j = Some y ->
        categories !! i = Some ci -> categories !! j = Some cj ->
        fle x y = true -> (category_rank ci <= category_rank cj)%nat)).
Proof.
  intros Hget result. subst result. unfold statistical_processor.classify_indicators.
  rewrite Hget. cbn [numeric_values].
  assert (Hcls : forall q1 q2,
    (forall c, c <> "Volatility_Category" ->
       df_get c (df_set "Volatility_Category"
                   (object (map (fun x => PyStr (statistical_processor.get_category q1 q2 x))
                              means)) stats_df) = df_get c stats_df) /\
    exists categories,
      df_get "Volatility_Category"
        (df_set "Volatility_Category"
           (object (map (fun x => PyStr (statistical_processor.get_category q1 q2 x)) means))
           stats_df) = Some (object (map PyStr categories)) /\
      length categories = length means /\
      Forall (fun category => In category ["小"; "中"; "大"]) categories /\
      (forall i x, means !! i = Some x -> isnan x = true -> categories !! i = Some "大") /\
      (forall i j x y ci cj,
         means !! i = Some x -> means !! j = Some y ->
         categories !! i = Some ci -> categories !! j = Some cj ->
         fle x y = true -> (category_rank ci <= category_rank cj)%nat)).
  { intros q1 q2. split.
    { intros c Hc. apply df_get_set_ne. congruence. }
    exists (map (statistical_processor.get_category q1 q2) means).
    split; [by rewrite df_get_set_eq, map_map|].
    split; [by rewrite length_map|].
    split.
    { apply Forall_forall. intros c Hc. apply list_elem_of_In, in_map_iff in Hc as (x & <- & _).
      apply get_category_values. }
    split.
    { intros i x Hx Hn. change (map ?f ?l) with (f <$> l). rewrite list_lookup_fmap, Hx.
      by destruct x. }
    intros i j x y ci cj Hx Hy. change (map ?f ?l) with (f <$> l).
    rewrite !list_lookup_fmap, Hx, Hy. simpl. intros [= <-] [= <-] Hle.
    by apply get_category_rank_mono. }
  destruct (String.eqb_spec method "percentile") as [->|Hp].
  { destruct category_thresholds as [[q1 q2]|].
    - destruct (Hcls q1 q2) as [H1 H2]. split; [done|]. split; [done|]. by intros _.
    - destruct (Hcls (lib_quantile L means 0.33) (lib_quantile L means 0.67)) as [H1 H2].
      split; [done|]. split; [done|]. by intros _. }
  destruct (String.eqb_spec method "absolute") as [->|Ha].
  { destruct category_thresholds as [[q1 q2]|].
    - destruct (Hcls q1 q2) as [H1 H2]. split; [done|]. split; [done|]. by intros _.
    - destruct (Hcls (Fin 0.0005) (Fin 0.001)) as [H1 H2].
      split; [done|]. split; [done|]. by intros _. }
  split; [done|]. split; [done|]. by intros [?|?].
Qed.

Lemma classify_indicators_table_witness :
  df_get "EventName"
    (statistical_processor.classify_indicators null_library (Some (Fin 1, Fin 2))
       "post_15min_price_movement" mean_table "absolute")
  = df_get "EventName" mean_table /\
  exists categories,
    df_get "Volatility_Category"
      (statistical_processor.classify_indicators null_library (Some (Fin 1, Fin 2))
         "post_15min_price_movement" mean_table "absolute")
    = Some (object (map PyStr categories)) /\
    length categories = 5%nat.
Proof.
  pose proof (classify_indicators_table null_library
                (Some (Fin 1, Fin 2)) "post_15min_price_movement" mean_table "absolute"
                [Fin 0.5; Fin 1; Fin 1.5; Fin 2; Fin 2.5]) as H.
  cbv zeta in H.
  destruct H as (Hkeep & _ & Hcat); [reflexivity|].
  split.
  - apply Hkeep. discriminate.
  - destruct Hcat as (categories & H1 & H2 & _); [by right|].
    exists categories. split; [exact H1 | exact H2].
Defined.

(** ** detect_outliers *)

Import outliers.

Lemma map_const_lookup {A B} (b : B) (l : list A) i x :
  l !! i = Some x -> map (fun _ => b) l !! i = Some b.
Proof. intros H. change (map ?f ?l) with (f <$> l). by rewrite list_lookup_fmap, H. Qed.

(** X16: [detect_outliers] returns one flag for each entry of the
    series; a missing entry is never flagged; and nothing at all is
    flagged when fewer than four entries are present, when the method is
    neither iqr nor zscore, or when the method is zscore and the standard
    deviation is zero. *)
Theorem detect_outliers_flags L std (data_series : list float) method threshold :
  let flags := detect_outliers L std data_series method threshold in
  length flags = length data_series /\
  (forall i, data_series !! i = Some NaN -> flags !! i = Some false) /\
  ((length (dropna_floats data_series) < 4)%nat \/
   (method <> "iqr" /\ method <> "zscore") \/
   (method = "zscore" /\ feqb (std (dropna_floats data_series)) (Fin 0) = true) ->
   flags = map (fun _ => false) data_series).
Proof.
  intros flags. subst flags. unfold detect_outliers.
  destruct (length (dropna_floats data_series) <? 4)%nat eqn:Hlen.
  { split; [by rewrite length_map|]. split; [|done]. intros i. apply map_const_lookup. }
  apply Nat.ltb_ge in Hlen.
  destruct (String.eqb_spec method "iqr") as [->|Hiqr].
  { split; [by rewrite length_map|]. split.
    - intros i Hi. change (map ?f ?l) with (f <$> l). rewrite list_lookup_fmap, Hi.
      cbn [option_map fmap option_fmap]. f_equal.
      match goal with |- context [flt ?u NaN] => by destruct u end.
    - intros [H|[[H _]|[H _]]]; [lia|done|done]. }
  destruct (String.eqb_spec method "zscore") as [->|Hz].
  { destruct (feqb (std (dropna_floats data_series)) (Fin 0)) eqn:Estd.
    { split; [by rewrite length_map|]. split; [|done]. intros i. apply map_const_lookup. }
    split; [by rewrite length_map|]. split.
    - intros i Hi. change (map ?f ?l) with (f <$> l). rewrite list_lookup_fmap, Hi.
      cbn [option_map fmap option_fmap]. f_equal.
      change (fsub NaN ?m) with NaN. change (fdiv NaN ?s) with NaN.
      by destruct threshold.
    - intros [H|[[_ H]|[_ H]]]; [lia|done|done]. }
  split; [by rewrite length_map|]. split; [|done]. intros i. apply map_const_lookup.
Qed.

(** X17: with four values or more, quartiles q1 <= q3 and a threshold
    that is not negative, the iqr method never flags an entry between the
    quartiles, both included, and its flags are monotone outside them: when
    an entry at or above q3 is flagged, every entry at least as large is
    flagged, and when an entry at or below q1 is flagged, every entry at
    most as large is flagged. *)
Theorem detect_outliers_monotone L std (data_series : list float) (t a b : Q) :
  (4 <= length (dropna_floats data_series))%nat -> (0 <= t)%Q ->
  lib_quantile L (dropna_floats data_series) 0.25 = Fin a ->
  lib_quantile L (dropna_floats data_series) 0.75 = Fin b ->
  (a <= b)%Q ->
  let flags := detect_outliers L std data_series "iqr" (Fin t) in
  forall i x, data_series !! i = Some (Fin x) ->
    ((a <= x <= b)%Q -> flags !! i = Some false) /\
    (flags !! i = Some true ->
     forall j y, data_series !! j = Some (Fin y) ->
       ((b <= x)%Q -> (x <= y)%Q -> flags !! j = Some true) /\
       ((x <= a)%Q -> (y <= x)%Q -> flags !! j = Some true)).
Proof.
  intros Hlen Ht Ha Hb Hab flags.
  assert (Hflag : forall i x, data_series !! i = Some (Fin x) ->
    flags !! i = Some (flt (Fin x) (Fin (a - t * (b - a))) ||
                       flt (Fin (b + t * (b - a))) (Fin x))%bool).
  { intros i x Hx. subst flags. unfold detect_outliers.
    rewrite (proj2 (Nat.ltb_ge _ _)) by lia. cbn [String.eqb Ascii.eqb Bool.eqb andb].
    rewrite Ha, Hb. change (map ?f ?l) with (f <$> l). by rewrite list_lookup_fmap, Hx. }
  intros i x Hx. rewrite (Hflag i x Hx). split.
  - intros [H1 H2]. f_equal. apply orb_false_iff. split; apply flt_Fin_false; nra.
  - intros [= H] j y Hy. rewrite (Hflag j y Hy).
    apply orb_true_iff in H as [H|H]; apply flt_Fin in H.
    + split.
      * intros Hbx Hxy. exfalso. nra.
      * intros Hxa Hyx. f_equal. apply orb_true_iff. left. apply flt_Fin. lra.
    + split.
      * intros Hbx Hxy. f_equal. apply orb_true_iff. right. apply flt_Fin. lra.
      * intros Hxa Hyx. exfalso. nra.
Qed.

Lemma detect_outliers_monotone_witness :
  detect_outliers quartile_library (fun _ => Fin 1) [Fin 1; Fin 2; Fin 3; Fin 4; Fin 100]
    "iqr" (Fin 1.5) !! 2%nat = Some false /\
  detect_outliers quartile_library (fun _ => Fin 1) [Fin 1; Fin 2; Fin 3; Fin 4; Fin 100]
    "iqr" (Fin 1.5) !! 4%nat = Some true.
Proof.
  pose proof (detect_outliers_monotone quartile_library (fun _ => Fin 1)
                [Fin 1; Fin 2; Fin 3; Fin 4; Fin 100] 1.5%Q 2%Q 4%Q) as H.
  cbv zeta in H.
  split.
  - apply (proj1 (H ltac:(vm_compute; lia) ltac:(discriminate) eq_refl eq_refl
                    ltac:(discriminate) 2%nat 3%Q eq_refl)).
    split; discriminate.
  - reflexivity.
Defined.

(** ** The label of the range of an hour *)

(** X18: [get_time_range] gives no label exactly to the hours
    below 0 and from 24 on, and to every other hour the label that
    [calculate_intraday_volatility.py] writes for the range that contains
    the hour: the two tables are merged on labels that agree. *)
Theorem get_time_range_label (hour : Z) :
  (merge_indicators_with_volatility.get_time_range hour = None <-> hour < 0 \/ 24 <= hour) /\
  (forall range,
     In range calculate_intraday_volatility.JST_TIME_RANGES ->
     range.1 <= hour < range.2 ->
     merge_indicators_with_volatility.get_time_range hour
     = Some (intraday_volatility.TimeRange_JST range)).
Proof.
  split.
  - split.
    + intros Hnone.
      destruct (Z_lt_dec hour 0) as [?|Hge]; [by left|].
      destruct (Z_le_dec 24 hour) as [?|Hlt]; [by right|]. exfalso.
      assert (Hh : 0 <= hour < 24) by lia.
      destruct (hour_cases hour Hh) as
        [->|[->|[->|[->|[->|[->|[->|[->|[->|[->|[->|[->|[->|[->|[->|[->|[->|[->|[->|[->|[->|[->|[->| ->]]]]]]]]]]]]]]]]]]]]]]];
        discriminate Hnone.
    + unfold merge_indicators_with_volatility.get_time_range,
        merge_indicators_with_volatility.jst_time_ranges,
        merge_indicators_with_volatility.first_range.
      intros [Hneg|Hbig].
      * by rewrite !(proj2 (Z.leb_gt _ hour)) by lia.
      * rewrite !(proj2 (Z.ltb_ge hour _)) by lia. by rewrite !andb_false_r.
  - intros range Hin Hh.
    assert (Hh' : 0 <= hour < 24).
    { simpl in Hin. destruct Hin as [<-|[<-|[<-|[<-|[<-|[<-|[<-|[]]]]]]]]; simpl in Hh; lia. }
    simpl in Hin.
    destruct (hour_cases hour Hh') as
      [->|[->|[->|[->|[->|[->|[->|[->|[->|[->|[->|[->|[->|[->|[->|[->|[->|[->|[->|[->|[->|[->|[->| ->]]]]]]]]]]]]]]]]]]]]]]];
      destruct Hin as [<-|[<-|[<-|[<-|[<-|[<-|[<-|[]]]]]]]]; simpl in Hh;
      (lia || reflexivity).
Qed.

(** ** Intraday movement and fixed-window volatility over the same legs *)

Lemma fle_fsub_mono a b a' b' :
  fle a a' = true -> fle b' b = true -> fle b a = true -> isnan (fsub a b) = false ->
  fle (fsub a b) (fsub a' b') = true.
Proof.
  destruct a as [a| | |], b as [b| | |], a' as [c| | |], b' as [d| | |];
    intros H1 H2 H3 H4; simpl in *; try done.
  apply Qle_bool_iff in H1, H2. apply Qle_bool_iff. lra.
Qed.

Lemma dropna_floats_app xs ys :
  dropna_floats (xs ++ ys) = dropna_floats xs ++ dropna_floats ys.
Proof. unfold dropna_floats. apply List.filter_app. Qed.

Lemma dropna_floats_idem xs : dropna_floats (dropna_floats xs) = dropna_floats xs.
Proof.
  unfold dropna_floats. induction xs as [|x xs IH]; simpl; [done|].
  destruct (negb (isnan x)) eqn:E; simpl; [rewrite E; by f_equal | done].
Qed.

Lemma series_max_dropna xs : series_max (dropna_floats xs) = series_max xs.
Proof. unfold series_max. by rewrite dropna_floats_idem. Qed.

Lemma series_min_dropna xs : series_min (dropna_floats xs) = series_min xs.
Proof. unfold series_min. by rewrite dropna_floats_idem. Qed.

(** X19: over the legs that [DataProcessor] selects for a date
    and a window, the price movement that
    [calculate_intraday_volatility.py] computes, the high minus the low
    over start and end prices together, is never NaN and never smaller
    than the fixed-window volatility when the latter is a number. *)
Theorem intraday_movement_covers_fixed_window (zigzag_df : DataFrame)
    (start_time_jst : list (option Z)) (date_val : option Z) (window : Z * Z)
    volatility price_movement max_high min_low :
  data_processor.window_volatility zigzag_df start_time_jst date_val window
  = Some volatility ->
  intraday_volatility.range_statistics
    (df_filter (data_processor.window_mask start_time_jst date_val window) zigzag_df)
  = Some (price_movement, max_high, min_low) ->
  (isnan volatility = false ->
   isnan price_movement = false /\ fle volatility price_movement = true) /\
  price_movement = fsub max_high min_low.
Proof.
  unfold data_processor.window_volatility, intraday_volatility.range_statistics.
  set (window_data := df_filter _ zigzag_df).
  destruct (df_len window_data =? 0)%nat.
  { intros [= <-] [= <- <- <-]. done. }
  destruct (df_get "start_price" window_data ≫= numeric_values) as [sp|];
    cbn [mbind option_bind]; [|done].
  intros [= <-].
  destruct (df_get "end_price" window_data ≫= numeric_values) as [ep|];
    cbn [mbind option_bind]; [|done].
  destruct (dropna_floats (sp ++ ep)) as [|p ps] eqn:Ed.
  { intros [= <- <- <-]. split; [|done]. intros Hn. exfalso.
    rewrite dropna_floats_app in Ed. apply app_eq_nil in Ed as [Ed _].
    unfold series_max in Hn. by rewrite Ed in Hn. }
  intros [= <- <- <-]. split; [|done]. rewrite <- Ed.
  rewrite series_max_dropna, series_min_dropna.
  intros Hn.
  assert (Hex : exists x, In x sp /\ isnan x = false).
  { destruct (dropna_floats sp) as [|x xs] eqn:Es.
    - unfold series_max in Hn. by rewrite Es in Hn.
    - exists x. apply dropna_floats_In. rewrite Es. by left. }
  destruct Hex as (x & Hx & Hxn).
  destruct (series_max_spec sp x Hx Hxn) as (Hmi & Hmn & _).
  destruct (series_min_spec sp x Hx Hxn) as (Hni & Hnn & _).
  assert (Hx' : In x (sp ++ ep)) by (apply in_or_app; by left).
  destruct (series_max_spec (sp ++ ep) x Hx' Hxn) as (_ & _ & Hmax).
  destruct (series_min_spec (sp ++ ep) x Hx' Hxn) as (_ & _ & Hmin).
  assert (H1 : fle (series_max sp) (series_max (sp ++ ep)) = true).
  { apply Hmax; [apply in_or_app; by left | done]. }
  assert (H2 : fle (series_min (sp ++ ep)) (series_min sp) = true).
  { apply Hmin; [apply in_or_app; by left | done]. }
  assert (H3 : fle (series_min sp) (series_max sp) = true).
  { destruct (series_max_spec sp x Hx Hxn) as (_ & _ & Hmax').
    by apply Hmax'. }
  pose proof (fle_fsub_mono _ _ _ _ H1 H2 H3 Hn) as Hle.
  split; [|done]. by apply fle_notnan_r in Hle.
Qed.

Lemma intraday_movement_covers_fixed_window_witness :
  Fin 7 = fsub (Fin 1805) (Fin 1798).
Proof.
  refine (proj2 (intraday_movement_covers_fixed_window one_day_pivots
                   [Some 111600000000000; Some 115200000000000; Some 122400000000000]
                   (Some 1) (7, 9) (Fin 5) (Fin 7) (Fin 1805) (Fin 1798) _ _)).
  - reflexivity.
  - reflexivity.
Defined.

(** ** One row for each day *)

Lemma same_date_eq a b : data_processor.same_date a b = true <-> a = b.
Proof.
  destruct a as [a|], b as [b|]; simpl; try (split; done).
  rewrite Z.eqb_eq. split; [by intros -> | by intros [= ->]].
Qed.

Lemma unique_acc_spec (l acc : list (option Z)) :
  NoDup acc ->
  let r := fold_left (fun acc x => if existsb (data_processor.same_date x) acc
                                   then acc else acc ++ [x]) l acc in
  NoDup r /\ forall x, In x r -> In x acc \/ In x l.
Proof.
  revert acc. induction l as [|y l IH]; intros acc Hnd; simpl.
  - split; [done|tauto].
  - destruct (existsb (data_processor.same_date y) acc) eqn:E.
    + destruct (IH acc Hnd) as [H1 H2]. split; [done|].
      intros x Hx. destruct (H2 x Hx); tauto.
    + assert (Hnot : ~ In y acc).
      { intros Hin.
        assert (Ht : existsb (data_processor.same_date y) acc = true); [|congruence].
        apply existsb_exists. exists y. split; [done|]. by apply same_date_eq. }
      destruct (IH (acc ++ [y])) as [H1 H2].
      { apply NoDup_app. split; [done|]. split; [|apply NoDup_singleton].
        intros x Hx Hx'. apply list_elem_of_In in Hx. apply list_elem_of_singleton in Hx'.
        by subst. }
      split; [done|]. intros x Hx. destruct (H2 x Hx) as [H|H]; [|tauto].
      apply in_app_or in H as [H|[<-|[]]]; tauto.
Qed.

(** X21: on a table of legs whose start prices are numbers, the daily
    fixed-window calculation succeeds and its table has one row for each
    date on which a leg starts and, when a leg has no start time, one row
    dated NaT, and no other row; no date comes twice, and every row has the
    seven volatility columns, in the order of the windows. *)
Theorem daily_volatility_one_row_per_date L df start_time_jst ts sp prices :
  df_wf df ->
  df_get "start_time_jst" df = Some start_time_jst ->
  to_datetime L start_time_jst = Some ts -> length ts = df_len df ->
  df_get "start_price" df = Some sp -> numeric_values sp = Some prices ->
  exists rows,
    snd <$> data_processor._calculate_daily_fixed_window_volatility L (Some df) = Some rows /\
    NoDup (map data_processor.Date rows) /\
    (forall date_val, In (Some date_val) (map data_processor.Date rows) <->
                      exists t, In (Some t) ts /\ data_processor.date_of t = date_val) /\
    (In None (map data_processor.Date rows) <-> In None ts) /\
    Forall (fun row => map fst (data_processor.volatility row)
                       = map data_processor.col_name data_processor.FIXED_TIME_WINDOWS_JST)
      rows.
Proof.
  intros Hwf Hts Hto Hlen Hsp Hnum.
  rewrite (daily_fixed_window_volatility_rows L df start_time_jst ts sp prices
             Hwf Hts Hto Hlen Hsp Hnum).
  eexists. split; [reflexivity|].
  rewrite map_map. cbn [data_processor.Date]. rewrite map_id.
  destruct (unique_acc_spec (data_processor.dates_of ts) [] (NoDup_nil_2 (A:=option Z)))
    as [Hnd Hin].
  assert (Hiff : forall d, In d (data_processor.unique (data_processor.dates_of ts))
                           <-> In d (data_processor.dates_of ts)).
  { intros d. split; [|apply unique_In]. intros Hd. by destruct (Hin d Hd) as [[]|H]. }
  split; [exact Hnd|]. split; [|split].
  - intros d. rewrite Hiff. unfold data_processor.dates_of. rewrite in_map_iff. split.
    + intros ([t|] & [= <-] & Ht). by exists t.
    + intros (t & Ht & <-). by exists (Some t).
  - rewrite Hiff. unfold data_processor.dates_of. rewrite in_map_iff. split.
    + by intros ([t|] & [= ] & Ht).
    + intros H. by exists None.
  - apply Forall_forall. intros row Hrow.
    apply list_elem_of_In, in_map_iff in Hrow as (d & <- & _).
    cbn [data_processor.volatility]. rewrite map_map. by apply map_ext.
Qed.

Lemma daily_volatility_one_row_per_date_witness :
  exists rows,
    snd <$> data_processor._calculate_daily_fixed_window_volatility null_library
              (Some pivots_with_NaT) = Some rows /\
    NoDup (map data_processor.Date rows) /\
    In None (map data_processor.Date rows).
Proof.
  destruct (daily_volatility_one_row_per_date null_library pivots_with_NaT
              (datetime64 [Some 111600000000000; None; Some 115200000000000])
              [Some 111600000000000; None; Some 115200000000000]
              (float64 [Fin 1800; Fin 1700; Fin 1805]) [Fin 1800; Fin 1700; Fin 1805])
    as (rows & H1 & H2 & _ & H3 & _).
  - repeat constructor.
  - reflexivity.
  - reflexivity.
  - reflexivity.
  - reflexivity.
  - reflexivity.
  - exists rows. split; [exact H1|]. split; [exact H2|].
    apply H3. right. by left.
Defined.

(** ** Longer windows, larger movements *)

Lemma calculate_price_movement_num_inv L w pm :
  calculate_price_movement L w !! "price_movement" = Some (PyNum pm) ->
  (2 <= df_len w)%nat /\
  exists price_col rest prices,
    price_cols w = price_col :: rest /\
    df_get price_col w ≫= numeric_values = Some prices /\
    pm = fsub (series_max prices) (series_min prices).
Proof.
  unfold calculate_price_movement.
  destruct (df_len w <? 2)%nat eqn:Hlen; [done|]. apply Nat.ltb_ge in Hlen.
  destruct (price_cols w) as [|price_col rest] eqn:Hpc; [done|].
  destruct (df_get price_col w ≫= numeric_values) as [prices|] eqn:Hnum; [|done].
  match goal with |- context [match ?x with Some _ => _ | None => _ end] =>
    destruct x as [sorted_prices|] end; [|done].
  destruct (head sorted_prices); [|done]. destruct (last sorted_prices); [|done].
  unfold dict_of. rewrite list_to_map_cons, lookup_insert_eq.
  intros [= <-]. split; [done|]. by exists price_col, rest, prices.
Qed.

Lemma filter_mask_In {A} mask (l : list A) x : In x (filter_mask mask l) -> In x l.
Proof.
  revert l. induction mask as [|b mask IH]; intros [|y l]; simpl; try done.
  destruct b; simpl; [intros [->|H]; [by left | right; by apply IH] | right; by apply IH].
Qed.

(** The movement of a part of a window is at most that of the window. *)
Lemma price_movement_of_part L mask outer pm_in pm_out :
  calculate_price_movement L (df_filter mask outer) !! "price_movement" = Some (PyNum pm_in) ->
  calculate_price_movement L outer !! "price_movement" = Some (PyNum pm_out) ->
  isnan pm_in = false -> fle pm_in pm_out = true.
Proof.
  intros Hin Hout Hn.
  apply calculate_price_movement_num_inv in Hin as (_ & pc & rest & prices_in & Hpc & Hnum & ->).
  apply calculate_price_movement_num_inv in Hout
    as (_ & pc' & rest' & prices_out & Hpc' & Hnum' & ->).
  unfold price_cols in Hpc. rewrite columns_filter in Hpc. fold (price_cols outer) in Hpc.
  rewrite Hpc' in Hpc. injection Hpc as <- <-.
  rewrite df_get_filter in Hnum.
  destruct (df_get pc' outer) as [col|]; [|done]. simpl in Hnum, Hnum'.
  rewrite (numeric_values_filter mask _ _ Hnum') in Hnum. injection Hnum as <-.
  assert (Hex : exists x, In x (filter_mask mask prices_out) /\ isnan x = false).
  { destruct (dropna_floats (filter_mask mask prices_out)) as [|x xs] eqn:Es.
    - unfold series_max in Hn. by rewrite Es in Hn.
    - exists x. apply dropna_floats_In. rewrite Es. by left. }
  destruct Hex as (x & Hx & Hxn).
  pose proof (filter_mask_In _ _ _ Hx) as Hx'.
  destruct (series_max_spec _ x Hx Hxn) as (Hmi & Hmn & Hmax_in).
  destruct (series_min_spec _ x Hx Hxn) as (Hni & Hnn & Hmin_in).
  destruct (series_max_spec _ x Hx' Hxn) as (_ & _ & Hmax).
  destruct (series_min_spec _ x Hx' Hxn) as (_ & _ & Hmin).
  apply fle_fsub_mono.
  - apply Hmax; [by apply (filter_mask_In mask) | done].
  - apply Hmin; [by apply (filter_mask_In mask) | done].
  - by apply Hmax_in.
  - done.
Qed.

Lemma sortable_datetime64 ts : sortable (datetime64 ts) = true.
Proof.
  unfold sortable. simpl.
  destruct (List.filter _ _) as [|v vs] eqn:E; [done|].
  assert (Hall : Forall (fun v => kind v = 3%nat)
                   (List.filter (fun v => negb (is_missing v)) (map PyTime ts))).
  { apply Forall_forall. intros w Hw. apply list_elem_of_In, filter_In in Hw as [Hw _].
    apply in_map_iff in Hw as (u & <- & _). done. }
  rewrite E in Hall. inversion Hall as [|? ? Hv Hvs]; subst.
  apply forallb_forall. intros w Hw. rewrite Hv.
  rewrite Forall_forall in Hvs. rewrite (Hvs w); [done|]. by apply list_elem_of_In.
Qed.

Lemma df_wf_filter mask df : df_wf df -> df_wf (df_filter mask df).
Proof.
  intros Hwf. destruct df as [|[c0 s0] df]; [done|].
  unfold df_wf in *. rewrite Forall_forall in Hwf. apply Forall_forall.
  intros [c s] Hin. apply list_elem_of_In, in_map_iff in Hin as ([c' s'] & [= <- <-] & Hin).
  simpl. unfold series_len. rewrite !series_cells_filter.
  apply filter_mask_length.
  specialize (Hwf (c', s') (proj2 (list_elem_of_In _ _) Hin)).
  simpl in Hwf. unfold series_len in Hwf. exact Hwf.
Qed.

(** On a table whose time column holds timestamps and whose price column
    holds floats, the movement of a window of two rows or more is a
    float. *)
Lemma price_movement_of_window L df mask time_col time_rest ts price_col price_rest prices :
  df_wf df ->
  time_cols df = time_col :: time_rest -> df_get time_col df = Some (datetime64 ts) ->
  price_cols df = price_col :: price_rest -> df_get price_col df = Some (float64 prices) ->
  (2 <= df_len (df_filter mask df))%nat ->
  exists pm, calculate_price_movement L (df_filter mask df) !! "price_movement"
             = Some (PyNum pm).
Proof.
  intros Hwf Htc Htime Hpc Hprice Hlen.
  destruct (calculate_price_movement_numeric L (df_filter mask df) price_col price_rest
              (filter_mask mask prices)) as (sp & ep & ->).
  - by apply df_wf_filter.
  - done.
  - unfold price_cols. rewrite columns_filter. exact Hpc.
  - by rewrite df_get_filter, Hprice.
  - intros c s Hc Hs. unfold time_cols in Hc. rewrite columns_filter in Hc.
    fold (time_cols df) in Hc. rewrite Htc in Hc. injection Hc as <-.
    rewrite df_get_filter, Htime in Hs. injection Hs as <-. apply sortable_datetime64.
  - by eexists.
Qed.

(** X9: on a pivot table whose first time column holds timestamps and
    whose first price column holds floats, of two windows after the same
    announcement the longer never reports a smaller price movement.  When
    the window of m1 minutes is valid, so is the window of m2 >= m1
    minutes, [analyze_post_event] records a float as the price movement of
    each, and the first, when it is not NaN, is at most the second.  The
    announcement and the ends of the windows are timestamps of the years
    1970 to 2261. *)
Theorem price_movement_grows_with_window L post_windows indicator_row zigzag_df
    time_col time_rest ts price_col price_rest prices (event_time m1 m2 : Z) :
  df_wf zigzag_df ->
  time_cols zigzag_df = time_col :: time_rest ->
  df_get time_col zigzag_df = Some (datetime64 ts) ->
  price_cols zigzag_df = price_col :: price_rest ->
  df_get price_col zigzag_df = Some (float64 prices) ->
  event_time_of L indicator_row = EventTime (Some event_time) ->
  in_range event_time ->
  (forall m, In m post_windows -> in_range (event_time + m * 60000000000)) ->
  In m1 post_windows -> In m2 post_windows -> m1 <= m2 ->
  let results := (analyze_post_event L post_windows indicator_row zigzag_df).2 in
  results !! (window_key m1 +:+ "_valid") = Some (PyBool true) ->
  results !! (window_key m2 +:+ "_valid") = Some (PyBool true) /\
  exists pm1 pm2,
    results !! (window_key m1 +:+ "_price_movement") = Some (PyNum pm1) /\
    results !! (window_key m2 +:+ "_price_movement") = Some (PyNum pm2) /\
    (isnan pm1 = false -> fle pm1 pm2 = true).
Proof.
  intros Hwf Htc Htime Hpc Hprice Het _ _ Hm1 Hm2 Hle results Hvalid. subst results.
  unfold analyze_post_event in *. rewrite Het in *.
  assert (Hq : forall m,
    (df_len (extract_zigzag_window L zigzag_df (Some event_time)
               (add_minutes (Some event_time) m)).2 < 2)%nat ->
    dict_of [("post_event_valid", PyBool true)] !! (window_key m +:+ "_legs") = None /\
    dict_of [("post_event_valid", PyBool true)] !! (window_key m +:+ "_price_movement") = None).
  { intros m _.
    change (dict_of [("post_event_valid", PyBool true)])
      with (<["post_event_valid" := PyBool true]> (∅ : dict)).
    split; (rewrite lookup_insert_ne; [done|]).
    + intros H. by apply (window_key_entry_not_flag m "legs").
    + intros H. by apply (window_key_entry_not_flag m "price_movement"). }
  assert (Hwin : forall m,
    (extract_zigzag_window L zigzag_df (Some event_time) (add_minutes (Some event_time) m)).2
    = df_filter (map (in_window (Some event_time) (Some (event_time + m * 60000000000))) ts)
        zigzag_df).
  { intros m. unfold extract_zigzag_window. by rewrite Htc, Htime. }
  pose proof (post_event_loop_entries L (Some event_time) post_windows zigzag_df zigzag_df
                _ (or_introl eq_refl) Hq) as Hentries.
  set (r := (fold_left (post_event_step L (Some event_time)) post_windows
               (zigzag_df, dict_of [("post_event_valid", PyBool true)])).2) in *.
  set (w1 := df_filter (map (in_window (Some event_time)
                              (Some (event_time + m1 * 60000000000))) ts) zigzag_df).
  set (w2 := df_filter (map (in_window (Some event_time)
                              (Some (event_time + m2 * 60000000000))) ts) zigzag_df).
  destruct (Hentries m1 Hm1) as (_ & Hv1 & _ & Hval1). rewrite Hwin in Hv1, Hval1.
  destruct (Hentries m2 Hm2) as (_ & Hv2 & _ & Hval2). rewrite Hwin in Hv2, Hval2.
  fold w1 in Hv1, Hval1. fold w2 in Hv2, Hval2.
  assert (Hlen1 : (2 <= df_len w1)%nat).
  { rewrite Hvalid in Hv1. injection Hv1 as Hv1. symmetry in Hv1. by apply Nat.leb_le. }
  assert (Hpart : exists mask, w1 = df_filter mask w2).
  { eexists. symmetry. apply df_filter_nested.
    intros [t|]; simpl; [|done]. rewrite !andb_true_iff, !Z.leb_le. lia. }
  destruct Hpart as [mask Hmask].
  assert (Hlen2 : (2 <= df_len w2)%nat).
  { pose proof (df_len_filter_le mask w2) as H. rewrite <- Hmask in H. lia. }
  split.
  { rewrite Hv2. by rewrite (proj2 (Nat.leb_le _ _) Hlen2). }
  destruct (price_movement_of_window L zigzag_df _ _ _ _ _ _ _
              Hwf Htc Htime Hpc Hprice Hlen1) as [pm1 Hpm1].
  destruct (price_movement_of_window L zigzag_df _ _ _ _ _ _ _
              Hwf Htc Htime Hpc Hprice Hlen2) as [pm2 Hpm2].
  fold w1 in Hpm1. fold w2 in Hpm2.
  assert (Hspeed : forall w, calculate_movement_speed L w !! "price_movement" = None).
  { intros w. destruct (calculate_movement_speed L w !! "price_movement") as [u|] eqn:E; [|done].
    apply calculate_movement_speed_keys in E. simpl in E.
    repeat (destruct E as [E|E]; try done). }
  exists pm1, pm2. split; [|split].
  - destruct (Hval1 Hlen1) as [_ Hk].
    apply (Hk "price_movement"). by rewrite lookup_union_r.
  - destruct (Hval2 Hlen2) as [_ Hk].
    apply (Hk "price_movement"). by rewrite lookup_union_r.
  - intros Hn. rewrite Hmask in Hpm1.
    by apply (price_movement_of_part L mask w2 pm1 pm2).
Qed.

Lemma price_movement_grows_with_window_witness :
  (analyze_post_event null_library [3; 5] scenario_indicator scenario_pivots).2
    !! "post_5min_valid" = Some (PyBool true) /\
  exists pm1 pm2,
    (analyze_post_event null_library [3; 5] scenario_indicator scenario_pivots).2
      !! "post_3min_price_movement" = Some (PyNum pm1) /\
    (analyze_post_event null_library [3; 5] scenario_indicator scenario_pivots).2
      !! "post_5min_price_movement" = Some (PyNum pm2) /\
    (isnan pm1 = false -> fle pm1 pm2 = true).
Proof.
  refine (price_movement_grows_with_window null_library [3; 5] scenario_indicator
            scenario_pivots "start_time_dt" []
            [Some 32400000000000; Some 32520000000000; Some 32640000000000]
            "price" [] [Fin 1800; Fin 1805; Fin 1798] 32400000000000 3 5
            _ _ _ _ _ _ _ _ _ _ _ _).
  - repeat constructor.
  - reflexivity.
  - reflexivity.
  - reflexivity.
  - reflexivity.
  - reflexivity.
  - unfold in_range. lia.
  - intros m [<-|[<-|[]]]; unfold in_range; lia.
  - simpl. tauto.
  - simpl. tauto.
  - lia.
  - vm_compute. reflexivity.
Defined.

(** ** The fields of the indicator in its record *)

Ltac other_initial Hc :=
  let H := fresh in
  intros H; first [injection H as <- _ | symmetry in H; injection H as <- _ |
                   injection H as -> _ | symmetry in H; injection H as -> _];
  apply Hc; unfold analysis_initials; simpl; tauto.

Lemma calculate_price_movement_other_key L w c rest :
  ~ In c analysis_initials -> calculate_price_movement L w !! String c rest = None.
Proof.
  intros Hc. destruct (_ !! _) as [v|] eqn:E; [|done].
  apply calculate_price_movement_keys in E. exfalso. simpl in E.
  repeat (destruct E as [E|E]; [revert E; other_initial Hc|]). done.
Qed.

Lemma calculate_movement_speed_other_key L w c rest :
  ~ In c analysis_initials -> calculate_movement_speed L w !! String c rest = None.
Proof.
  intros Hc. destruct (_ !! _) as [v|] eqn:E; [|done].
  apply calculate_movement_speed_keys in E. exfalso. simpl in E.
  repeat (destruct E as [E|E]; [revert E; other_initial Hc|]). done.
Qed.

Lemma analyze_pre_event_other_key L pre_window indicator_row df c rest :
  ~ In c analysis_initials ->
  (analyze_pre_event L pre_window indicator_row df).2 !! String c rest = None.
Proof.
  intros Hc.
  assert (Hlit : forall items : list (string * pyval),
    Forall (fun kv => exists r, kv.1 = String "p" r \/ kv.1 = String "e" r) items ->
    dict_of items !! String c rest = None).
  { intros items Hit. unfold dict_of. apply not_elem_of_list_to_map_1.
    intros Hin. apply list_elem_of_fmap in Hin as ([k v] & Hk & Hkv). simpl in Hk. subst k.
    rewrite Forall_forall in Hit. destruct (Hit _ Hkv) as [r [H|H]]; simpl in H;
      injection H as -> _; apply Hc; unfold analysis_initials; simpl; tauto. }
  destruct (event_time_of L indicator_row) as [| |event_time] eqn:Het.
  - unfold analyze_pre_event. rewrite Het. apply Hlit.
    repeat constructor; eexists; simpl; eauto.
  - unfold analyze_pre_event. rewrite Het. apply Hlit.
    repeat constructor; eexists; simpl; eauto.
  - rewrite (analyze_pre_event_result _ _ _ _ _ Het). cbv zeta.
    destruct (df_len _ <? 2)%nat.
    { apply Hlit. repeat constructor; eexists; simpl; eauto. }
    assert (Hu : forall (a b base : dict), a !! String c rest = None ->
                   b !! String c rest = None -> base !! String c rest = None ->
                   (a ∪ (b ∪ base)) !! String c rest = None).
    { intros a b base Ha Hb Hbase. by rewrite !lookup_union_r. }
    destruct (2 <=? df_len _)%nat.
    + rewrite !lookup_insert_ne by (other_initial Hc).
      apply Hu; [by apply calculate_movement_speed_other_key
                |by apply calculate_price_movement_other_key|].
      apply Hlit. repeat constructor; eexists; simpl; eauto.
    + apply Hu; [by apply calculate_movement_speed_other_key
                |by apply calculate_price_movement_other_key|].
      apply Hlit. repeat constructor; eexists; simpl; eauto.
Qed.

Lemma analyze_post_event_other_key L post_windows indicator_row df c rest :
  ~ In c analysis_initials ->
  (analyze_post_event L post_windows indicator_row df).2 !! String c rest = None.
Proof.
  intros Hc. unfold analyze_post_event.
  assert (Hlit : forall v msg, dict_of [("post_event_valid", v); ("error", msg)]
                               !! String c rest = None).
  { intros v msg.
    change (dict_of [("post_event_valid", v); ("error", msg)])
      with (<["post_event_valid" := v]> (<["error" := msg]> (∅ : dict))).
    by rewrite !lookup_insert_ne by (other_initial Hc). }
  destruct (event_time_of L indicator_row) as [| |event_time]; [apply Hlit|apply Hlit|].
  rewrite post_event_loop_frame.
  - change (dict_of [("post_event_valid", PyBool true)])
      with (<["post_event_valid" := PyBool true]> (∅ : dict)).
    by rewrite lookup_insert_ne by (other_initial Hc).
  - intros m k _. unfold window_key. rewrite !string_app_assoc. other_initial Hc.
Qed.

Lemma calculate_ratios_other_key L post_windows pre_results post_results ratios c rest :
  ~ In c analysis_initials ->
  calculate_ratios L post_windows pre_results post_results = Some ratios ->
  ratios !! String c rest = None.
Proof.
  intros Hc. unfold calculate_ratios.
  assert (Hlit : forall v msg, dict_of [("ratios_valid", v); ("error", msg)]
                               !! String c rest = None).
  { intros v msg.
    change (dict_of [("ratios_valid", v); ("error", msg)])
      with (<["ratios_valid" := v]> (<["error" := msg]> (∅ : dict))).
    by rewrite !lookup_insert_ne by (other_initial Hc). }
  destruct (negb _); [intros [= <-]; apply Hlit|].
  destruct (negb _); [intros [= <-]; apply Hlit|].
  destruct (py_eq _ _); [intros [= <-]; apply Hlit|].
  destruct (for_each _ post_windows ∅) as [r1|] eqn:E; cbn [mbind option_bind]; [|done].
  intros [= <-]. rewrite lookup_insert_ne by (other_initial Hc).
  rewrite (proj1 (direction_loop_spec _ _ _ _)) by (intros n _; other_initial Hc).
  rewrite (ratio_loop_frame _ _ _ _ _ _ _ E); [done|].
  intros n _ _. split; other_initial Hc.
Qed.

(** X7: [analyze_indicator] always returns a record; the record
    holds every field of the indicator row; and a field whose name does
    not start with one of the letters the keys of the analysis start with
    (p, m, s, e, n, t, l, r, d), so every capitalised column such as
    [Currency] or [EventName], has in the record the value the row gives
    it. *)
Theorem analyze_indicator_keeps_fields L pre_window post_windows indicator_row zigzag_df :
  exists zigzag_df' r,
    analyze_indicator L pre_window post_windows indicator_row zigzag_df
    = Some (zigzag_df', r) /\
    (forall k, In k (map fst indicator_row) -> is_Some (r !! k)) /\
    (forall c rest, ~ In c analysis_initials ->
       r !! String c rest = row_get indicator_row (String c rest)).
Proof.
  destruct (analyze_indicator_record L pre_window post_windows indicator_row zigzag_df)
    as (df' & r & Hr & _ & _ & Hfields).
  exists df', r. split; [exact Hr|]. split; [exact Hfields|].
  intros c rest Hc. unfold analyze_indicator in Hr.
  pose proof (analyze_pre_event_other_key L pre_window indicator_row zigzag_df c rest Hc)
    as Hpre.
  destruct (analyze_pre_event L pre_window indicator_row zigzag_df) as [df1 pre_results].
  pose proof (analyze_post_event_other_key L post_windows indicator_row df1 c rest Hc)
    as Hpost.
  destruct (analyze_post_event L post_windows indicator_row df1) as [df2 post_results].
  simpl in Hpre, Hpost.
  match type of Hr with (mbind _ ?x) = _ =>
    assert (Hc' : forall combined, x = Some combined -> combined !! String c rest = None)
  end.
  { intros combined. destruct (_ && _)%bool.
    - destruct (calculate_ratios L post_windows pre_results post_results) as [ratios|] eqn:E;
        cbn [mbind option_bind]; [|done].
      intros [= <-].
      rewrite lookup_union_r by (by apply (calculate_ratios_other_key _ _ _ _ _ _ _ Hc E)).
      by rewrite lookup_union_r.
    - intros [= <-]. by rewrite lookup_union_r. }
  match type of Hr with (mbind _ ?x) = _ => destruct x as [combined|] end;
    cbn [mbind option_bind] in Hr; [|done].
  injection Hr as <- <-. rewrite add_row_fields_lookup. by rewrite (Hc' combined eq_refl).
Qed.

(** ** An indicator without a time *)

(** X10: an indicator row without [DateTime_UTC] and without
    any field whose lower-cased name contains 'time' is analysed without
    touching the pivot table: the record has [pre_event_valid] and
    [post_event_valid] false and the error 'No datetime column found', no
    ratios, and otherwise exactly the fields of the row. *)
Theorem analyze_indicator_without_time L pre_window post_windows indicator_row zigzag_df :
  row_get indicator_row "DateTime_UTC" = None ->
  (forall col, In col (map fst indicator_row) ->
     contains "datetime" (lower col) = false /\ contains "time" (lower col) = false) ->
  exists r,
    analyze_indicator L pre_window post_windows indicator_row zigzag_df
    = Some (zigzag_df, r) /\
    r !! "pre_event_valid" = Some (PyBool false) /\
    r !! "post_event_valid" = Some (PyBool false) /\
    r !! "error" = Some (PyStr "No datetime column found") /\
    r !! "ratios_valid" = row_get indicator_row "ratios_valid" /\
    forall k, k <> "pre_event_valid" -> k <> "post_event_valid" -> k <> "error" ->
      r !! k = row_get indicator_row k.
Proof.
  intros Hutc Hcols.
  assert (Het : event_time_of L indicator_row = NoDatetimeColumn).
  { unfold event_time_of. rewrite Hutc.
    assert (Hf : List.filter (fun col => (contains "datetime" (lower col) ||
                                          contains "time" (lower col))%bool)
                   (map fst indicator_row) = []).
    { induction (map fst indicator_row) as [|col cols IH]; [done|]. simpl.
      destruct (Hcols col (or_introl eq_refl)) as [-> ->]. simpl.
      apply IH. intros c Hc. apply Hcols. by right. }
    by rewrite Hf. }
  unfold analyze_indicator, analyze_pre_event, analyze_post_event. rewrite Het.
  cbn [get lookup]. eexists. split; [reflexivity|].
  rewrite !add_row_fields_lookup.
  split; [reflexivity|]. split; [reflexivity|]. split; [reflexivity|].
  split; [reflexivity|].
  intros k H1 H2 H3. rewrite add_row_fields_lookup.
  match goal with |- match ?d !! k with _ => _ end = _ =>
    assert (Hnone : d !! k = None) end.
  { rewrite !lookup_union_None. unfold dict_of. simpl.
    rewrite !lookup_insert_None, !lookup_empty. done. }
  by rewrite Hnone.
Qed.

Lemma analyze_indicator_without_time_witness :
  exists r,
    analyze_indicator null_library 5 [5; 15; 30] untimed_indicator scenario_pivots
    = Some (scenario_pivots, r) /\
    r !! "pre_event_valid" = Some (PyBool false).
Proof.
  destruct (analyze_indicator_without_time null_library 5 [5; 15; 30] untimed_indicator
              scenario_pivots) as (r & H1 & H2 & _).
  - reflexivity.
  - intros col [<-|[<-|[]]]; split; reflexivity.
  - exists r. split; [exact H1 | exact H2].
Defined.

(** ** The legs of a range *)

(** X20: for a window within the day, the mask of [DataProcessor]
    selects the same legs as the mask of
    [calculate_intraday_volatility.py] for the same bounds, a leg without
    a start time being selected by neither: the test on the date adds
    nothing.  With the ranges of the latter every leg that has a start time
    is selected for exactly one range of exactly one day, the day it starts
    on. *)
Theorem range_masks_agree (start_time_jst : list (option Z)) (date_val : Z)
    (window : Z * Z) (t : Z) :
  (0 <= window.1 -> window.2 <= 24 ->
   data_processor.window_mask start_time_jst (Some date_val) window
   = intraday_volatility.range_mask start_time_jst
       (data_processor.at_hour date_val window.1)
       (data_processor.at_hour date_val window.2)) /\
  exists range,
    In range calculate_intraday_volatility.JST_TIME_RANGES /\
    intraday_volatility.range_mask [Some t]
      (data_processor.at_hour (data_processor.date_of t) range.1)
      (data_processor.at_hour (data_processor.date_of t) range.2) = [true] /\
    forall date_val' range',
      In range' calculate_intraday_volatility.JST_TIME_RANGES ->
      intraday_volatility.range_mask [Some t]
        (data_processor.at_hour date_val' range'.1)
        (data_processor.at_hour date_val' range'.2) = [true] ->
      date_val' = data_processor.date_of t /\ range' = range.
Proof.
  split.
  - intros Ha Hb. unfold data_processor.window_mask, intraday_volatility.range_mask.
    apply map_ext. intros [u|]; [|done].
    destruct ((data_processor.at_hour date_val window.1 <=? u) &&
              (u <? data_processor.at_hour date_val window.2))%bool eqn:E; [|done].
    apply andb_true_iff in E as [E1%Z.leb_le E2%Z.ltb_lt].
    rewrite (date_of_at_hour date_val window.1 window.2 u) by done.
    by rewrite Z.eqb_refl.
  - set (d := data_processor.date_of t).
    assert (Hd : d * (24 * 3600000000000) <= t < (d + 1) * (24 * 3600000000000)).
    { unfold d, data_processor.date_of, data_processor.NS_PER_HOUR.
      pose proof (Z.div_mod t (24 * 3600000000000)).
      pose proof (Z.mod_pos_bound t (24 * 3600000000000)). lia. }
    assert (Hsel : forall date_val' range', 
      intraday_volatility.range_mask [Some t]
        (data_processor.at_hour date_val' range'.1)
        (data_processor.at_hour date_val' range'.2) = [true] ->
      date_val' * (24 * 3600000000000) + range'.1 * 3600000000000 <= t
      < date_val' * (24 * 3600000000000) + range'.2 * 3600000000000).
    { intros d' r' H. unfold intraday_volatility.range_mask in H. simpl in H.
      injection H as H. apply andb_true_iff in H as [H1%Z.leb_le H2%Z.ltb_lt].
      unfold data_processor.at_hour, data_processor.NS_PER_HOUR in *. lia. }
    assert (Hin : forall a b, d * (24 * 3600000000000) + a * 3600000000000 <= t
                              < d * (24 * 3600000000000) + b * 3600000000000 ->
      intraday_volatility.range_mask [Some t]
        (data_processor.at_hour d a) (data_processor.at_hour d b) = [true]).
    { intros a b [H1 H2]. unfold intraday_volatility.range_mask. simpl. f_equal.
      unfold data_processor.at_hour, data_processor.NS_PER_HOUR.
      apply andb_true_iff. split; [apply Z.leb_le | apply Z.ltb_lt]; lia. }
    assert (Hcase :
      (d * (24 * 3600000000000) + 0 * 3600000000000 <= t
       < d * (24 * 3600000000000) + 3 * 3600000000000) \/
      (d * (24 * 3600000000000) + 3 * 3600000000000 <= t
       < d * (24 * 3600000000000) + 7 * 3600000000000) \/
      (d * (24 * 3600000000000) + 7 * 3600000000000 <= t
       < d * (24 * 3600000000000) + 9 * 3600000000000) \/
      (d * (24 * 3600000000000) + 9 * 3600000000000 <= t
       < d * (24 * 3600000000000) + 12 * 3600000000000) \/
      (d * (24 * 3600000000000) + 12 * 3600000000000 <= t
       < d * (24 * 3600000000000) + 15 * 3600000000000) \/
      (d * (24 * 3600000000000) + 15 * 3600000000000 <= t
       < d * (24 * 3600000000000) + 21 * 3600000000000) \/
      (d * (24 * 3600000000000) + 21 * 3600000000000 <= t
       < d * (24 * 3600000000000) + 24 * 3600000000000)) by lia.
    destruct Hcase as [H|[H|[H|[H|[H|[H|H]]]]]];
      [exists (0, 3) | exists (3, 7) | exists (7, 9) | exists (9, 12) | exists (12, 15)
      | exists (15, 21) | exists (21, 24)];
      (split; [simpl; tauto|]); (split; [by apply Hin|]);
      intros d' r' Hr' Hm; apply Hsel in Hm; simpl in Hr';
      destruct Hr' as [<-|[<-|[<-|[<-|[<-|[<-|[<-|[]]]]]]]]; simpl in Hm;
      (split; [lia | first [reflexivity | exfalso; lia]]).
Qed.
